(** * Potala-Ticket: the change-gated ticket monitor of [ticket.py]

    A shallow embedding of the decision logic of [ticket.py]: the response
    classifier [fetch_slots], the slot summarizer [format_available_lines]
    and [join_lines], the open-date rule [compute_open_date], the push sink
    [notify_serverchan], the polling loop of [main] with its in-memory
    table [last_pushed], the headers of [get_headers] and the two
    constants the module reads from the environment when it is loaded.
    [setup_logging] and [make_session] only configure library objects and
    are left out.

    Python values are modelled as the program meets them:
    - a [str] is its sequence of code points ([pystr]);
    - a parsed JSON document is a [json] value; an object is a [gmap], so
      the order of its keys, which only [repr] shows, is not kept;
    - an exception is an [outcome] that is [Raised]; the exceptions are
      those an [except Exception] catches, interrupts are left out;
    - a [datetime.date] is carried by its proleptic Gregorian ordinal,
      from 1 for 0001-01-01 to 3652059 for 9999-12-31;
    - the loop body runs in a state monad over the table and the trace of
      calls made to the outside world (HTTP posts, pushes, sleeps);
    - [while True] is cut after a number of turns.

    What the interpreter and the network decide is an input of the model:
    the HTTP responses, the delivery outcome of a push, the clock and the
    random bits ([random.randint] is modelled on them, with the bounds
    the program passes).  Two tables of the interpreter are section variables:
    the decimal digits of the Unicode database beyond ASCII, and the text
    [repr] gives for floats, lists and dicts.  [int()] reads numerals of
    any length (the interpreter's cap on their digits is taken as off).
    Calls to [logging] are left out: they write text only and cannot
    raise here. *)

From Corelib Require Import PrimFloat.
From Stdlib Require Import ZArith NArith List Lia.
From Stdlib.Strings Require Import Byte.
From stdpp Require Import gmap strings list pretty.

Local Open Scope Z_scope.

(** ** Python strings *)

(** A [str] is a sequence of Unicode code points. *)
Record pystr := PyStr { chars : list N }.

#[global] Instance pystr_eq_dec : EqDecision pystr.
Proof. solve_decision. Defined.

#[global] Instance pystr_countable : Countable pystr.
Proof. apply (inj_countable' chars PyStr). by intros []. Defined.

(** String literals are written in UTF-8 and read as code points. *)
Fixpoint utf8_decode (fuel : nat) (bs : list N) : list N :=
  match fuel with
  | O => []
  | S fuel' =>
    match bs with
    | [] => []
    | b0 :: r =>
      if (b0 <? 0x80)%N then b0 :: utf8_decode fuel' r
      else if (b0 <? 0xE0)%N then
        match r with
        | b1 :: r' =>
            ((b0 - 0xC0) * 0x40 + (b1 - 0x80))%N :: utf8_decode fuel' r'
        | _ => []
        end
      else if (b0 <? 0xF0)%N then
        match r with
        | b1 :: b2 :: r' =>
            ((b0 - 0xE0) * 0x1000 + (b1 - 0x80) * 0x40 + (b2 - 0x80))%N
              :: utf8_decode fuel' r'
        | _ => []
        end
      else
        match r with
        | b1 :: b2 :: b3 :: r' =>
            ((b0 - 0xF0) * 0x40000 + (b1 - 0x80) * 0x1000
             + (b2 - 0x80) * 0x40 + (b3 - 0x80))%N
              :: utf8_decode fuel' r'
        | _ => []
        end
    end
  end.

Definition utf8_encode_char (c : N) : list N :=
  if (c <? 0x80)%N then [c]
  else if (c <? 0x800)%N then [0xC0 + c / 0x40; 0x80 + c mod 0x40]%N
  else if (c <? 0x10000)%N then
    [0xE0 + c / 0x1000; 0x80 + (c / 0x40) mod 0x40; 0x80 + c mod 0x40]%N
  else
    [0xF0 + c / 0x40000; 0x80 + (c / 0x1000) mod 0x40;
     0x80 + (c / 0x40) mod 0x40; 0x80 + c mod 0x40]%N.

Definition pystr_of_bytes (bs : list byte) : pystr :=
  PyStr (utf8_decode (length bs) (map Byte.to_N bs)).

Definition pystr_to_bytes (s : pystr) : list byte :=
  omap Byte.of_N (concat (map utf8_encode_char (chars s))).

Declare Scope py_scope.
Delimit Scope py_scope with py.
Bind Scope py_scope with pystr.
String Notation pystr pystr_of_bytes pystr_to_bytes : py_scope.

(** [a + b] on strings. *)
Definition py_cat (a b : pystr) : pystr := PyStr (chars a ++ chars b).
Infix "+++" := py_cat (at level 60, right associativity) : py_scope.

(** [bool(s)]: a string is true when it is not empty. *)
Definition py_nonempty (s : pystr) : bool :=
  match chars s with [] => false | _ :: _ => true end.

(** [s == t]. *)
Definition py_eqb (s t : pystr) : bool := bool_decide (s = t).

(** [s[:n]]. *)
Definition py_take (n : nat) (s : pystr) : pystr := PyStr (take n (chars s)).

Fixpoint starts_with (p s : list N) : bool :=
  match p, s with
  | [], _ => true
  | _ :: _, [] => false
  | x :: p', y :: s' => (x =? y)%N && starts_with p' s'
  end.

Fixpoint occurs_in (p s : list N) : bool :=
  starts_with p s ||
  match s with
  | [] => false
  | _ :: s' => occurs_in p s'
  end.

(** [sub in s]. *)
Definition py_in (sub s : pystr) : bool := occurs_in (chars sub) (chars s).

Fixpoint join_chars (sep : list N) (l : list pystr) : list N :=
  match l with
  | [] => []
  | [x] => chars x
  | x :: rest => chars x ++ sep ++ join_chars sep rest
  end.

(** [sep.join(l)]. *)
Definition py_join (sep : pystr) (l : list pystr) : pystr :=
  PyStr (join_chars (chars sep) l).

(** [str.isspace] on one code point: the white space [str.strip()] removes. *)
Definition is_space (c : N) : bool :=
  ((0x09 <=? c) && (c <=? 0x0D) || (0x1C <=? c) && (c <=? 0x20)
   || (c =? 0x85) || (c =? 0xA0) || (c =? 0x1680)
   || (0x2000 <=? c) && (c <=? 0x200A)
   || (c =? 0x2028) || (c =? 0x2029) || (c =? 0x202F)
   || (c =? 0x205F) || (c =? 0x3000))%N.

Fixpoint lstrip_chars (l : list N) : list N :=
  match l with
  | [] => []
  | c :: r => if is_space c then lstrip_chars r else l
  end.

(** [s.strip()]. *)
Definition py_strip (s : pystr) : pystr :=
  PyStr (rev (lstrip_chars (rev (lstrip_chars (chars s))))).

(** The text of a Rocq string of ASCII characters. *)
Definition of_ascii_string (s : string) : pystr :=
  PyStr (map Ascii.N_of_ascii (String.list_ascii_of_string s)).

(** [str(n)] for an [int]: its decimal numeral. *)
Definition str_of_Z (n : Z) : pystr := of_ascii_string (pretty n).

(** ** Exceptions *)

Inductive exn : Set :=
| AttributeError
| ValueError
| OverflowError
| AssertionError
| RequestException
| HTTPError.

Inductive outcome (A : Type) : Type :=
| Returned (a : A)
| Raised (e : exn).
Arguments Returned {A} a.
Arguments Raised {A} e.

#[global] Instance outcome_ret : MRet outcome := @Returned.
#[global] Instance outcome_bind : MBind outcome := fun A B f m =>
  match m with
  | Returned a => f a
  | Raised e => Raised e
  end.

(** ** JSON values, as [json.loads] builds them *)

#[warnings="-register-all"]
Inductive json : Type :=
| JNull
| JBool (b : bool)
| JInt (n : Z)
| JFloat (f : float)
| JStr (s : pystr)
| JList (l : list json)
| JDict (d : gmap pystr json).

(** [bool(v)]. *)
Definition truthy (v : json) : bool :=
  match v with
  | JNull => false
  | JBool b => b
  | JInt n => negb (n =? 0)
  | JFloat f => negb (PrimFloat.eqb f 0%float)
  | JStr s => py_nonempty s
  | JList l => match l with [] => false | _ => true end
  | JDict d => negb (bool_decide (size d = 0%nat))
  end.

(** [v == 1] and [v == 0]: [True == 1], [1.0 == 1] and [False == 0] hold
    in Python, and a string never equals a number. *)
Definition eq_one (v : json) : bool :=
  match v with
  | JBool b => b
  | JInt n => n =? 1
  | JFloat f => PrimFloat.eqb f 1%float
  | _ => false
  end.

Definition eq_zero (v : json) : bool :=
  match v with
  | JBool b => negb b
  | JInt n => n =? 0
  | JFloat f => PrimFloat.eqb f 0%float
  | _ => false
  end.

(** [v.get(k, dflt)]: only a [dict] has the method. *)
Definition py_get (v : json) (k : pystr) (dflt : json) : outcome json :=
  match v with
  | JDict d => Returned (default dflt (d !! k))
  | _ => Raised AttributeError
  end.

(** ** Calendar dates *)

(** A [datetime.date], carried by [date.toordinal()]: 1 is 0001-01-01 and
    [MAXORDINAL] is 9999-12-31. *)
Record date := Date { toordinal : Z }.

Definition MAXORDINAL : Z := 3652059.

Definition is_leap (y : Z) : bool :=
  (y mod 4 =? 0) && (negb (y mod 100 =? 0) || (y mod 400 =? 0)).

Definition days_before_year (y : Z) : Z :=
  let p := y - 1 in p * 365 + p / 4 - p / 100 + p / 400.

Definition days_in_month (y m : Z) : Z :=
  if (m =? 2) && is_leap y then 29
  else nth (Z.to_nat m) [0; 31; 28; 31; 30; 31; 30; 31; 31; 30; 31; 30; 31] 0.

Definition days_before_month (y m : Z) : Z :=
  nth (Z.to_nat m) [0; 0; 31; 59; 90; 120; 151; 181; 212; 243; 273; 304; 334] 0
  + (if (2 <? m) && is_leap y then 1 else 0).

Definition ymd2ord (y m d : Z) : Z :=
  days_before_year y + days_before_month y m + d.

(** [datetime.date(y, m, d)]. *)
Definition date_new (y m d : Z) : outcome date :=
  if (1 <=? y) && (y <=? 9999) && (1 <=? m) && (m <=? 12)
     && (1 <=? d) && (d <=? days_in_month y m)
  then Returned (Date (ymd2ord y m d))
  else Raised ValueError.

(** [d - datetime.timedelta(days=n)]. *)
Definition date_sub_days (d : date) (n : Z) : outcome date :=
  let o := toordinal d - n in
  if (0 <? o) && (o <=? MAXORDINAL) then Returned (Date o)
  else Raised OverflowError.

(** [a < b] and [a >= b] on dates. *)
Definition date_ltb (a b : date) : bool := toordinal a <? toordinal b.
Definition date_geb (a b : date) : bool := toordinal b <=? toordinal a.

(** ** The world outside and the monitor's memory *)

(** What [sess.post(...)] gives in [fetch_slots]: an exception with text
    [str(e)], or a response. *)
Record response := Response {
  status_code : Z;
  text : pystr;
  (** [r.json()]: the parsed body, or [None] when parsing raises *)
  json_body : option json;
  (** [str(e)] of the exception [r.json()] raises *)
  json_error : pystr;
  (** [str(e2)] of the exception [r.raise_for_status()] raises *)
  status_error : pystr
}.

Inductive http_result :=
| PostRaised (e : pystr)
| PostReturned (r : response).

(** What [requests.post(...)] gives in [notify_serverchan]: an exception,
    or a response with its status code. *)
Inductive push_result :=
| PushRaised
| PushReturned (code : Z).

(** [r.raise_for_status()] raises for the 4xx and 5xx codes. *)
Definition is_error_status (code : Z) : bool := (400 <=? code) && (code <? 600).

(** The calls the program makes to the outside, in the order made. *)
Inductive event :=
| EvFetch (commodity_id : Z) (date_str : pystr)
    (** [sess.post(BASE_URL, json=payload)] *)
| EvNotify (title content : pystr)
    (** [notify_serverchan(title, content)] is entered *)
| EvPush (url title desp : pystr)
    (** [requests.post(url, data={"title": title, "desp": desp})] *)
| EvSleep (seconds : Z) (fraction : N)
    (** [time.sleep(seconds + fraction / 2**53)] *).

(** The table [last_pushed] of [main]: each key [(cid, date_str)] has a
    dict with the keys ["status"] and ["payload"]. *)
Record machine := Machine {
  last_pushed : gmap (Z * pystr) (gmap pystr pystr);
  trace : list event
}.

(** Code that reads and writes the table, calls the outside and may raise. *)
Definition M (A : Type) : Type := machine → outcome A * machine.

#[global] Instance M_ret : MRet M := fun A a m => (Returned a, m).
#[global] Instance M_bind : MBind M := fun A B f c m =>
  match c m with
  | (Returned a, m') => f a m'
  | (Raised e, m') => (Raised e, m')
  end.

Definition raise {A} (e : exn) : M A := fun m => (Raised e, m).

Definition lift {A} (o : outcome A) : M A := fun m => (o, m).

Definition emit (ev : event) : M unit := fun m =>
  (Returned (), Machine (last_pushed m) (trace m ++ [ev])).

(** [try: body except Exception: handler]. *)
Definition try_except {A} (body : M A) (handler : exn → M A) : M A := fun m =>
  match body m with
  | (Returned a, m') => (Returned a, m')
  | (Raised e, m') => handler e m'
  end.

(** [last_pushed.get(key, {})]. *)
Definition table_get (key : Z * pystr) : M (gmap pystr pystr) := fun m =>
  (Returned (default ∅ (last_pushed m !! key)), m).

(** [last_pushed[key] = st]. *)
Definition table_set (key : Z * pystr) (st : gmap pystr pystr) : M unit := fun m =>
  (Returned (), Machine (<[key := st]> (last_pushed m)) (trace m)).

(** The dict [{"status": s, "payload": p}]. *)
Definition status_payload (s p : pystr) : gmap pystr pystr :=
  <["status"%py := s]> (<["payload"%py := p]> ∅).

(** What one pass of the loop body meets: the answer to the fetch, the
    answer to the push, and the draw of [random.random()] for the pause
    (as the numerator of a fraction of [2**53]). *)
Record poll_input := PollInput {
  net : http_result;
  push : push_result;
  pause : N
}.

(** What one turn of [while True] meets: the day at its start and at its
    end, the inputs of each pass of the inner loops, by the positions of
    the product and of the date, and the word of random bits from which
    [random.randint] makes the jitter. *)
Record cycle_input := CycleInput {
  today_at_start : date;
  polls : nat → nat → poll_input;
  today_at_end : date;
  jitter : Z
}.

(** ** Concrete inputs *)

(** An interpreter whose only decimal digits are the ASCII ones, and a
    stand-in for the text of [repr]; the examples below use neither. *)
Definition ascii_digits_only : N → option Z := fun _ => None.
Definition opaque_repr : json → pystr := fun _ => "<repr>"%py.

(** The slots of the summarizer's example. *)
Definition example_slots : list json :=
  [ JDict (<["time_interval_str"%py := JStr "09:00-10:00"]>
             (<["nums"%py := JStr "0"]> ∅));
    JDict (<["time_interval_str"%py := JStr "10:00-11:00"]>
             (<["nums"%py := JStr "5"]> ∅)) ].

(** A response [{"code": 1, "msg": "ok", "data": [...]}] with the slots of
    the example. *)
Definition stock_response : response :=
  Response 200 "{...}"
    (Some (JDict (<["code"%py := JInt 1]>
                    (<["msg"%py := JStr "ok"]>
                       (<["data"%py := JList example_slots]> ∅)))))
    "" "".

(** A response [{"code": 0, "msg": "请先登录", "data": null}]. *)
Definition login_response : response :=
  Response 200 "{...}"
    (Some (JDict (<["code"%py := JInt 0]>
                    (<["msg"%py := JStr "请先登录"]>
                       (<["data"%py := JNull]> ∅)))))
    "" "".

(** A response with status 200 whose body is the JSON text [[]]. *)
Definition list_body_response : response :=
  Response 200 "[]" (Some (JList [])) "" "".

(** Polls meeting these answers; the delivery of the push fails. *)
Definition stock_poll : poll_input :=
  PollInput (PostReturned stock_response) PushRaised 4503599627370496.
Definition login_poll : poll_input :=
  PollInput (PostReturned login_response) PushRaised 0.
Definition other_stock_poll : poll_input :=
  PollInput (PostReturned stock_response) (PushReturned 200) 1.

(** The days 2025-09-15 and 2025-09-20. *)
Definition day_2025_09_15 : date := Date (ymd2ord 2025 9 15).
Definition day_2025_09_20 : date := Date (ymd2ord 2025 9 20).

(** A turn on 2025-09-20 that meets the response with stock everywhere. *)
Definition stock_turn : cycle_input :=
  CycleInput day_2025_09_20 (fun _ _ => stock_poll) day_2025_09_20 7.


(** A turn on 2025-09-15, the day before the open date of 2025-10-01. *)
Definition early_turn : cycle_input :=
  CycleInput day_2025_09_15 (fun _ _ => stock_poll) day_2025_09_15 3.


(** The four turns of the end-to-end scenario: not yet open, a slot A
    with 3 left, the same again, the slot A with 1 left. *)
Definition not_open_response : response :=
  Response 200 "{...}"
    (Some (JDict (<["code"%py := JInt 0]>
                    (<["msg"%py := JStr "暂无数据"]>
                       (<["data"%py := JNull]> ∅)))))
    "" "".

Definition slot_A (left : pystr) : json :=
  JDict (<["time_interval_str"%py := JStr "A"]> (<["nums"%py := JStr left]> ∅)).

Definition slot_A_response (left : pystr) : response :=
  Response 200 "{...}"
    (Some (JDict (<["code"%py := JInt 1]>
                    (<["msg"%py := JStr "ok"]>
                       (<["data"%py := JList [slot_A left]]> ∅)))))
    "" "".

Definition scenario (turn : nat) : cycle_input :=
  let answer :=
    match turn with
    | 0%nat => not_open_response
    | 1%nat | 2%nat => slot_A_response "3"
    | _ => slot_A_response "1"
    end in
  CycleInput day_2025_09_20
    (fun _ _ => PollInput (PostReturned answer) (PushReturned 200) 0)
    day_2025_09_20 0.


(** An answer whose body, when it parses as JSON, is an object. *)
Definition object_answer (answer : http_result) : bool :=
  match answer with
  | PostRaised _ => true
  | PostReturned r =>
      match json_body r with
      | Some (JDict _) | None => true
      | Some _ => false
      end
  end.


(** ** The environment *)

(** [os.getenv(name, default)] in the environment [env]. *)
Definition getenv (env : gmap pystr pystr) (name dflt : pystr) : pystr :=
  default dflt (env !! name).

(** Lines 43 and 46: the module constants, from the environment [env] in
    which the module is loaded. *)
Definition load_SERVERCHAN_SENDKEY (env : gmap pystr pystr) : pystr :=
  py_strip (getenv env "SERVERCHAN_SENDKEY" "").

Definition load_POTALA_TOKEN (env : gmap pystr pystr) : pystr :=
  py_strip (getenv env "POTALA_TOKEN" "").

(** [get_headers()] in the environment [env] of the call, for the module
    constant [POTALA_TOKEN]; the entries in the order of the dict display. *)
Definition get_headers (POTALA_TOKEN : pystr) (env : gmap pystr pystr)
  : gmap pystr pystr :=
  let token_env := getenv env "POTALA_TOKEN" POTALA_TOKEN in
  <["Accept-Language"%py := "zh-CN,zh;q=0.9"%py]>
  (<["Accept-Encoding"%py := "gzip, deflate, br"%py]>
  (<["Referer"%py := "把你抓包的 Referer 填到这"%py]>
  (<["Accept"%py := "*/*"%py]>
  (<["version"%py := "把你抓包的 version 填到这"%py]>
  (<["token"%py := if py_nonempty token_env then token_env else ""%py]>
  (<["site-id"%py := "把你抓包的 site-id 填到这"%py]>
  (<["platform"%py := "wxMiniProgram"%py]>
  (<["xweb_xhr"%py := "1"%py]>
  (<["Content-Type"%py := "application/json"%py]>
  (<["Connection"%py := "keep-alive"%py]>
  (<["Host"%py := "把你抓包的 host 填到这"%py]> ∅))))))))))).

(** ** The constants of the program *)

Definition CHECK_INTERVAL_SEC : Z := 60.
Definition JITTER_SEC : Z := 10.
Definition EARLY_CHECK_INTERVAL_SEC : Z := 43200.

Module FetchStatus.
Definition OK : pystr := "OK".
Definition NOT_OPEN : pystr := "NOT_OPEN".
Definition ERROR : pystr := "ERROR".
End FetchStatus.

(** The line feed, which joins the lines of a push. *)
Definition LF : pystr := PyStr [0x0A%N].

Section Monitor.

(** ** The configuration *)

(** The monitored products and dates; [ticket.py] sets [[1]] and
    [["2025-10-01"]]. *)
Variable COMMODITY_IDS : list Z.
Variable TARGET_DATES : list pystr.

(** The push key, read from the environment when the module loads. *)
Variable SERVERCHAN_SENDKEY : pystr.

(** ** The interpreter's tables *)

(** The decimal value of a code point beyond ASCII that the Unicode
    database classes as a decimal digit (category Nd), if it is one. *)
Variable unicode_decimal : N → option Z.

(** The text [repr] gives for a float, a list or a dict. *)
Variable py_repr : json → pystr.

(** [str(v)], which is also how an f-string renders [v]. *)
Definition py_str (v : json) : pystr :=
  match v with
  | JNull => "None"
  | JBool true => "True"
  | JBool false => "False"
  | JInt n => str_of_Z n
  | JStr s => s
  | JFloat _ | JList _ | JDict _ => py_repr v
  end.

(** The decimal digit a code point stands for, as [int()] and the regular
    expression class [\d] read it. *)
Definition digit_value (c : N) : option Z :=
  if ((0x30 <=? c) && (c <=? 0x39))%N then Some (Z.of_N c - 0x30)
  else if (c <? 0x80)%N then None
  else if is_space c then None
  else unicode_decimal c.

(** The digits of an integer literal: groups of digits, single underscores
    between them. *)
Fixpoint int_digits (acc : Z) (after_digit : bool) (l : list N) : option Z :=
  match l with
  | [] => if after_digit then Some acc else None
  | c :: r =>
      if (c =? 0x5F)%N then
        if after_digit then int_digits acc false r else None
      else
        match digit_value c with
        | Some d => int_digits (10 * acc + d) true r
        | None => None
        end
  end.

(** The white space [int()] skips at both ends of its argument. *)
Definition int_space (c : N) : bool :=
  ((0x09 <=? c) && (c <=? 0x0D) || (c =? 0x20)
   || (0x80 <=? c) && is_space c)%N.

Fixpoint int_lstrip (l : list N) : list N :=
  match l with
  | [] => []
  | c :: r => if int_space c then int_lstrip r else l
  end.

(** [int(s)] for a string [s], base ten. *)
Definition py_int (s : pystr) : outcome Z :=
  let body := rev (int_lstrip (rev (int_lstrip (chars s)))) in
  let signed :=
    match body with
    | 0x2D%N :: r => (-1, r)
    | 0x2B%N :: r => (1, r)
    | _ => (1, body)
    end in
  match int_digits 0 false signed.2 with
  | Some n => Returned (signed.1 * n)
  | None => Raised ValueError
  end.

(** ** [datetime.strptime(s, "%Y-%m-%d").date()] *)

(** The directive [%m]: the alternatives [1[0-2]|0[1-9]|[1-9]], tried in
    this order; the value read and the rest of the text. *)
Definition strp_month (l : list N) : option (Z * list N) :=
  match l with
  | 0x31%N :: c :: r =>
      if ((0x30 <=? c) && (c <=? 0x32))%N then Some (10 + (Z.of_N c - 0x30), r)
      else Some (1, c :: r)
  | 0x30%N :: c :: r =>
      if ((0x31 <=? c) && (c <=? 0x39))%N then Some (Z.of_N c - 0x30, r)
      else None
  | c :: r =>
      if ((0x31 <=? c) && (c <=? 0x39))%N then Some (Z.of_N c - 0x30, r)
      else None
  | [] => None
  end.

(** The directive [%d]: the alternatives [3[0-1]|[1-2]\d|0[1-9]|[1-9]| [1-9]]. *)
Definition strp_day (l : list N) : option (Z * list N) :=
  let one_digit c r :=
    if ((0x31 <=? c) && (c <=? 0x39))%N then Some (Z.of_N c - 0x30, r)
    else None in
  match l with
  | c :: c' :: r =>
      if ((c =? 0x33) && ((c' =? 0x30) || (c' =? 0x31)))%N
      then Some (30 + (Z.of_N c' - 0x30), r)
      else if ((c =? 0x31) || (c =? 0x32))%N then
        match digit_value c' with
        | Some v => Some (10 * (Z.of_N c - 0x30) + v, r)
        | None => one_digit c (c' :: r)
        end
      else if ((c =? 0x30) && (0x31 <=? c') && (c' <=? 0x39))%N
      then Some (Z.of_N c' - 0x30, r)
      else if ((0x31 <=? c) && (c <=? 0x39))%N
      then Some (Z.of_N c - 0x30, c' :: r)
      else if ((c =? 0x20) && (0x31 <=? c') && (c' <=? 0x39))%N
      then Some (Z.of_N c' - 0x30, r)
      else None
  | [c] => one_digit c []
  | [] => None
  end.

(** The whole text must match [\d\d\d\d-%m-%d] and name a calendar day. *)
Definition strptime_date (s : pystr) : outcome date :=
  match chars s with
  | y1 :: y2 :: y3 :: y4 :: 0x2D%N :: r =>
      match digit_value y1, digit_value y2, digit_value y3, digit_value y4 with
      | Some a, Some b, Some c, Some d =>
          match strp_month r with
          | Some (m, 0x2D%N :: r') =>
              match strp_day r' with
              | Some (dd, []) => date_new (1000 * a + 100 * b + 10 * c + d) m dd
              | _ => Raised ValueError
              end
          | _ => Raised ValueError
          end
      | _, _, _, _ => Raised ValueError
      end
  | _ => Raised ValueError
  end.

(** ** The program *)

(** [notify_serverchan(title, content)]. *)
Definition notify_serverchan (title content : pystr) (answer : push_result)
  : M unit :=
  emit (EvNotify title content);;
  if negb (py_nonempty SERVERCHAN_SENDKEY) then mret ()
  else
    try_except
      (let url := ("https://sctapi.ftqq.com/" +++ SERVERCHAN_SENDKEY
                   +++ ".send")%py in
       emit (EvPush url title content);;
       match answer with
       | PushRaised => raise RequestException
       | PushReturned code =>
           (* response.raise_for_status() *)
           if is_error_status code then raise HTTPError else mret ()
       end)
      (fun _ => (* logging.warning *) mret ()).

(** [fetch_slots(sess, commodity_id, date_str)]: the triple
    [(status, slots, msg)]. *)
Definition fetch_slots (commodity_id : Z) (date_str : pystr)
    (answer : http_result) : M (pystr * option (list json) * pystr) :=
  emit (EvFetch commodity_id date_str);;
  match answer with
  | PostRaised e =>
      mret (FetchStatus.ERROR, None, "网络异常: " +++ e)%py
  | PostReturned r =>
      match json_body r with
      | None =>
          if is_error_status (status_code r)
          then mret (FetchStatus.ERROR, None, "HTTP异常: " +++ status_error r)%py
          else mret (FetchStatus.ERROR, None,
                     "JSON解析异常: " +++ json_error r +++ " | 响应内容: "
                     +++ py_take 200 (text r))%py
      | Some data =>
          code ← lift (py_get data "code" JNull);
          raw_msg ← lift (py_get data "msg" (JStr ""));
          let msg := py_str raw_msg in
          let listed :=
            match data with
            | JDict d =>
                match d !! "data"%py with
                | Some (JList l) => Some l
                | _ => None
                end
            | _ => None
            end in
          match (if eq_one code then listed else None) with
          | Some l => mret (FetchStatus.OK, Some l, msg)
          | None =>
              if eq_zero code && py_in "暂无数据" msg
              then mret (FetchStatus.NOT_OPEN, None, msg)
              else if py_in "登录" msg || py_in "请先登录" msg || eq_zero code
              then mret (FetchStatus.ERROR, None,
                         "接口异常或token无效: " +++ msg)%py
              else mret (FetchStatus.ERROR, None,
                         "未知返回: code=" +++ py_str code +++ ", msg="
                         +++ msg)%py
          end
      end
  end.

(** The [try] block of [format_available_lines]: the quantity of a slot. *)
Definition slot_nums (s : json) : Z :=
  let attempt :=
    v ← py_get s "nums" (JStr "0");
    let t := py_strip (py_str v) in
    (* int(t or 0) *)
    if py_nonempty t then py_int t else Returned 0 in
  match attempt with
  | Returned nums => nums
  | Raised _ => 0
  end.

Fixpoint format_available_lines_loop (lines : list pystr) (slots : list json)
  : outcome (list pystr) :=
  match slots with
  | [] => Returned lines
  | s :: rest =>
      let nums := slot_nums s in
      if 0 <? nums then
        a ← py_get s "time_interval_str" JNull;
        ti ← (if truthy a then Returned a else py_get s "time_interval" JNull);
        format_available_lines_loop
          (lines ++ [py_str ti +++ "：" +++ str_of_Z nums +++ " 张"]%py) rest
      else format_available_lines_loop lines rest
  end.

(** [format_available_lines(slots)]. *)
Definition format_available_lines (slots : list json) : outcome (list pystr) :=
  format_available_lines_loop [] slots.

(** [join_lines(lines)]. *)
Definition join_lines (lines : list pystr) : pystr :=
  match lines with
  | [] => ""%py
  | _ => py_join " | " lines
  end.

(** [compute_open_date(date_str)]. *)
Definition compute_open_date (date_str : pystr) : outcome date :=
  target ← strptime_date date_str;
  date_sub_days target 15.

(** [st.get("status") != s]. *)
Definition status_differs (st : gmap pystr pystr) (s : pystr) : bool :=
  negb (bool_decide (st !! "status"%py = Some s)).

(** The push of lines 265 to 268: its title and its body. *)
Definition push_title (cid : Z) (date_str : pystr) : pystr :=
  ("布达拉宫 " +++ date_str +++ " 有票更新（路线" +++ str_of_Z cid +++ "）")%py.

Definition push_body (lines : list pystr) : pystr :=
  py_join LF (map (fun ln => "- " +++ ln)%py lines).

(** The body of the two [for] loops of [main] (lines 202 to 277), for the
    key [(cid, date_str)] on the day [today]. *)
Definition main_key (today : date) (cid : Z) (date_str : pystr)
    (w : poll_input) : M unit :=
  let key := (cid, date_str) in
  open_date ← lift (compute_open_date date_str);
  if date_ltb today open_date then
    st ← table_get key;
    if status_differs st "NOT_OPEN"
    then table_set key (status_payload "NOT_OPEN" "")
    else mret ()
    (* continue *)
  else
    '(status, slots, msg) ← fetch_slots cid date_str (net w);
    if py_eqb status FetchStatus.NOT_OPEN then
      st ← table_get key;
      if status_differs st "NOT_OPEN"
      then table_set key (status_payload "NOT_OPEN" "")
      else mret ()
      (* continue *)
    else if py_eqb status FetchStatus.ERROR then
      mret () (* continue *)
    else
      (* assert status == FetchStatus.OK and slots is not None *)
      match (if py_eqb status FetchStatus.OK then slots else None) with
      | None => raise AssertionError
      | Some slots =>
          lines ← lift (format_available_lines slots);
          let merged := join_lines lines in
          st ← table_get key;
          let new_status : pystr :=
            if py_nonempty merged then "HAS_STOCK"%py else "NO_STOCK"%py in
          let prev_status := st !! "status"%py in
          let prev_payload := default ""%py (st !! "payload"%py) in
          let changed :=
            negb (bool_decide (Some new_status = prev_status))
            || (py_eqb new_status "HAS_STOCK"
                && negb (py_eqb merged prev_payload)) in
          (if changed then
             if py_eqb new_status "HAS_STOCK" then
               notify_serverchan (push_title cid date_str) (push_body lines)
                 (push w);;
               table_set key (status_payload "HAS_STOCK" merged)
             else
               table_set key (status_payload "NO_STOCK" "")
           else mret ());;
          emit (EvSleep 1 (pause w))
      end.

(** [any(now.date() >= compute_open_date(d) for d in TARGET_DATES)]: the
    generator stops at the first date in its window. *)
Fixpoint any_in_open_window (today : date) (dates : list pystr)
  : outcome bool :=
  match dates with
  | [] => Returned false
  | d :: rest =>
      open_date ← compute_open_date d;
      if date_geb today open_date then Returned true
      else any_in_open_window today rest
  end.

(** [random.randint(a, b)] returns one of these, each as likely as the
    others. *)
Definition randint_outcomes (a b : Z) : list Z := seqZ a (b - a + 1).

(** [random.randint(a, b)] is [randrange(a, b + 1)]: with the width
    [b + 1 - a] it raises [ValueError] when the width is not positive and
    is [a + _randbelow(width)] otherwise.  [_randbelow(n)] draws words of
    [n.bit_length()] random bits until one is below [n], and returns that
    one.  The input [word] is the word returned; a number outside of
    [0, n) stands for the word below [n] it is congruent to, so that
    every input is a word the library can return. *)
Definition randint (a b : Z) (word : Z) : outcome Z :=
  let width := b + 1 - a in
  if 0 <? width then Returned (a + word mod width) else Raised ValueError.

(** Lines 280 to 283: the seconds to sleep, for the word [word] that
    [random.randint(0, JITTER_SEC)] draws. *)
Definition sleep_duration (today : date) (word : Z) : outcome Z :=
  any ← any_in_open_window today TARGET_DATES;
  let base_sleep :=
    if any : bool then CHECK_INTERVAL_SEC else EARLY_CHECK_INTERVAL_SEC in
  jitter ← randint 0 JITTER_SEC word;
  Returned (base_sleep + jitter).

Fixpoint for_each {A} (body : nat → A → M unit) (i : nat) (l : list A)
  : M unit :=
  match l with
  | [] => mret ()
  | x :: rest => body i x;; for_each body (S i) rest
  end.

(** The two [for] loops of one turn (lines 200 to 277). *)
Definition main_for (w : cycle_input) : M unit :=
  for_each (fun i cid =>
    for_each (fun j date_str =>
      main_key (today_at_start w) cid date_str (polls w i j))
      0%nat TARGET_DATES)
    0%nat COMMODITY_IDS.

(** One turn of [while True] (lines 199 to 285). *)
Definition main_cycle (w : cycle_input) : M unit :=
  main_for w;;
  seconds ← lift (sleep_duration (today_at_end w) (jitter w));
  emit (EvSleep seconds 0).

(** The first [n] turns of [while True], turn [k] meeting [ws k]. *)
Fixpoint main_turns (ws : nat → cycle_input) (k n : nat) : M unit :=
  match n with
  | O => mret ()
  | S n' => main_cycle (ws k);; main_turns ws (S k) n'
  end.

(** The loop of [main()] (lines 196 to 285) cut after [n] turns: it starts
    from the empty table.  What [main()] does before the loop (lines 183
    to 189: the handlers of the log, the session, the boot message) is
    left out. *)
Definition main (ws : nat → cycle_input) (n : nat) : outcome unit * machine :=
  main_turns ws 0 n (Machine ∅ []).

(** ** The specification's vocabulary *)

(** The classifier's three outcomes. *)
Inductive AvailabilitySnapshot :=
| Open (slots : list json)
| NotYetOpen (message : pystr)
| Error (message : pystr).

(** The per-key memory of the notifier. *)
Inductive NotifiedState :=
| Unknown
| NotOpenNotified
| NoStockNotified
| HasStockNotified (fingerprint : pystr).

(** A bookable interval with its remaining quantity. *)
Record SlotQuantity := SlotQty { label : pystr; remaining : Z }.

(** The triple of [fetch_slots] read as a snapshot. *)
Definition snapshot_of (t : pystr * option (list json) * pystr)
  : option AvailabilitySnapshot :=
  let '(status, slots, msg) := t in
  if py_eqb status FetchStatus.OK then Open <$> slots
  else if py_eqb status FetchStatus.NOT_OPEN then Some (NotYetOpen msg)
  else if py_eqb status FetchStatus.ERROR then Some (Error msg)
  else None.

(** A dict of [last_pushed] read as a notified state; the missing entry
    [{}] is the unknown state. *)
Definition notified_state (st : gmap pystr pystr) : NotifiedState :=
  match st !! "status"%py with
  | Some s =>
      if py_eqb s "NOT_OPEN" then NotOpenNotified
      else if py_eqb s "NO_STOCK" then NoStockNotified
      else if py_eqb s "HAS_STOCK"
      then HasStockNotified (default ""%py (st !! "payload"%py))
      else Unknown
  | None => Unknown
  end.

(** The state the table holds for a key. *)
Definition state_of (m : machine) (key : Z * pystr) : NotifiedState :=
  notified_state (default ∅ (last_pushed m !! key)).

(** *** The summarizer, in the specification's words *)

(** The quantity of a slot: the text of its ["nums"] entry, the white
    space around it dropped, read as an integer; zero when the entry is
    missing or is no integer. *)
Definition parsed_quantity (s : json) : Z :=
  match s with
  | JDict d =>
      match d !! "nums"%py with
      | Some v =>
          match py_int (py_strip (py_str v)) with
          | Returned n => n
          | Raised _ => 0
          end
      | None => 0
      end
  | _ => 0
  end.

(** The label of a slot: its ["time_interval_str"], or else its
    ["time_interval"], as text. *)
Definition slot_label (s : json) : pystr :=
  match s with
  | JDict d =>
      let a := default JNull (d !! "time_interval_str"%py) in
      py_str (if truthy a then a else default JNull (d !! "time_interval"%py))
  | _ => "None"%py
  end.

(** [filterAvailable]: the entries with a positive quantity, in order. *)
Definition filterAvailable (slots : list json) : list SlotQuantity :=
  map (fun s => SlotQty (slot_label s) (parsed_quantity s))
      (filter (fun s => 0 < parsed_quantity s) slots).

(** The rendering of one slot. *)
Definition render (q : SlotQuantity) : pystr :=
  (label q +++ "：" +++ str_of_Z (remaining q) +++ " 张")%py.

(** [fingerprint]: the renderings joined by the separator. *)
Definition fingerprint (l : list SlotQuantity) : pystr :=
  py_join " | " (map render l).


(** *** The classifier, in the specification's words *)

(** The decision rule on a response with its [code], [msg] and optional
    [data]; a transport exception, a body that is no JSON and a body of
    another shape are errors. *)
Definition classify (answer : http_result) : AvailabilitySnapshot :=
  match answer with
  | PostRaised e => Error ("网络异常: " +++ e)%py
  | PostReturned r =>
      match json_body r with
      | None =>
          if is_error_status (status_code r)
          then Error ("HTTP异常: " +++ status_error r)%py
          else Error ("JSON解析异常: " +++ json_error r +++ " | 响应内容: "
                      +++ py_take 200 (text r))%py
      | Some (JDict d) =>
          let code := default JNull (d !! "code"%py) in
          let msg := py_str (default (JStr "") (d !! "msg"%py)) in
          let other :=
            if eq_zero code && py_in "暂无数据" msg then NotYetOpen msg
            else if py_in "登录" msg || py_in "请先登录" msg || eq_zero code
            then Error ("接口异常或token无效: " +++ msg)%py
            else Error ("未知返回: code=" +++ py_str code +++ ", msg="
                        +++ msg)%py in
          match d !! "data"%py with
          | Some (JList l) => if eq_one code then Open l else other
          | _ => other
          end
      | Some _ =>
          Error ("未知返回: code=None, msg=")%py
      end
  end.

(** *** The notifier, in the specification's words *)

(** The transition table: the listing to push, if any, and the new state. *)
Definition observe (prior : NotifiedState) (snapshot : AvailabilitySnapshot)
  : option (list pystr) * NotifiedState :=
  match snapshot with
  | NotYetOpen _ => (None, NotOpenNotified)
  | Error _ => (None, prior)
  | Open slots =>
      let listing := map render (filterAvailable slots) in
      match listing with
      | [] => (None, NoStockNotified)
      | _ =>
          let f := fingerprint (filterAvailable slots) in
          match prior with
          | HasStockNotified f' =>
              if py_eqb f f' then (None, prior)
              else (Some listing, HasStockNotified f)
          | _ => (Some listing, HasStockNotified f)
          end
      end
  end.

(** *** Reading the trace *)

(** The calls of [notify_serverchan] among some events: title and body. *)
Definition notify_calls (evs : list event) : list (pystr * pystr) :=
  omap (fun ev => match ev with
                  | EvNotify title content => Some (title, content)
                  | _ => None
                  end) evs.

(** The fetches among some events. *)
Definition fetch_calls (evs : list event) : list (Z * pystr) :=
  omap (fun ev => match ev with
                  | EvFetch cid date_str => Some (cid, date_str)
                  | _ => None
                  end) evs.

(** The events a run added to the trace of [m]. *)
Definition new_events (m m' : machine) : list event :=
  drop (length (trace m)) (trace m').

(** The body of the most recent push made for a key; the title of a push
    names its key ([push_title] is injective). *)
Definition last_notify (key : Z * pystr) (evs : list event) : option pystr :=
  last (omap (fun c : pystr * pystr =>
                if py_eqb c.1 (push_title key.1 key.2) then Some c.2 else None)
             (notify_calls evs)).

(** The invariant of the table: each dict holds a status of the closed
    set and its payload; the payload is empty but for [HAS_STOCK], where
    it is the joined lines of the listing last pushed for the key. *)
Definition entry_ok (m : machine) (key : Z * pystr) (st : gmap pystr pystr)
  : Prop :=
  (st = status_payload "NOT_OPEN" "")
  ∨ (st = status_payload "NO_STOCK" "")
  ∨ (∃ lines : list pystr,
       st = status_payload "HAS_STOCK" (join_lines lines)
       ∧ last_notify key (trace m) = Some (push_body lines)).

Definition table_ok (m : machine) : Prop :=
  ∀ key st, last_pushed m !! key = Some st → entry_ok m key st.

(** The events of one call of [notify_serverchan]: the call itself and,
    when the push key is set, the post to the push service. *)
Definition notify_events (title content : pystr) : list event :=
  EvNotify title content ::
  (if py_nonempty SERVERCHAN_SENDKEY
   then [EvPush ("https://sctapi.ftqq.com/" +++ SERVERCHAN_SENDKEY
                 +++ ".send")%py title content]
   else []).

(** The table after the key is routed to [NOT_OPEN] (lines 212 to 214 and
    223 to 227). *)
Definition route_not_open (key : Z * pystr)
    (tbl : gmap (Z * pystr) (gmap pystr pystr))
  : gmap (Z * pystr) (gmap pystr pystr) :=
  if status_differs (default ∅ (tbl !! key)) "NOT_OPEN"
  then <[key := status_payload "NOT_OPEN" ""]> tbl
  else tbl.

(** An event with the random part of a sleep forgotten. *)
Definition forget_pause (ev : event) : event :=
  match ev with
  | EvSleep seconds _ => EvSleep seconds 0
  | _ => ev
  end.

(** *** The shapes of one pass of the loop body *)

(** [pass today cid d w tbl o tbl' evs]: from the table [tbl], the pass
    for the key [(cid, d)] ends with the outcome [o] and the table [tbl'],
    having made the calls [evs]. *)
Inductive pass (today : date) (cid : Z) (d : pystr) (w : poll_input)
    (tbl : gmap (Z * pystr) (gmap pystr pystr))
  : outcome unit → gmap (Z * pystr) (gmap pystr pystr) → list event → Prop :=
| pass_no_date e :
    compute_open_date d = Raised e →
    pass today cid d w tbl (Raised e) tbl []
| pass_early od :
    compute_open_date d = Returned od →
    toordinal today < toordinal od →
    pass today cid d w tbl (Returned ()) (route_not_open (cid, d) tbl) []
| pass_crash od e :
    compute_open_date d = Returned od →
    toordinal od ≤ toordinal today →
    (fetch_slots cid d (net w) (Machine ∅ [])).1 = Raised e →
    pass today cid d w tbl (Raised e) tbl [EvFetch cid d]
| pass_not_open od slots msg :
    compute_open_date d = Returned od →
    toordinal od ≤ toordinal today →
    (fetch_slots cid d (net w) (Machine ∅ [])).1
    = Returned (FetchStatus.NOT_OPEN, slots, msg) →
    pass today cid d w tbl (Returned ()) (route_not_open (cid, d) tbl)
      [EvFetch cid d]
| pass_error od slots msg :
    compute_open_date d = Returned od →
    toordinal od ≤ toordinal today →
    (fetch_slots cid d (net w) (Machine ∅ [])).1
    = Returned (FetchStatus.ERROR, slots, msg) →
    pass today cid d w tbl (Returned ()) tbl [EvFetch cid d]
| pass_unchanged od slots msg :
    compute_open_date d = Returned od →
    toordinal od ≤ toordinal today →
    (fetch_slots cid d (net w) (Machine ∅ [])).1
    = Returned (FetchStatus.OK, Some slots, msg) →
    pass today cid d w tbl (Returned ()) tbl
      [EvFetch cid d; EvSleep 1 (pause w)]
| pass_no_stock od slots msg :
    compute_open_date d = Returned od →
    toordinal od ≤ toordinal today →
    (fetch_slots cid d (net w) (Machine ∅ [])).1
    = Returned (FetchStatus.OK, Some slots, msg) →
    filterAvailable slots = [] →
    pass today cid d w tbl (Returned ())
      (<[(cid, d) := status_payload "NO_STOCK" ""]> tbl)
      [EvFetch cid d; EvSleep 1 (pause w)]
| pass_push od slots msg :
    compute_open_date d = Returned od →
    toordinal od ≤ toordinal today →
    (fetch_slots cid d (net w) (Machine ∅ [])).1
    = Returned (FetchStatus.OK, Some slots, msg) →
    filterAvailable slots ≠ [] →
    pass today cid d w tbl (Returned ())
      (<[(cid, d) := status_payload "HAS_STOCK"
                       (join_lines (map render (filterAvailable slots)))]> tbl)
      ([EvFetch cid d]
       ++ notify_events (push_title cid d)
            (push_body (map render (filterAvailable slots)))
       ++ [EvSleep 1 (pause w)]).

(** *** Reading the configuration and more of the trace *)

(** The keys the loops visit, in the order of the two [for] loops. *)
Definition monitored_keys : list (Z * pystr) :=
  list_prod COMMODITY_IDS TARGET_DATES.

(** [today >= compute_open_date(d)], false when there is no open date. *)
Definition in_window (today : date) (d : pystr) : bool :=
  match compute_open_date d with
  | Returned open_date => date_geb today open_date
  | Raised _ => false
  end.

(** The posts to the push service among some events: url, title, body. *)
Definition push_posts (evs : list event) : list (pystr * pystr * pystr) :=
  omap (fun ev => match ev with
                  | EvPush url title desp => Some (url, title, desp)
                  | _ => None
                  end) evs.

(** The address [notify_serverchan] posts to. *)
Definition push_url : pystr :=
  ("https://sctapi.ftqq.com/" +++ SERVERCHAN_SENDKEY +++ ".send")%py.


(** The sleeps among some events: the seconds and the fraction. *)
Definition sleep_calls (evs : list event) : list (Z * N) :=
  omap (fun ev => match ev with
                  | EvSleep seconds fraction => Some (seconds, fraction)
                  | _ => None
                  end) evs.

(** The status [fetch_slots] returns for an answer, if it returns. *)
Definition fetched_status (cid : Z) (d : pystr) (answer : http_result)
  : option pystr :=
  match (fetch_slots cid d answer (Machine ∅ [])).1 with
  | Returned (status, _, _) => Some status
  | Raised _ => None
  end.


(** *** What a push carries *)

(** A text carries a listing when the lines of the listing occur in it one
    after the other, in the order of the listing. *)
Fixpoint carries (text : list N) (listing : list pystr) : Prop :=
  match listing with
  | [] => True
  | line :: rest =>
      ∃ before after,
        text = before ++ chars line ++ after ∧ carries after rest
  end.


(** *** The passes of a run *)

(** The run of [main] on [ws] reaches the pass at the position [(i, j)]
    of the turn [k] in the machine [m]: the turns before [k] have
    returned, and so have, in the turn [k], the passes for the products
    before the position [i] and, for the product at [i], the passes for
    the dates before the position [j]. *)
Definition reaches (ws : nat → cycle_input) (k i j : nat) (m : machine)
  : Prop :=
  ∃ cid mt m1,
    main_turns ws 0 k (Machine ∅ []) = (Returned (), mt)
    ∧ for_each (fun i cid =>
        for_each (fun j date_str =>
          main_key (today_at_start (ws k)) cid date_str (polls (ws k) i j))
          0%nat TARGET_DATES)
        0%nat (take i COMMODITY_IDS) mt
      = (Returned (), m1)
    ∧ COMMODITY_IDS !! i = Some cid
    ∧ for_each (fun j date_str =>
        main_key (today_at_start (ws k)) cid date_str (polls (ws k) i j))
        0%nat (take j TARGET_DATES) m1
      = (Returned (), m).

(** In the machine [m] of the run on [ws], the most recent call of
    [notify_serverchan] for the key [(cid, d)] was made by a pass of one
    of the first [turns] turns, with the lines of the slots that this
    pass fetched, and [payload] is the joined text of these lines. *)
Definition last_push_of (ws : nat → cycle_input) (turns : nat) (m : machine)
    (cid : Z) (d payload : pystr) : Prop :=
  ∃ (k i j : nat) (mb : machine) (slots : list json) (msg : pystr)
    (lines : list pystr) (later : list event),
    (k < turns)%nat
    ∧ COMMODITY_IDS !! i = Some cid
    ∧ TARGET_DATES !! j = Some d
    ∧ reaches ws k i j mb
    ∧ (fetch_slots cid d (net (polls (ws k) i j)) mb).1
      = Returned (FetchStatus.OK, Some slots, msg)
    ∧ format_available_lines slots = Returned lines
    ∧ notify_calls
        (new_events mb
           (main_key (today_at_start (ws k)) cid d (polls (ws k) i j) mb).2)
      = [(push_title cid d, push_body lines)]
    ∧ carries (chars (push_body lines)) lines
    ∧ lines ≠ []
    ∧ payload = join_lines lines
    ∧ trace m
      = trace (main_key (today_at_start (ws k)) cid d (polls (ws k) i j) mb).2
        ++ later
    ∧ last_notify (cid, d) later = None
    ∧ last_notify (cid, d) (trace m) = Some (push_body lines).

(** Every dict with the status [HAS_STOCK] holds the joined lines of the
    most recent push for its key. *)
Definition pushes_ok (ws : nat → cycle_input) (turns : nat) (m : machine)
  : Prop :=
  ∀ cid d payload,
    last_pushed m !! (cid, d) = Some (status_payload "HAS_STOCK" payload) →
    last_push_of ws turns m cid d payload.

(** * Properties *)

(** Runs the monad's plumbing in the goal. *)
Ltac msimpl :=
  unfold mbind, mret, M_bind, M_ret, outcome_bind, outcome_ret, lift, emit,
    raise, table_get, table_set, try_except;
  cbn beta iota zeta.

(** ** The model of the interpreter at work *)

Example literal_code_points :
  chars "：张 |"%py = [0xFF1A; 0x5F20; 0x20; 0x7C]%N
  ∧ pystr_to_bytes "张" = ["229"; "188"; "160"]%byte.
Proof. split; reflexivity. Qed.

Example py_strip_examples :
  py_strip "  5 " = "5"%py
  ∧ py_strip (PyStr [0x3000; 0x35; 0x0A; 0xA0]%N) = "5"%py
  ∧ py_strip "   " = ""%py.
Proof. repeat split; reflexivity. Qed.

Example py_int_examples :
  py_int "42" = Returned 42
  ∧ py_int " +1_000 " = Returned 1000
  ∧ py_int "-07" = Returned (-7)
  ∧ py_int "1__0" = Raised ValueError
  ∧ py_int "5.0" = Raised ValueError
  ∧ py_int "+ 5" = Raised ValueError
  ∧ py_int "" = Raised ValueError.
Proof. repeat split; vm_compute; reflexivity. Qed.

Example strptime_date_examples :
  strptime_date "2025-10-01" = date_new 2025 10 1
  ∧ strptime_date "2025-1-5" = date_new 2025 1 5
  ∧ strptime_date "2024-02-29" = date_new 2024 2 29
  ∧ strptime_date "2025-02-29" = Raised ValueError
  ∧ strptime_date "2025-10-011" = Raised ValueError
  ∧ strptime_date "25-10-01" = Raised ValueError
  ∧ strptime_date "0000-01-01" = Raised ValueError
  ∧ date_new 1 1 1 = Returned (Date 1)
  ∧ date_new 9999 12 31 = Returned (Date MAXORDINAL).
Proof. repeat split; vm_compute; reflexivity. Qed.

Example slot_nums_examples :
  slot_nums (JDict (<["nums"%py := JStr " 12 "]> ∅)) = 12
  ∧ slot_nums (JDict (<["nums"%py := JInt 3]> ∅)) = 3
  ∧ slot_nums (JDict (<["nums"%py := JStr "many"]> ∅)) = 0
  ∧ slot_nums (JDict (<["nums"%py := JStr ""]> ∅)) = 0
  ∧ slot_nums (JDict (<["nums"%py := JNull]> ∅)) = 0
  ∧ slot_nums (JDict (<["nums"%py := JBool true]> ∅)) = 0
  ∧ slot_nums (JDict ∅) = 0
  ∧ slot_nums (JStr "5") = 0
  ∧ slot_nums (JDict (<["nums"%py := JStr "-4"]> ∅)) = -4.
Proof. repeat split; vm_compute; reflexivity. Qed.

(** ** The summarizer *)

Lemma py_int_empty (t : pystr) : py_nonempty t = false → py_int t = Raised ValueError.
Proof.
  destruct t as [[|c l]]; [reflexivity | discriminate].
Qed.

(** The [try] block computes the quantity the specification describes: the
    default ["0"], the empty text and a slot that is no dict all give 0. *)
Lemma slot_nums_parsed (s : json) : slot_nums s = parsed_quantity s.
Proof.
  unfold slot_nums, parsed_quantity.
  destruct s as [| | | | |l|d]; try reflexivity.
  cbn [py_get mbind outcome_bind].
  destruct (d !! "nums"%py) as [v|] eqn:Hv; cbn [default from_option id].
  - destruct (py_nonempty (py_strip (py_str v))) eqn:Hne; [reflexivity|].
    by rewrite (py_int_empty _ Hne).
  - reflexivity.
Qed.

Lemma parsed_quantity_pos_dict (s : json) :
  0 < parsed_quantity s → ∃ d, s = JDict d.
Proof.
  destruct s; cbn; try lia. eauto.
Qed.

Lemma format_available_lines_loop_spec (acc : list pystr) (slots : list json) :
  format_available_lines_loop acc slots
  = Returned (acc ++ map render (filterAvailable slots)).
Proof.
  revert acc. induction slots as [|s rest IH]; intros acc.
  - cbn. by rewrite app_nil_r.
  - cbn [format_available_lines_loop]. rewrite slot_nums_parsed.
    unfold filterAvailable. rewrite filter_cons.
    destruct (decide (0 < parsed_quantity s)) as [Hpos|Hneg].
    + assert ((0 <? parsed_quantity s) = true) as -> by lia.
      destruct (parsed_quantity_pos_dict s Hpos) as [d ->].
      cbn [py_get mbind outcome_bind].
      destruct (truthy (default JNull (d !! "time_interval_str"%py))) eqn:Ht;
        cbn [mbind outcome_bind]; rewrite IH; unfold filterAvailable;
        cbn [map]; rewrite <- app_assoc; cbn [app];
        unfold render, slot_label; cbn [label remaining]; by rewrite Ht.
    + assert ((0 <? parsed_quantity s) = false) as -> by lia.
      apply IH.
Qed.

(** [format_available_lines] always returns, and returns the renderings of
    the filtered slots. *)
Lemma format_available_lines_spec (slots : list json) :
  format_available_lines slots = Returned (map render (filterAvailable slots)).
Proof. apply format_available_lines_loop_spec. Qed.

Lemma join_lines_fingerprint (l : list SlotQuantity) :
  join_lines (map render l) = fingerprint l.
Proof. destruct l; reflexivity. Qed.

(** C4. [format_available_lines] never raises and keeps, in the order of
    the input, exactly the slots whose quantity text (white space around
    it dropped) reads as a positive integer, a missing or non-numeric
    quantity counting as zero; [join_lines] of its lines is the
    fingerprint of the filtered slots, each rendered as label, full-width
    colon, quantity and the unit, joined by one separator; the empty
    sequence has the empty fingerprint; and the example input yields the
    one slot 10:00-11:00 with quantity 5 and its rendering. *)
Theorem C4_summarizer_refines_spec :
  (∀ slots : list json,
     format_available_lines slots
     = Returned (map render (filterAvailable slots))
     ∧ join_lines (map render (filterAvailable slots))
       = fingerprint (filterAvailable slots)
     ∧ filterAvailable slots
       = map (fun s => SlotQty (slot_label s) (parsed_quantity s))
           (filter (fun s => 0 < parsed_quantity s) slots))
  ∧ fingerprint [] = ""%py
  ∧ join_lines [] = ""%py
  ∧ filterAvailable example_slots = [SlotQty "10:00-11:00" 5]
  ∧ format_available_lines example_slots = Returned ["10:00-11:00：5 张"%py]
  ∧ fingerprint (filterAvailable example_slots) = "10:00-11:00：5 张"%py.
Proof.
  split; [|repeat split; vm_compute; reflexivity].
  intros slots. split; [apply format_available_lines_spec|].
  split; [apply join_lines_fingerprint | reflexivity].
Qed.

(** ** The open-date rule *)

(** Reads the month tables at the closed indices of the goal. *)
Ltac month_tables :=
  repeat match goal with
    | H : context [Z.to_nat ?k] |- _ =>
        let v := eval vm_compute in (Z.to_nat k) in
        change (Z.to_nat k) with v in H
    | |- context [Z.to_nat ?k] =>
        let v := eval vm_compute in (Z.to_nat k) in
        change (Z.to_nat k) with v
    end.

Lemma days_before_year_step (y : Z) :
  days_before_year (y + 1)
  = days_before_year y + (if is_leap y then 366 else 365).
Proof.
  unfold days_before_year, is_leap. cbn zeta.
  replace (y + 1 - 1) with (y - 1 + 1) by lia.
  destruct (Z.eqb_spec (y mod 4) 0), (Z.eqb_spec (y mod 100) 0),
    (Z.eqb_spec (y mod 400) 0); cbn [andb orb negb];
    Z.div_mod_to_equations; lia.
Qed.

Lemma days_before_year_mono (y z : Z) :
  y ≤ z → days_before_year y ≤ days_before_year z.
Proof.
  unfold days_before_year. cbn zeta. intros H.
  Z.div_mod_to_equations. lia.
Qed.

Lemma day_of_year_bounds (y m d : Z) :
  1 ≤ m ≤ 12 → 1 ≤ d ≤ days_in_month y m →
  1 ≤ days_before_month y m + d ≤ (if is_leap y then 366 else 365).
Proof.
  intros Hm Hd.
  assert (m = 1 ∨ m = 2 ∨ m = 3 ∨ m = 4 ∨ m = 5 ∨ m = 6 ∨ m = 7 ∨ m = 8
          ∨ m = 9 ∨ m = 10 ∨ m = 11 ∨ m = 12) as Hcases by lia.
  unfold days_before_month, days_in_month in *.
  destruct (is_leap y);
    repeat (destruct Hcases as [->|Hcases]); try subst m;
    month_tables; cbn in Hd |- *; lia.
Qed.

(** The ordinal counts calendar days: the day after a date, in the same
    month, in the next month or in the next year, has the next ordinal. *)
Lemma ymd2ord_next_day (y m d : Z) :
  1 ≤ m ≤ 12 →
  ymd2ord y m (d + 1) = ymd2ord y m d + 1
  ∧ (m < 12 → ymd2ord y (m + 1) 1 = ymd2ord y m (days_in_month y m) + 1)
  ∧ ymd2ord (y + 1) 1 1 = ymd2ord y 12 31 + 1.
Proof.
  intros Hm. unfold ymd2ord. split; [lia|]. split.
  - intros Hlt.
    assert (m = 1 ∨ m = 2 ∨ m = 3 ∨ m = 4 ∨ m = 5 ∨ m = 6 ∨ m = 7 ∨ m = 8
            ∨ m = 9 ∨ m = 10 ∨ m = 11) as Hcases by lia.
    unfold days_before_month, days_in_month.
    destruct (is_leap y);
      repeat (destruct Hcases as [->|Hcases]); try subst m;
      month_tables;
      repeat match goal with
        | |- context [if ?c then _ else _] =>
            let v := eval vm_compute in c in change c with v; cbv iota
        end;
      cbn [nth]; lia.
  - rewrite days_before_year_step. unfold days_before_month.
    destruct (is_leap y); month_tables; cbn; lia.
Qed.

(** A date that [datetime.date] accepts has its ordinal in range. *)
Lemma date_new_range (y m d : Z) (t : date) :
  date_new y m d = Returned t → 1 ≤ toordinal t ≤ MAXORDINAL.
Proof.
  unfold date_new. intros H.
  destruct ((1 <=? y) && (y <=? 9999) && (1 <=? m) && (m <=? 12)
            && (1 <=? d) && (d <=? days_in_month y m)) eqn:Hc; [|discriminate].
  injection H as <-. cbn [toordinal]. unfold ymd2ord.
  repeat (apply andb_prop in Hc; destruct Hc as [Hc ?]).
  pose proof (day_of_year_bounds y m d ltac:(lia) ltac:(lia)) as Hdoy.
  pose proof (days_before_year_step y) as Hstep.
  pose proof (days_before_year_mono 1 y ltac:(lia)) as Hlo.
  pose proof (days_before_year_mono (y + 1) 10000 ltac:(lia)) as Hhi.
  change (days_before_year 1) with 0 in Hlo.
  change (days_before_year 10000) with MAXORDINAL in Hhi.
  destruct (is_leap y); lia.
Qed.

Lemma strptime_date_range (s : pystr) (t : date) :
  strptime_date s = Returned t → 1 ≤ toordinal t ≤ MAXORDINAL.
Proof.
  unfold strptime_date. intros H.
  repeat (match type of H with
          | match ?x with _ => _ end = _ => destruct x; try discriminate
          end).
  eapply date_new_range; eassumption.
Qed.

Lemma compute_open_date_eq (s : pystr) (target : date) :
  strptime_date s = Returned target → 16 ≤ toordinal target →
  compute_open_date s = Returned (Date (toordinal target - 15)).
Proof.
  intros Hs Hlo. unfold compute_open_date. rewrite Hs.
  cbn [mbind outcome_bind]. unfold date_sub_days.
  pose proof (strptime_date_range s target Hs) as [_ Hhi].
  assert (((0 <? toordinal target - 15)
           && (toordinal target - 15 <=? MAXORDINAL)) = true) as ->; [|done].
  apply andb_true_intro; split; lia.
Qed.

(** A target in the first fifteen days of year 1 has no open date: the
    subtraction leaves the range of [datetime.date]. *)
Lemma compute_open_date_overflow (s : pystr) (target : date) :
  strptime_date s = Returned target → toordinal target < 16 →
  compute_open_date s = Raised OverflowError.
Proof.
  intros Hs Hlo. unfold compute_open_date. rewrite Hs.
  cbn [mbind outcome_bind]. unfold date_sub_days.
  assert ((0 <? toordinal target - 15) = false) as -> by lia. done.
Qed.

(** C5 (amended). For every target date string that [strptime] accepts
    and whose date is 0001-01-16 or later, [compute_open_date] returns the
    date fifteen calendar days before the target, a date with no time of
    day; a day is in the open window exactly when it is not before that
    open date, and the loop's test [today < open_date] is the complement;
    the open date of 2025-10-01 is 2025-09-16, 2025-09-15 is outside the
    window and 2025-09-16 is inside. *)
Theorem C5_open_date_is_target_minus_15 (s : pystr) (target : date) :
  strptime_date s = Returned target →
  16 ≤ toordinal target →
  compute_open_date s = Returned (Date (toordinal target - 15))
  ∧ (∀ today : date,
       any_in_open_window today [s]
       = Returned (bool_decide (toordinal target - 15 ≤ toordinal today))
       ∧ date_ltb today (Date (toordinal target - 15))
         = bool_decide (toordinal today < toordinal target - 15))
  ∧ compute_open_date "2025-10-01" = date_new 2025 9 16
  ∧ any_in_open_window (Date (ymd2ord 2025 9 15)) ["2025-10-01"%py]
    = Returned false
  ∧ any_in_open_window (Date (ymd2ord 2025 9 16)) ["2025-10-01"%py]
    = Returned true.
Proof.
  intros Hs Hlo. pose proof (compute_open_date_eq s target Hs Hlo) as Hopen.
  split; [exact Hopen|]. split; [|repeat split; vm_compute; reflexivity].
  intros today. split.
  - cbn [any_in_open_window]. rewrite Hopen. cbn [mbind outcome_bind].
    unfold date_geb. cbn [toordinal].
    destruct (Z.leb_spec (toordinal target - 15) (toordinal today)).
    + by rewrite bool_decide_eq_true_2.
    + rewrite bool_decide_eq_false_2; [done | lia].
  - unfold date_ltb. cbn [toordinal].
    destruct (Z.ltb_spec (toordinal today) (toordinal target - 15)).
    + by rewrite bool_decide_eq_true_2.
    + rewrite bool_decide_eq_false_2; [done | lia].
Qed.

(** ** The classifier *)

Lemma fetch_slots_transport_error (cid : Z) (date_str e : pystr) (m : machine) :
  fetch_slots cid date_str (PostRaised e) m
  = (Returned (FetchStatus.ERROR, None, ("网络异常: " +++ e)%py),
     Machine (last_pushed m) (trace m ++ [EvFetch cid date_str])).
Proof. reflexivity. Qed.

(** X1. On every answer but a JSON body that is no object, [fetch_slots]
    returns, makes one post, and its triple reads as the specification's
    classification. *)
Theorem fetch_slots_classify (cid : Z) (date_str : pystr) (answer : http_result)
    (m : machine) :
  (∀ r body, answer = PostReturned r → json_body r = Some body →
             ∃ d, body = JDict d) →
  ∃ t, fetch_slots cid date_str answer m
       = (Returned t, Machine (last_pushed m) (trace m ++ [EvFetch cid date_str]))
       ∧ snapshot_of t = Some (classify answer).
Proof.
  intros Hobj. destruct answer as [e|r].
  - eexists. split; [reflexivity|]. reflexivity.
  - unfold fetch_slots, classify. msimpl.
    destruct (json_body r) as [body|] eqn:Hbody.
    + destruct (Hobj r body eq_refl Hbody) as [d ->].
      cbn [py_get].
      destruct (d !! "data"%py) as [[| | | | |l|]|];
        destruct (eq_one (default JNull (d !! "code"%py)));
        try (eexists; split; [reflexivity|reflexivity]);
        destruct (eq_zero (default JNull (d !! "code"%py))
                  && py_in "暂无数据" (py_str (default (JStr "") (d !! "msg"%py))));
        try (eexists; split; [reflexivity|reflexivity]);
        destruct (py_in "登录" (py_str (default (JStr "") (d !! "msg"%py)))
                  || py_in "请先登录" (py_str (default (JStr "") (d !! "msg"%py)))
                  || eq_zero (default JNull (d !! "code"%py)));
        eexists; (split; [reflexivity|reflexivity]).
    + destruct (is_error_status (status_code r));
        eexists; (split; [reflexivity|reflexivity]).
Qed.

(** A JSON body that is no object makes [fetch_slots] raise: [data.get]
    is outside the [try] blocks. *)
Lemma fetch_slots_non_object (cid : Z) (date_str : pystr) (r : response)
    (body : json) (m : machine) :
  json_body r = Some body → (∀ d, body ≠ JDict d) →
  fetch_slots cid date_str (PostReturned r) m
  = (Raised AttributeError,
     Machine (last_pushed m) (trace m ++ [EvFetch cid date_str])).
Proof.
  intros Hbody Hnot. unfold fetch_slots. msimpl. rewrite Hbody.
  destruct body; try reflexivity. by destruct (Hnot d).
Qed.

(** [fetch_slots] makes one post, leaves the table alone, and what it
    returns or raises depends on the answer only. *)
Lemma fetch_slots_machine (cid : Z) (date_str : pystr) (answer : http_result)
    (m : machine) :
  fetch_slots cid date_str answer m
  = ((fetch_slots cid date_str answer (Machine ∅ [])).1,
     Machine (last_pushed m) (trace m ++ [EvFetch cid date_str])).
Proof.
  unfold fetch_slots. msimpl.
  destruct answer as [e|r]; [reflexivity|].
  destruct (json_body r) as [body|].
  - destruct (py_get body "code" JNull) as [code|]; [|reflexivity].
    destruct (py_get body "msg" (JStr "")) as [msg|]; [|reflexivity].
    repeat match goal with
           | |- context [match ?x with _ => _ end] => destruct x
           end; reflexivity.
  - destruct (is_error_status (status_code r)); reflexivity.
Qed.

(** ** The push sink *)

(** [notify_serverchan] returns whatever the delivery does: with no push
    key it posts nothing, and an exception of the post or an error status
    is caught. *)
Lemma notify_serverchan_returns (title content : pystr) (answer : push_result)
    (m : machine) :
  notify_serverchan title content answer m
  = (Returned (),
     Machine (last_pushed m) (trace m ++ notify_events title content)).
Proof.
  unfold notify_serverchan, notify_events. msimpl.
  destruct (py_nonempty SERVERCHAN_SENDKEY); cbn [negb].
  - destruct answer as [|code]; [|destruct (is_error_status code)];
      cbn [trace last_pushed]; by rewrite <- app_assoc.
  - reflexivity.
Qed.

Lemma notify_calls_app (a b : list event) :
  notify_calls (a ++ b) = notify_calls a ++ notify_calls b.
Proof. apply omap_app. Qed.

Lemma notify_calls_notify_events (title content : pystr) :
  notify_calls (notify_events title content) = [(title, content)].
Proof.
  unfold notify_events. destruct (py_nonempty SERVERCHAN_SENDKEY); reflexivity.
Qed.

Lemma fetch_calls_app (a b : list event) :
  fetch_calls (a ++ b) = fetch_calls a ++ fetch_calls b.
Proof. apply omap_app. Qed.

Lemma fetch_calls_notify_events (title content : pystr) :
  fetch_calls (notify_events title content) = [].
Proof.
  unfold notify_events. destruct (py_nonempty SERVERCHAN_SENDKEY); reflexivity.
Qed.

Lemma new_events_app (m : machine) (tbl : gmap (Z * pystr) (gmap pystr pystr))
    (evs : list event) :
  new_events m (Machine tbl (trace m ++ evs)) = evs.
Proof. unfold new_events. cbn [trace]. by rewrite drop_app_length. Qed.

(** ** The loop body *)

Lemma render_nonempty (q : SlotQuantity) : py_nonempty (render q) = true.
Proof.
  unfold render, py_nonempty, py_cat. cbn [chars].
  destruct (chars (label q)); reflexivity.
Qed.

(** The joined lines are empty exactly when no slot is left. *)
Lemma join_lines_nonempty (qs : list SlotQuantity) :
  py_nonempty (join_lines (map render qs))
  = match qs with [] => false | _ => true end.
Proof.
  destruct qs as [|q rest]; [reflexivity|].
  pose proof (render_nonempty q) as Hq. unfold py_nonempty in *.
  cbn [map join_lines py_join join_chars chars].
  destruct (chars (render q)) eqn:Hc; [discriminate|].
  destruct (map render rest); reflexivity.
Qed.

Lemma main_key_no_open_date (today : date) (cid : Z) (date_str : pystr)
    (w : poll_input) (m : machine) (e : exn) :
  compute_open_date date_str = Raised e →
  main_key today cid date_str w m = (Raised e, m).
Proof. intros H. unfold main_key. msimpl. by rewrite H. Qed.

(** Before the open date: no call is made and the key is routed to
    [NOT_OPEN]. *)
Lemma main_key_before_open (today : date) (cid : Z) (date_str : pystr)
    (w : poll_input) (m : machine) (od : date) :
  compute_open_date date_str = Returned od →
  toordinal today < toordinal od →
  main_key today cid date_str w m
  = (Returned (),
     Machine (route_not_open (cid, date_str) (last_pushed m)) (trace m)).
Proof.
  intros Hod Hlt. unfold main_key, route_not_open. msimpl. rewrite Hod.
  unfold date_ltb. assert ((toordinal today <? toordinal od) = true) as -> by lia.
  destruct (status_differs (default ∅ (last_pushed m !! (cid, date_str)))
              "NOT_OPEN"); [reflexivity | by destruct m].
Qed.

Lemma main_key_fetch_raises (today : date) (cid : Z) (date_str : pystr)
    (w : poll_input) (m : machine) (od : date) (e : exn) :
  compute_open_date date_str = Returned od →
  toordinal od ≤ toordinal today →
  (fetch_slots cid date_str (net w) (Machine ∅ [])).1 = Raised e →
  main_key today cid date_str w m
  = (Raised e, Machine (last_pushed m) (trace m ++ [EvFetch cid date_str])).
Proof.
  intros Hod Hge Hf. unfold main_key. msimpl. rewrite Hod.
  unfold date_ltb. assert ((toordinal today <? toordinal od) = false) as -> by lia.
  rewrite fetch_slots_machine, Hf. reflexivity.
Qed.

Lemma main_key_not_open (today : date) (cid : Z) (date_str : pystr)
    (w : poll_input) (m : machine) (od : date) (slots : option (list json))
    (msg : pystr) :
  compute_open_date date_str = Returned od →
  toordinal od ≤ toordinal today →
  (fetch_slots cid date_str (net w) (Machine ∅ [])).1
  = Returned (FetchStatus.NOT_OPEN, slots, msg) →
  main_key today cid date_str w m
  = (Returned (),
     Machine (route_not_open (cid, date_str) (last_pushed m))
             (trace m ++ [EvFetch cid date_str])).
Proof.
  intros Hod Hge Hf. unfold main_key, route_not_open. msimpl. rewrite Hod.
  unfold date_ltb. assert ((toordinal today <? toordinal od) = false) as -> by lia.
  rewrite fetch_slots_machine, Hf.
  change (py_eqb FetchStatus.NOT_OPEN FetchStatus.NOT_OPEN) with true.
  cbn [last_pushed trace].
  destruct (status_differs (default ∅ (last_pushed m !! (cid, date_str)))
              "NOT_OPEN"); reflexivity.
Qed.

Lemma main_key_error (today : date) (cid : Z) (date_str : pystr)
    (w : poll_input) (m : machine) (od : date) (slots : option (list json))
    (msg : pystr) :
  compute_open_date date_str = Returned od →
  toordinal od ≤ toordinal today →
  (fetch_slots cid date_str (net w) (Machine ∅ [])).1
  = Returned (FetchStatus.ERROR, slots, msg) →
  main_key today cid date_str w m
  = (Returned (),
     Machine (last_pushed m) (trace m ++ [EvFetch cid date_str])).
Proof.
  intros Hod Hge Hf. unfold main_key. msimpl. rewrite Hod.
  unfold date_ltb. assert ((toordinal today <? toordinal od) = false) as -> by lia.
  rewrite fetch_slots_machine, Hf.
  change (py_eqb FetchStatus.ERROR FetchStatus.NOT_OPEN) with false.
  change (py_eqb FetchStatus.ERROR FetchStatus.ERROR) with true.
  reflexivity.
Qed.

(** The table and the events after an [OK] answer (lines 240 to 277), for
    the prior dict [st] of the key and the lines [lines]. *)
Lemma main_key_open (today : date) (cid : Z) (date_str : pystr)
    (w : poll_input) (m : machine) (od : date) (slots : list json)
    (msg : pystr) :
  compute_open_date date_str = Returned od →
  toordinal od ≤ toordinal today →
  (fetch_slots cid date_str (net w) (Machine ∅ [])).1
  = Returned (FetchStatus.OK, Some slots, msg) →
  let key := (cid, date_str) in
  let st := default ∅ (last_pushed m !! key) in
  let lines := map render (filterAvailable slots) in
  let merged := join_lines lines in
  main_key today cid date_str w m
  = (Returned (),
     if py_nonempty merged then
       if bool_decide (st !! "status"%py = Some "HAS_STOCK"%py
                       ∧ default ""%py (st !! "payload"%py) = merged)
       then Machine (last_pushed m)
              (trace m ++ [EvFetch cid date_str; EvSleep 1 (pause w)])
       else Machine (<[key := status_payload "HAS_STOCK" merged]> (last_pushed m))
              (trace m ++ [EvFetch cid date_str]
               ++ notify_events (push_title cid date_str) (push_body lines)
               ++ [EvSleep 1 (pause w)])
     else
       Machine (if bool_decide (st !! "status"%py = Some "NO_STOCK"%py)
                then last_pushed m
                else <[key := status_payload "NO_STOCK" ""]> (last_pushed m))
         (trace m ++ [EvFetch cid date_str; EvSleep 1 (pause w)])).
Proof.
  intros Hod Hge Hf key st lines merged. unfold main_key. msimpl. rewrite Hod.
  unfold date_ltb. assert ((toordinal today <? toordinal od) = false) as -> by lia.
  rewrite fetch_slots_machine, Hf.
  change (py_eqb FetchStatus.OK FetchStatus.NOT_OPEN) with false.
  change (py_eqb FetchStatus.OK FetchStatus.ERROR) with false.
  change (py_eqb FetchStatus.OK FetchStatus.OK) with true.
  cbn beta iota. rewrite format_available_lines_spec.
  cbn [last_pushed trace]. fold key. fold st. fold lines. fold merged.
  destruct (py_nonempty merged) eqn:Hne.
  - change (py_eqb "HAS_STOCK" "HAS_STOCK") with true. cbn [andb].
    unfold py_eqb.
    destruct (decide (st !! "status"%py = Some "HAS_STOCK"%py)) as [Hs|Hs].
    + rewrite (bool_decide_eq_true_2 _ (eq_sym Hs)). cbn [negb orb].
      destruct (decide (merged = default ""%py (st !! "payload"%py))) as [Hp|Hp].
      * rewrite (bool_decide_eq_true_2 _ Hp). cbn [negb].
        rewrite bool_decide_eq_true_2 by (split; [exact Hs | by symmetry]).
        cbn. by rewrite <- app_assoc.
      * rewrite (bool_decide_eq_false_2 _ Hp). cbn [negb].
        rewrite bool_decide_eq_false_2 by (intros [_ Hq]; by apply Hp).
        rewrite notify_serverchan_returns. cbn [last_pushed trace].
        by rewrite <- !app_assoc.
    + rewrite bool_decide_eq_false_2 by (intros Heq; by apply Hs).
      cbn [negb orb].
      rewrite bool_decide_eq_false_2 by (intros [Hq _]; by apply Hs).
      rewrite notify_serverchan_returns. cbn [last_pushed trace].
      by rewrite <- !app_assoc.
  - change (py_eqb "NO_STOCK" "HAS_STOCK") with false. cbn [andb orb].
    rewrite orb_false_r.
    destruct (decide (st !! "status"%py = Some "NO_STOCK"%py)) as [Hs|Hs].
    + rewrite (bool_decide_eq_true_2 _ (eq_sym Hs)).
      rewrite (bool_decide_eq_true_2 _ Hs). cbn. by rewrite <- app_assoc.
    + rewrite bool_decide_eq_false_2 by (intros Heq; by apply Hs).
      rewrite (bool_decide_eq_false_2 _ Hs). cbn. by rewrite <- app_assoc.
Qed.

Lemma status_payload_status (s p : pystr) :
  status_payload s p !! "status"%py = Some s.
Proof. unfold status_payload. apply lookup_insert_eq. Qed.

Lemma status_payload_payload (s p : pystr) :
  status_payload s p !! "payload"%py = Some p.
Proof.
  unfold status_payload. rewrite lookup_insert_ne by done.
  apply lookup_insert_eq.
Qed.

Lemma notified_state_has_stock (st : gmap pystr pystr) (f : pystr) :
  notified_state st = HasStockNotified f
  ↔ st !! "status"%py = Some "HAS_STOCK"%py
    ∧ default ""%py (st !! "payload"%py) = f.
Proof.
  unfold notified_state. split.
  - destruct (st !! "status"%py) as [s|]; [|discriminate].
    destruct (py_eqb s "NOT_OPEN"); [discriminate|].
    destruct (py_eqb s "NO_STOCK"); [discriminate|].
    unfold py_eqb. destruct (bool_decide_reflect (s = "HAS_STOCK"%py)) as [->|];
      [|discriminate].
    intros [= <-]. done.
  - intros [-> <-]. reflexivity.
Qed.

Lemma state_of_insert (m : machine) (key : Z * pystr) (s p : pystr)
    (evs : list event) :
  state_of (Machine (<[key := status_payload s p]> (last_pushed m)) evs) key
  = notified_state (status_payload s p).
Proof. unfold state_of. cbn [last_pushed]. by rewrite lookup_insert_eq. Qed.

Lemma fetch_slots_result (cid : Z) (date_str : pystr) (answer : http_result)
    (m : machine) :
  (fetch_slots cid date_str answer m).1
  = (fetch_slots cid date_str answer (Machine ∅ [])).1.
Proof. by rewrite fetch_slots_machine. Qed.

(** ** The body of a push carries its listing *)

Lemma carries_after (pre text : list N) (listing : list pystr) :
  carries text listing → carries (pre ++ text) listing.
Proof.
  destruct listing as [|line rest]; [done|].
  intros (before & after & -> & Hrest).
  exists (pre ++ before), after. by rewrite <- app_assoc.
Qed.

Lemma push_body_carries (lines : list pystr) :
  carries (chars (push_body lines)) lines.
Proof.
  unfold push_body, py_join. cbn [chars].
  induction lines as [|line rest IH]; [done|].
  cbn [map join_chars carries].
  destruct rest as [|line' rest].
  - exists [45; 32]%N, []. split; [|done]. cbn [map chars py_cat].
    by rewrite app_nil_r.
  - exists [45; 32]%N,
      (chars LF ++ join_chars (chars LF)
                     (map (fun ln => ("- " +++ ln)%py) (line' :: rest))).
    split; [reflexivity|]. by apply carries_after.
Qed.

Lemma listing_lines_nonempty (qs : list SlotQuantity) :
  Forall (fun line => py_nonempty line = true) (map render qs).
Proof.
  induction qs as [|q qs IH]; [done|].
  constructor; [apply render_nonempty | apply IH].
Qed.

(** C1. For a key in its window and an [OK] answer whose filtered slots
    are not empty, with fingerprint F: when the remembered state is not
    [HAS_STOCK] with payload F, the pass makes exactly one call of
    [notify_serverchan], whose body carries the slot listing (the line
    of every listed slot, label and quantity, in the order of the
    listing; it is these lines, each after a dash, one per line), and
    stores [HAS_STOCK] with payload F; when the remembered state is
    [HAS_STOCK] with payload F, the pass makes no such call and leaves
    the table as it was. *)
Theorem C1_notify_once_per_fingerprint (today : date) (cid : Z)
    (date_str : pystr) (w : poll_input) (m : machine) (od : date)
    (slots : list json) (msg : pystr) :
  compute_open_date date_str = Returned od →
  toordinal od ≤ toordinal today →
  (fetch_slots cid date_str (net w) m).1
  = Returned (FetchStatus.OK, Some slots, msg) →
  filterAvailable slots ≠ [] →
  let key := (cid, date_str) in
  let F := fingerprint (filterAvailable slots) in
  let listing := map render (filterAvailable slots) in
  let r := main_key today cid date_str w m in
  r.1 = Returned ()
  ∧ (state_of m key ≠ HasStockNotified F →
       (∃ content,
          notify_calls (new_events m r.2) = [(push_title cid date_str, content)]
          ∧ content = push_body listing
          ∧ carries (chars content) listing
          ∧ listing ≠ []
          ∧ Forall (fun line => py_nonempty line = true) listing)
       ∧ last_pushed r.2
         = <[key := status_payload "HAS_STOCK" F]> (last_pushed m)
       ∧ state_of r.2 key = HasStockNotified F)
  ∧ (state_of m key = HasStockNotified F →
       notify_calls (new_events m r.2) = []
       ∧ last_pushed r.2 = last_pushed m).
Proof.
  intros Hod Hge Hf Hne key F listing r.
  rewrite fetch_slots_result in Hf.
  pose proof (main_key_open today cid date_str w m od slots msg Hod Hge Hf)
    as Hrun. cbn zeta in Hrun.
  rewrite join_lines_fingerprint in Hrun.
  assert (py_nonempty (fingerprint (filterAvailable slots)) = true) as Hfp.
  { rewrite <- join_lines_fingerprint, join_lines_nonempty.
    by destruct (filterAvailable slots). }
  rewrite Hfp in Hrun. fold key F listing in Hrun.
  unfold state_of. rewrite notified_state_has_stock. fold key.
  subst r. rewrite Hrun. cbn [fst snd].
  split; [reflexivity|]. split.
  - intros Hprior. rewrite bool_decide_eq_false_2 by exact Hprior.
    rewrite new_events_app. cbn [last_pushed].
    split; [|split; [reflexivity|]].
    + exists (push_body listing).
      rewrite !notify_calls_app, notify_calls_notify_events.
      split; [reflexivity|]. split; [reflexivity|].
      split; [apply push_body_carries|]. subst listing.
      split; [by destruct (filterAvailable slots)|].
      apply listing_lines_nonempty.
    + rewrite lookup_insert_eq. apply notified_state_has_stock.
      split; [apply status_payload_status|].
      cbn [default from_option id]. by rewrite status_payload_payload.
  - intros Hprior. rewrite bool_decide_eq_true_2 by exact Hprior.
    rewrite new_events_app. done.
Qed.

(** C2. For a key in its window, a poll whose answer [fetch_slots]
    classifies as [ERROR] returns normally, makes no call of
    [notify_serverchan], adds the fetch alone to the trace and leaves the
    whole table, so the key's dict, as it was; the loop over the dates
    goes on with the next date from that machine. *)
Theorem C2_error_leaves_state (today : date) (cid : Z) (date_str : pystr)
    (w : poll_input) (m : machine) (od : date) (slots : option (list json))
    (msg : pystr) :
  compute_open_date date_str = Returned od →
  toordinal od ≤ toordinal today →
  (fetch_slots cid date_str (net w) m).1
  = Returned (FetchStatus.ERROR, slots, msg) →
  let r := main_key today cid date_str w m in
  r.1 = Returned ()
  ∧ notify_calls (new_events m r.2) = []
  ∧ new_events m r.2 = [EvFetch cid date_str]
  ∧ last_pushed r.2 = last_pushed m
  ∧ state_of r.2 (cid, date_str) = state_of m (cid, date_str)
  ∧ (∀ (inputs : nat → poll_input) (j : nat) (rest : list pystr),
       inputs j = w →
       for_each (fun j d => main_key today cid d (inputs j)) j
         (date_str :: rest) m
       = for_each (fun j d => main_key today cid d (inputs j)) (S j) rest r.2).
Proof.
  intros Hod Hge Hf r. rewrite fetch_slots_result in Hf.
  pose proof (main_key_error today cid date_str w m od slots msg Hod Hge Hf)
    as Hrun.
  subst r. rewrite Hrun. cbn [fst snd]. rewrite new_events_app.
  repeat split.
  intros inputs j rest Hw. cbn [for_each]. msimpl. by rewrite Hw, Hrun.
Qed.

(** [fetch_slots] returns one of three shapes of triple. *)
Lemma fetch_slots_shapes (cid : Z) (date_str : pystr) (answer : http_result)
    (m : machine) (t : pystr * option (list json) * pystr) :
  (fetch_slots cid date_str answer m).1 = Returned t →
  (∃ l msg, t = (FetchStatus.OK, Some l, msg))
  ∨ (∃ msg, t = (FetchStatus.NOT_OPEN, None, msg))
  ∨ (∃ msg, t = (FetchStatus.ERROR, None, msg)).
Proof.
  unfold fetch_slots. msimpl.
  destruct answer as [e|r]; cbn [fst].
  { intros [= <-]. right; right; eauto. }
  destruct (json_body r) as [body|].
  - destruct (py_get body "code" JNull) as [code|]; [|discriminate].
    destruct (py_get body "msg" (JStr "")) as [msg|]; [|discriminate].
    repeat match goal with
           | |- context [match ?x with _ => _ end] => destruct x
           end; cbn [fst]; intros [= <-]; eauto.
  - destruct (is_error_status (status_code r)); cbn [fst]; intros [= <-];
      right; right; eauto.
Qed.

(** C7. [notify_serverchan] returns for every title, body and delivery
    outcome (no push key, an exception of the post, an error status) and
    leaves the table alone; and a pass that pushes stores [HAS_STOCK] with
    the new fingerprint whatever the delivery did, so also when it
    failed. *)
Theorem C7_notify_fails_soft :
  (∀ (title content : pystr) (answer : push_result) (m : machine),
     (notify_serverchan title content answer m).1 = Returned ()
     ∧ last_pushed (notify_serverchan title content answer m).2
       = last_pushed m)
  ∧ (∀ (today : date) (cid : Z) (date_str : pystr) (w : poll_input)
       (m : machine) (od : date) (slots : list json) (msg : pystr),
       compute_open_date date_str = Returned od →
       toordinal od ≤ toordinal today →
       (fetch_slots cid date_str (net w) m).1
       = Returned (FetchStatus.OK, Some slots, msg) →
       filterAvailable slots ≠ [] →
       let key := (cid, date_str) in
       let F := fingerprint (filterAvailable slots) in
       state_of m key ≠ HasStockNotified F →
       ∀ delivery : push_result,
         let r := main_key today cid date_str
                    (PollInput (net w) delivery (pause w)) m in
         r.1 = Returned ()
         ∧ last_pushed r.2 !! key = Some (status_payload "HAS_STOCK" F)
         ∧ state_of r.2 key = HasStockNotified F).
Proof.
  split.
  - intros title content answer m.
    by rewrite notify_serverchan_returns.
  - intros today cid date_str w m od slots msg Hod Hge Hf Hne key F Hprior
      delivery r.
    rewrite fetch_slots_result in Hf.
    pose proof (main_key_open today cid date_str
                  (PollInput (net w) delivery (pause w)) m od slots msg
                  Hod Hge Hf) as Hrun. cbn zeta in Hrun.
    rewrite join_lines_fingerprint in Hrun.
    assert (py_nonempty (fingerprint (filterAvailable slots)) = true) as Hfp.
    { rewrite <- join_lines_fingerprint, join_lines_nonempty.
      by destruct (filterAvailable slots). }
    rewrite Hfp in Hrun. fold key F in Hrun.
    unfold state_of in Hprior. rewrite notified_state_has_stock in Hprior.
    rewrite bool_decide_eq_false_2 in Hrun by exact Hprior.
    subst r. rewrite Hrun. cbn [fst snd]. split; [reflexivity|].
    unfold state_of. cbn [last_pushed]. rewrite lookup_insert_eq.
    split; [reflexivity|]. apply notified_state_has_stock.
    split; [apply status_payload_status|].
    cbn [default from_option id]. by rewrite status_payload_payload.
Qed.

(** C10. Two passes for the same key, both in the window, that start
    from the same dict for the key and meet the same triple of
    [fetch_slots] end alike: the same outcome, the same calls of
    [notify_serverchan] with the same arguments, the same events but for
    the random part of the pause, and the same dict stored for the key;
    whatever else differs (the day, the delivery of the push, the random
    draw, the rest of the table, the trace so far) has no part in it. *)
Theorem C10_decision_deterministic (today1 today2 : date) (cid : Z)
    (date_str : pystr) (w1 w2 : poll_input) (m1 m2 : machine) (od : date)
    (t : pystr * option (list json) * pystr) :
  compute_open_date date_str = Returned od →
  toordinal od ≤ toordinal today1 →
  toordinal od ≤ toordinal today2 →
  (fetch_slots cid date_str (net w1) m1).1 = Returned t →
  (fetch_slots cid date_str (net w2) m2).1 = Returned t →
  last_pushed m1 !! (cid, date_str) = last_pushed m2 !! (cid, date_str) →
  let r1 := main_key today1 cid date_str w1 m1 in
  let r2 := main_key today2 cid date_str w2 m2 in
  r1.1 = r2.1
  ∧ notify_calls (new_events m1 r1.2) = notify_calls (new_events m2 r2.2)
  ∧ map forget_pause (new_events m1 r1.2)
    = map forget_pause (new_events m2 r2.2)
  ∧ last_pushed r1.2 !! (cid, date_str) = last_pushed r2.2 !! (cid, date_str).
Proof.
  intros Hod Hge1 Hge2 Hf1 Hf2 Hst r1 r2.
  pose proof (fetch_slots_shapes _ _ _ _ _ Hf1) as Hshape.
  rewrite fetch_slots_result in Hf1, Hf2.
  destruct Hshape as [(l & msg & ->)|[(msg & ->)|(msg & ->)]]; subst r1 r2.
  - rewrite (main_key_open today1 cid date_str w1 m1 od l msg Hod Hge1 Hf1).
    rewrite (main_key_open today2 cid date_str w2 m2 od l msg Hod Hge2 Hf2).
    cbn zeta. rewrite Hst.
    repeat match goal with
           | |- context [if ?b then _ else _] => destruct b
           end;
      cbn [fst snd last_pushed]; rewrite !new_events_app;
      rewrite ?lookup_insert_eq, ?map_app, ?notify_calls_app; done.
  - rewrite (main_key_not_open today1 cid date_str w1 m1 od _ msg Hod Hge1 Hf1).
    rewrite (main_key_not_open today2 cid date_str w2 m2 od _ msg Hod Hge2 Hf2).
    unfold route_not_open. rewrite Hst.
    destruct (status_differs _ _);
      cbn [fst snd last_pushed]; rewrite !new_events_app;
      rewrite ?lookup_insert_eq; done.
  - rewrite (main_key_error today1 cid date_str w1 m1 od _ msg Hod Hge1 Hf1).
    rewrite (main_key_error today2 cid date_str w2 m2 od _ msg Hod Hge2 Hf2).
    cbn [fst snd last_pushed]. by rewrite !new_events_app.
Qed.

(** Every pass has one of the shapes of [pass]. *)
Lemma main_key_pass (today : date) (cid : Z) (d : pystr) (w : poll_input)
    (m : machine) :
  ∃ o tbl' evs,
    main_key today cid d w m = (o, Machine tbl' (trace m ++ evs))
    ∧ pass today cid d w (last_pushed m) o tbl' evs.
Proof.
  destruct (compute_open_date d) as [od|e] eqn:Hod.
  2:{ exists (Raised e), (last_pushed m), [].
      rewrite (main_key_no_open_date _ _ _ _ _ _ Hod), app_nil_r.
      split; [by destruct m | by constructor]. }
  destruct (Z.lt_ge_cases (toordinal today) (toordinal od)) as [Hlt|Hge].
  { eexists _, _, []. rewrite (main_key_before_open _ _ _ _ _ _ Hod Hlt).
    rewrite app_nil_r. split; [reflexivity | by econstructor]. }
  destruct ((fetch_slots cid d (net w) (Machine ∅ [])).1) as [t|e] eqn:Hf.
  2:{ eexists _, _, _. rewrite (main_key_fetch_raises _ _ _ _ _ _ _ Hod Hge Hf).
      split; [reflexivity | by econstructor]. }
  destruct (fetch_slots_shapes _ _ _ _ _ Hf)
    as [(l & msg & ->)|[(msg & ->)|(msg & ->)]].
  - pose proof (main_key_open today cid d w m od l msg Hod Hge Hf) as Hrun.
    cbn zeta in Hrun. rewrite join_lines_nonempty in Hrun.
    destruct (filterAvailable l) as [|q qs] eqn:Hq.
    + destruct (bool_decide _) in Hrun; eexists _, _, _;
        (split; [exact Hrun|]); [by eapply pass_unchanged|].
      eapply pass_no_stock; eauto.
    + destruct (bool_decide _) in Hrun; eexists _, _, _;
        (split; [exact Hrun|]); [by eapply pass_unchanged|].
      rewrite <- Hq. eapply pass_push; eauto. by rewrite Hq.
  - eexists _, _, _. rewrite (main_key_not_open _ _ _ _ _ _ _ _ Hod Hge Hf).
    split; [reflexivity | by econstructor].
  - eexists _, _, _. rewrite (main_key_error _ _ _ _ _ _ _ _ Hod Hge Hf).
    split; [reflexivity | by eapply pass_error].
Qed.

(** ** The title of a push names its key *)

Lemma app_cons_unique {A} (x : A) (a1 b1 a2 b2 : list A) :
  x ∉ b1 → x ∉ b2 → a1 ++ x :: b1 = a2 ++ x :: b2 → a1 = a2 ∧ b1 = b2.
Proof.
  intros H1 H2. revert a2. induction a1 as [|y a1 IH]; intros [|z a2] Heq.
  - by injection Heq as <-.
  - injection Heq as -> ->. exfalso. apply H1.
    rewrite elem_of_app, elem_of_cons. auto.
  - injection Heq as -> <-. exfalso. apply H2.
    rewrite elem_of_app, elem_of_cons. auto.
  - injection Heq as -> Heq. destruct (IH _ Heq) as [-> ->]. done.
Qed.

Lemma str_of_Z_chars_small (n : Z) (c : N) :
  c ∈ chars (str_of_Z n) → (c < 256)%N.
Proof.
  unfold str_of_Z, of_ascii_string. cbn [chars].
  intros Hc. apply list_elem_of_In, in_map_iff in Hc as (a & <- & _).
  apply Ascii.N_ascii_bounded.
Qed.

Lemma of_ascii_string_inj (s t : string) :
  of_ascii_string s = of_ascii_string t → s = t.
Proof.
  unfold of_ascii_string. intros [= H].
  rewrite <- (String.string_of_list_ascii_of_string s),
    <- (String.string_of_list_ascii_of_string t). f_equal.
  revert H. generalize (String.list_ascii_of_string s) as a,
    (String.list_ascii_of_string t) as b.
  induction a as [|x a IH]; intros [|y b] H; try discriminate; [done|].
  injection H as Hxy H. f_equal; [|by apply IH].
  rewrite <- (Ascii.ascii_N_embedding x), <- (Ascii.ascii_N_embedding y).
  by rewrite Hxy.
Qed.

Lemma str_of_Z_inj (a b : Z) : str_of_Z a = str_of_Z b → a = b.
Proof.
  unfold str_of_Z. intros H. apply of_ascii_string_inj in H.
  by apply (inj pretty).
Qed.

(** Two keys with the same title are the same key. *)
Lemma push_title_inj (cid1 cid2 : Z) (d1 d2 : pystr) :
  push_title cid1 d1 = push_title cid2 d2 → (cid1, d1) = (cid2, d2).
Proof.
  intros H. apply (f_equal chars) in H.
  unfold push_title, py_cat in H. cbn [chars] in H.
  apply app_inv_head in H.
  assert (∀ a b : list N,
            a ++ [32; 26377; 31080; 26356; 26032; 65288; 36335; 32447]%N ++ b
            = (a ++ [32; 26377; 31080; 26356; 26032; 65288; 36335]%N)
                ++ 32447%N :: b) as Hre.
  { intros a b. by rewrite <- app_assoc. }
  rewrite !Hre in H. clear Hre.
  apply app_cons_unique in H as [Hd Hc].
  - apply app_inv_tail in Hd. apply app_inv_tail in Hc.
    assert (str_of_Z cid1 = str_of_Z cid2) as Hs.
    { destruct (str_of_Z cid1), (str_of_Z cid2). cbn in Hc. by subst. }
    apply str_of_Z_inj in Hs. destruct d1, d2. cbn in Hd. by subst.
  - intros [Hin|Hin]%elem_of_app.
    + apply str_of_Z_chars_small in Hin. lia.
    + apply list_elem_of_singleton in Hin. discriminate.
  - intros [Hin|Hin]%elem_of_app.
    + apply str_of_Z_chars_small in Hin. lia.
    + apply list_elem_of_singleton in Hin. discriminate.
Qed.

(** ** The invariant of the table *)

Lemma last_notify_app (key : Z * pystr) (a b : list event) :
  last_notify key (a ++ b)
  = match last_notify key b with
    | Some body => Some body
    | None => last_notify key a
    end.
Proof.
  unfold last_notify. by rewrite notify_calls_app, omap_app, last_app.
Qed.

Lemma last_notify_quiet (key : Z * pystr) (evs : list event) :
  notify_calls evs = [] → last_notify key evs = None.
Proof. unfold last_notify. by intros ->. Qed.

(** What a pass that pushes says for each key. *)
Lemma last_notify_push (key : Z * pystr) (cid : Z) (d body : pystr)
    (a b : list event) :
  notify_calls a = [] → notify_calls b = [] →
  last_notify key (a ++ notify_events (push_title cid d) body ++ b)
  = if bool_decide (key = (cid, d)) then Some body else None.
Proof.
  intros Ha Hb. unfold last_notify. destruct key as [c k].
  rewrite !notify_calls_app, Ha, Hb, notify_calls_notify_events.
  cbn [app]. unfold omap. cbn [list_omap fst snd]. unfold py_eqb.
  destruct (decide ((c, k) = (cid, d))) as [[= -> ->]|Hne].
  - by rewrite !bool_decide_eq_true_2.
  - rewrite (bool_decide_eq_false_2 ((c, k) = _)) by done.
    rewrite bool_decide_eq_false_2; [done|].
    intros Heq. apply Hne. symmetry. by apply push_title_inj.
Qed.

(** A step that pushes nothing and writes only fresh [NOT_OPEN] or
    [NO_STOCK] dicts keeps the invariant. *)
Lemma table_ok_quiet (m : machine)
    (tbl' : gmap (Z * pystr) (gmap pystr pystr)) (evs : list event) :
  table_ok m → notify_calls evs = [] →
  (∀ k st, tbl' !! k = Some st →
     last_pushed m !! k = Some st
     ∨ st = status_payload "NOT_OPEN" ""
     ∨ st = status_payload "NO_STOCK" "") →
  table_ok (Machine tbl' (trace m ++ evs)).
Proof.
  intros Hok Hq Hnew k st Hk. cbn [last_pushed] in Hk.
  destruct (Hnew k st Hk) as [Hold|[->| ->]].
  - destruct (Hok k st Hold) as [->|[->|(lines & -> & Hlast)]].
    + by left.
    + right; by left.
    + right; right. exists lines. split; [done|]. cbn [trace].
      by rewrite last_notify_app, (last_notify_quiet _ _ Hq).
  - by left.
  - right; by left.
Qed.

(** A step that pushes a listing for a key and stores its joined lines
    keeps the invariant. *)
Lemma table_ok_push (m : machine) (cid : Z) (d : pystr) (lines : list pystr)
    (a b : list event) :
  table_ok m → notify_calls a = [] → notify_calls b = [] →
  table_ok
    (Machine (<[(cid, d) := status_payload "HAS_STOCK" (join_lines lines)]>
                (last_pushed m))
       (trace m ++ a ++ notify_events (push_title cid d) (push_body lines)
        ++ b)).
Proof.
  intros Hok Ha Hb k st Hk. cbn [last_pushed] in Hk.
  unfold entry_ok. cbn [trace].
  rewrite last_notify_app, (last_notify_push _ _ _ _ _ _ Ha Hb).
  destruct (decide (k = (cid, d))) as [->|Hne].
  - rewrite lookup_insert_eq in Hk. injection Hk as <-.
    right; right. exists lines. by rewrite bool_decide_eq_true_2.
  - rewrite lookup_insert_ne in Hk by done.
    rewrite bool_decide_eq_false_2 by done.
    exact (Hok k st Hk).
Qed.

Lemma route_not_open_lookup (key k : Z * pystr)
    (tbl : gmap (Z * pystr) (gmap pystr pystr)) (st : gmap pystr pystr) :
  route_not_open key tbl !! k = Some st →
  tbl !! k = Some st ∨ st = status_payload "NOT_OPEN" "".
Proof.
  unfold route_not_open. destruct (status_differs _ _); [|by left].
  destruct (decide (key = k)) as [->|Hne].
  - rewrite lookup_insert_eq. intros [= <-]. by right.
  - rewrite lookup_insert_ne by done. by left.
Qed.

(** Every shape of pass keeps the invariant. *)
Lemma pass_table_ok (today : date) (cid : Z) (d : pystr) (w : poll_input)
    (m : machine) (o : outcome unit)
    (tbl' : gmap (Z * pystr) (gmap pystr pystr)) (evs : list event) :
  pass today cid d w (last_pushed m) o tbl' evs →
  table_ok m → table_ok (Machine tbl' (trace m ++ evs)).
Proof.
  intros Hpass Hok.
  destruct Hpass;
    try (apply table_ok_quiet; [done | reflexivity |]; intros k st Hk;
         first [ by left
               | destruct (route_not_open_lookup _ _ _ _ Hk); by auto ]).
  - apply table_ok_quiet; [done | reflexivity |]. intros k st Hk.
    destruct (decide (k = (cid, d))) as [->|Hne].
    + rewrite lookup_insert_eq in Hk. injection Hk as <-. auto.
    + rewrite lookup_insert_ne in Hk by done. auto.
  - by apply table_ok_push.
Qed.

Lemma main_key_table_ok (today : date) (cid : Z) (d : pystr) (w : poll_input)
    (m : machine) :
  table_ok m → table_ok (main_key today cid d w m).2.
Proof.
  intros Hok.
  destruct (main_key_pass today cid d w m) as (o & tbl' & evs & -> & Hpass).
  cbn [snd]. by eapply pass_table_ok.
Qed.

(** ** The loops *)

(** What every pass keeps, the loop keeps. *)
Lemma for_each_inv {A} (P : machine → Prop) (body : nat → A → M unit)
    (i : nat) (l : list A) (m : machine) :
  (∀ j x m', P m' → P (body j x m').2) →
  P m → P (for_each body i l m).2.
Proof.
  intros Hbody. revert i m. induction l as [|x rest IH]; intros i m Hm.
  - exact Hm.
  - cbn [for_each]. msimpl. pose proof (Hbody i x m Hm) as Hx.
    destruct (body i x m) as [[[]|e] m1]; cbn [snd] in *; [by apply IH | done].
Qed.

(** What the pass of [x] sets up and every pass keeps holds after a loop
    over a list with [x] that returns; the passes may rely on [I], which
    all of them keep. *)
Lemma for_each_elem {A} (I P : machine → Prop) (body : nat → A → M unit)
    (x : A) (i : nat) (l : list A) (m : machine) :
  x ∈ l →
  (for_each body i l m).1 = Returned () →
  I m →
  (∀ j y m', I m' → I (body j y m').2) →
  (∀ j m', I m' → (body j x m').1 = Returned () → P (body j x m').2) →
  (∀ j y m', P m' → P (body j y m').2) →
  P (for_each body i l m).2.
Proof.
  intros Hin Hret Hm HI Hset Hkeep. revert i m Hret Hm.
  induction l as [|y rest IH]; intros i m Hret Hm.
  - by apply elem_of_nil in Hin.
  - cbn [for_each] in *. revert Hret. msimpl.
    pose proof (Hset i m Hm) as Hx. pose proof (HI i y m Hm) as Hy.
    destruct (body i y m) as [[[]|e] m1] eqn:Hb; cbn [fst snd] in *;
      [|discriminate].
    intros Hret. apply elem_of_cons in Hin as [->|Hin].
    + rewrite Hb in Hx. apply for_each_inv; [exact Hkeep | by apply Hx].
    + by apply IH.
Qed.

Lemma main_for_inv (P : machine → Prop) (w : cycle_input) (m : machine) :
  (∀ cid d wp m', P m' → P (main_key (today_at_start w) cid d wp m').2) →
  P m → P (main_for w m).2.
Proof.
  intros Hkey. unfold main_for. apply for_each_inv. intros i cid m' Hm'.
  apply for_each_inv; [|exact Hm']. intros j d m''. apply Hkey.
Qed.

Lemma main_for_elem (I P : machine → Prop) (w : cycle_input) (m : machine)
    (cid : Z) (d : pystr) :
  cid ∈ COMMODITY_IDS → d ∈ TARGET_DATES →
  (main_for w m).1 = Returned () →
  I m →
  (∀ c' d' wp m', I m' → I (main_key (today_at_start w) c' d' wp m').2) →
  (∀ wp m', I m' →
            (main_key (today_at_start w) cid d wp m').1 = Returned () →
            P (main_key (today_at_start w) cid d wp m').2) →
  (∀ c' d' wp m', P m' → P (main_key (today_at_start w) c' d' wp m').2) →
  P (main_for w m).2.
Proof.
  intros Hc Hd Hret Hm HI Hset Hkeep. unfold main_for in *.
  apply (for_each_elem I P _ cid); [done | done | done | | |].
  - intros i c' m' Hm'. apply for_each_inv; [|done].
    intros j d' m''. apply HI.
  - intros i m' Hm' Hret'.
    apply (for_each_elem I P _ d); [done | done | done | | |].
    + intros j d' m''. apply HI.
    + intros j m''. apply Hset.
    + intros j d' m''. apply Hkeep.
  - intros i c' m' Hm'. apply for_each_inv; [|done].
    intros j d' m''. apply Hkeep.
Qed.

(** The machine after a turn: that of the loops, with the sleep added
    when the turn returns. *)
Lemma main_cycle_machine (w : cycle_input) (m : machine) :
  (main_cycle w m).2 = (main_for w m).2
  ∨ (∃ seconds,
       (main_cycle w m).1 = Returned ()
       ∧ (main_for w m).1 = Returned ()
       ∧ sleep_duration (today_at_end w) (jitter w) = Returned seconds
       ∧ (main_cycle w m).2
         = Machine (last_pushed (main_for w m).2)
             (trace (main_for w m).2 ++ [EvSleep seconds 0])).
Proof.
  unfold main_cycle. msimpl.
  destruct (main_for w m) as [[[]|e] m1]; [|by left].
  destruct (sleep_duration (today_at_end w) (jitter w)) as [s|e]; [|by left].
  right. exists s. done.
Qed.

Lemma main_cycle_returns (w : cycle_input) (m : machine) :
  (main_cycle w m).1 = Returned () → (main_for w m).1 = Returned ().
Proof.
  unfold main_cycle. msimpl.
  destruct (main_for w m) as [[[]|e] m1]; [done|]. done.
Qed.

Lemma main_cycle_table_ok (w : cycle_input) (m : machine) :
  table_ok m → table_ok (main_cycle w m).2.
Proof.
  intros Hok.
  assert (table_ok (main_for w m).2) as Hfor.
  { apply main_for_inv; [|done]. intros. by apply main_key_table_ok. }
  destruct (main_cycle_machine w m) as [->|(s & _ & _ & _ & ->)]; [done|].
  apply table_ok_quiet; [done | reflexivity | auto].
Qed.

Lemma main_turns_table_ok (ws : nat → cycle_input) (k n : nat) (m : machine) :
  table_ok m → table_ok (main_turns ws k n m).2.
Proof.
  revert k m. induction n as [|n IH]; intros k m Hok; [done|].
  cbn [main_turns]. msimpl.
  pose proof (main_cycle_table_ok (ws k) m Hok) as Hc.
  destruct (main_cycle (ws k) m) as [[[]|e] m1]; cbn [snd] in *;
    [by apply IH | done].
Qed.

(** ** The payload is that of the most recent push *)

Lemma main_turns_app (ws : nat → cycle_input) (k n t : nat) (m : machine) :
  main_turns ws k (n + t) m
  = match main_turns ws k n m with
    | (Returned _, m') => main_turns ws (k + n) t m'
    | (Raised e, m') => (Raised e, m')
    end.
Proof.
  revert k m. induction n as [|n IH]; intros k m.
  - cbn [main_turns Nat.add]. msimpl. by rewrite Nat.add_0_r.
  - cbn [main_turns Nat.add]. msimpl.
    destruct (main_cycle (ws k) m) as [[[]|e] m1]; [|done].
    rewrite IH. by rewrite Nat.add_succ_r.
Qed.

Lemma for_each_app {A} (body : nat → A → M unit) (i : nat) (l1 l2 : list A)
    (m : machine) :
  for_each body i (l1 ++ l2) m
  = match for_each body i l1 m with
    | (Returned _, m') => for_each body (i + length l1) l2 m'
    | (Raised e, m') => (Raised e, m')
    end.
Proof.
  revert i m. induction l1 as [|x l1 IH]; intros i m.
  - cbn [app for_each length]. msimpl. by rewrite Nat.add_0_r.
  - cbn [app for_each length]. msimpl.
    destruct (body i x m) as [[[]|e] m1]; [|done].
    rewrite IH. by rewrite Nat.add_succ_r.
Qed.

Lemma for_each_snoc {A} (body : nat → A → M unit) (pre : list A) (x : A)
    (m0 m m' : machine) :
  for_each body 0 pre m0 = (Returned (), m) →
  body (length pre) x m = (Returned (), m') →
  for_each body 0 (pre ++ [x]) m0 = (Returned (), m').
Proof.
  intros Hpre Hx. rewrite for_each_app, Hpre. cbn [for_each Nat.add].
  msimpl. by rewrite Hx.
Qed.

Lemma last_push_of_later (ws : nat → cycle_input) (turns turns' : nat)
    (m m' : machine) (cid : Z) (d payload : pystr) (evs : list event) :
  last_push_of ws turns m cid d payload →
  (turns ≤ turns')%nat →
  trace m' = trace m ++ evs →
  last_notify (cid, d) evs = None →
  last_push_of ws turns' m' cid d payload.
Proof.
  intros (k & i & j & mb & slots & msg & lines & later & Hk & Hi & Hj & Hreach
          & Hf & Hlines & Hcalls & Hcar & Hne & Hp & Htrace & Hlater & Hlast)
    Hle Hm' Hquiet.
  exists k, i, j, mb, slots, msg, lines, (later ++ evs).
  repeat (split; [first [assumption | lia]|]).
  split; [by rewrite Hm', Htrace, app_assoc|].
  split; [by rewrite last_notify_app, Hquiet|].
  by rewrite Hm', last_notify_app, Hquiet.
Qed.

(** A pass either pushes nothing and writes at most a fresh [NOT_OPEN] or
    [NO_STOCK] dict, or pushes the lines of the slots it fetched and
    stores their joined text. *)
Lemma pass_summary (today : date) (cid : Z) (d : pystr) (w : poll_input)
    (tbl tbl' : gmap (Z * pystr) (gmap pystr pystr)) (o : outcome unit)
    (evs : list event) :
  pass today cid d w tbl o tbl' evs →
  (notify_calls evs = []
   ∧ ∀ k st, tbl' !! k = Some st →
             tbl !! k = Some st
             ∨ st = status_payload "NOT_OPEN" ""
             ∨ st = status_payload "NO_STOCK" "")
  ∨ (∃ slots msg,
       (fetch_slots cid d (net w) (Machine ∅ [])).1
       = Returned (FetchStatus.OK, Some slots, msg)
       ∧ filterAvailable slots ≠ []
       ∧ tbl' = <[(cid, d) := status_payload "HAS_STOCK"
                                (join_lines (map render (filterAvailable slots)))]>
                  tbl
       ∧ evs = [EvFetch cid d]
               ++ notify_events (push_title cid d)
                    (push_body (map render (filterAvailable slots)))
               ++ [EvSleep 1 (pause w)]).
Proof.
  intros Hpass.
  destruct Hpass;
    try (left; split; [reflexivity|]; intros k st Hk;
         first [ by left
               | destruct (route_not_open_lookup _ _ _ _ Hk); by auto ]).
  - left. split; [reflexivity|]. intros k st Hk.
    destruct (decide (k = (cid, d))) as [->|Hne].
    + rewrite lookup_insert_eq in Hk. injection Hk as <-. auto.
    + rewrite lookup_insert_ne in Hk by done. auto.
  - right. eauto 10.
Qed.

Lemma status_payload_inj (s p s' p' : pystr) :
  status_payload s p = status_payload s' p' → s = s' ∧ p = p'.
Proof.
  intros H. split.
  - apply (f_equal (fun st => st !! "status"%py)) in H.
    rewrite !status_payload_status in H. by injection H.
  - apply (f_equal (fun st => st !! "payload"%py)) in H.
    rewrite !status_payload_payload in H. by injection H.
Qed.

(** The pass the run has reached keeps the invariant. *)
Lemma pass_pushes_ok (ws : nat → cycle_input) (turns k i j : nat) (cid : Z)
    (d : pystr) (m : machine) :
  (k < turns)%nat →
  COMMODITY_IDS !! i = Some cid →
  TARGET_DATES !! j = Some d →
  reaches ws k i j m →
  pushes_ok ws turns m →
  pushes_ok ws turns
    (main_key (today_at_start (ws k)) cid d (polls (ws k) i j) m).2.
Proof.
  intros Hk Hi Hj Hreach Hok c' d' p Hlk.
  destruct (main_key_pass (today_at_start (ws k)) cid d (polls (ws k) i j) m)
    as (o & tbl' & evs & Heq & Hpass).
  rewrite Heq in Hlk. cbn [snd last_pushed] in Hlk.
  destruct (pass_summary _ _ _ _ _ _ _ _ Hpass)
    as [(Hquiet & Hnew)|(slots & msg & Hf & Hlisted & -> & ->)].
  - destruct (Hnew _ _ Hlk) as [Hold|[Hst|Hst]].
    + apply (last_push_of_later ws turns turns m _ _ _ _ evs);
        [by apply Hok | lia | by rewrite Heq | by apply last_notify_quiet].
    + by apply status_payload_inj in Hst as [? _].
    + by apply status_payload_inj in Hst as [? _].
  - destruct (decide ((c', d') = (cid, d))) as [[= -> ->]|Hne].
    + rewrite lookup_insert_eq in Hlk. apply (inj Some) in Hlk.
      apply status_payload_inj in Hlk as [_ <-].
      exists k, i, j, m, slots, msg, (map render (filterAvailable slots)), [].
      split; [exact Hk|]. split; [exact Hi|]. split; [exact Hj|].
      split; [exact Hreach|].
      split; [by rewrite fetch_slots_result|].
      split; [apply format_available_lines_spec|].
      split.
      { rewrite Heq. cbn [snd]. rewrite new_events_app.
        by rewrite !notify_calls_app, notify_calls_notify_events. }
      split; [apply push_body_carries|].
      split; [by destruct (filterAvailable slots)|]. split; [reflexivity|].
      split; [by rewrite app_nil_r|]. split; [reflexivity|].
      rewrite Heq. cbn [snd trace].
      rewrite last_notify_app, last_notify_push by reflexivity.
      by rewrite bool_decide_eq_true_2.
    + rewrite lookup_insert_ne in Hlk by done.
      apply (last_push_of_later ws turns turns m _ _ _ _
               ([EvFetch cid d]
                ++ notify_events (push_title cid d)
                     (push_body (map render (filterAvailable slots)))
                ++ [EvSleep 1 (pause (polls (ws k) i j))]));
        [by apply Hok | lia | by rewrite Heq |].
      rewrite last_notify_push by reflexivity.
      by rewrite bool_decide_eq_false_2.
Qed.

(** The loop over the dates, from the position it has reached. *)
Lemma dates_loop_pushes_ok (ws : nat → cycle_input) (turns k i : nat)
    (cid : Z) (mt m1 : machine) :
  (k < turns)%nat →
  main_turns ws 0 k (Machine ∅ []) = (Returned (), mt) →
  for_each (fun i cid =>
    for_each (fun j date_str =>
      main_key (today_at_start (ws k)) cid date_str (polls (ws k) i j))
      0%nat TARGET_DATES)
    0%nat (take i COMMODITY_IDS) mt
  = (Returned (), m1) →
  COMMODITY_IDS !! i = Some cid →
  ∀ (rest pre : list pystr) (m : machine),
    TARGET_DATES = pre ++ rest →
    for_each (fun j date_str =>
      main_key (today_at_start (ws k)) cid date_str (polls (ws k) i j))
      0%nat pre m1
    = (Returned (), m) →
    pushes_ok ws turns m →
    pushes_ok ws turns
      (for_each (fun j date_str =>
         main_key (today_at_start (ws k)) cid date_str (polls (ws k) i j))
         (length pre) rest m).2.
Proof.
  intros Hk Hturns Hproducts Hi rest.
  induction rest as [|d rest IH]; intros pre m Hdates Hpre Hok; [done|].
  cbn [for_each]. msimpl.
  assert (reaches ws k i (length pre) m) as Hreach.
  { assert (take (length pre) TARGET_DATES = pre) as Htake
      by (rewrite Hdates; apply take_app_length).
    exists cid, mt, m1. by rewrite Htake. }
  assert (TARGET_DATES !! length pre = Some d) as Hj.
  { rewrite Hdates. apply list_lookup_middle. done. }
  pose proof (pass_pushes_ok ws turns k i (length pre) cid d m Hk Hi Hj
                Hreach Hok) as Hpass.
  destruct (main_key (today_at_start (ws k)) cid d
              (polls (ws k) i (length pre)) m) as [[[]|e] m'] eqn:Hrun;
    cbn [snd] in Hpass; [|exact Hpass].
  specialize (IH (pre ++ [d]) m').
  rewrite length_app, Nat.add_1_r in IH. apply IH.
  - by rewrite <- app_assoc.
  - by apply (for_each_snoc _ pre d m1 m m').
  - exact Hpass.
Qed.

(** The loop over the products, from the position it has reached. *)
Lemma products_loop_pushes_ok (ws : nat → cycle_input) (turns k : nat)
    (mt : machine) :
  (k < turns)%nat →
  main_turns ws 0 k (Machine ∅ []) = (Returned (), mt) →
  ∀ (rest pre : list Z) (m1 : machine),
    COMMODITY_IDS = pre ++ rest →
    for_each (fun i cid =>
      for_each (fun j date_str =>
        main_key (today_at_start (ws k)) cid date_str (polls (ws k) i j))
        0%nat TARGET_DATES)
      0%nat pre mt
    = (Returned (), m1) →
    pushes_ok ws turns m1 →
    pushes_ok ws turns
      (for_each (fun i cid =>
         for_each (fun j date_str =>
           main_key (today_at_start (ws k)) cid date_str (polls (ws k) i j))
           0%nat TARGET_DATES)
         (length pre) rest m1).2.
Proof.
  intros Hk Hturns rest.
  induction rest as [|cid rest IH]; intros pre m1 Hids Hpre Hok; [done|].
  cbn [for_each]. msimpl.
  assert (COMMODITY_IDS !! length pre = Some cid) as Hi.
  { rewrite Hids. apply list_lookup_middle. done. }
  assert (for_each (fun i cid =>
            for_each (fun j date_str =>
              main_key (today_at_start (ws k)) cid date_str (polls (ws k) i j))
              0%nat TARGET_DATES)
            0%nat (take (length pre) COMMODITY_IDS) mt
          = (Returned (), m1)) as Hproducts.
  { assert (take (length pre) COMMODITY_IDS = pre) as Htake
      by (rewrite Hids; apply take_app_length).
    by rewrite Htake. }
  pose proof (dates_loop_pushes_ok ws turns k (length pre) cid mt m1 Hk
                Hturns Hproducts Hi TARGET_DATES [] m1 eq_refl eq_refl Hok)
    as Hdates.
  cbn [length] in Hdates.
  destruct (for_each (fun j date_str =>
              main_key (today_at_start (ws k)) cid date_str
                (polls (ws k) (length pre) j)) 0%nat TARGET_DATES m1)
    as [[[]|e] m'] eqn:Hrun; cbn [snd] in Hdates; [|exact Hdates].
  specialize (IH (pre ++ [cid]) m').
  rewrite length_app, Nat.add_1_r in IH. apply IH.
  - by rewrite <- app_assoc.
  - by apply (for_each_snoc _ pre cid mt m1 m').
  - exact Hdates.
Qed.

(** After any number of turns of [main]. *)
Lemma main_pushes_ok (ws : nat → cycle_input) (n : nat) :
  pushes_ok ws n (main ws n).2.
Proof.
  induction n as [|n IH].
  - intros cid d p Hlk. unfold main, main_turns, mret, M_ret in Hlk.
    cbn [snd last_pushed] in Hlk. by rewrite lookup_empty in Hlk.
  - unfold main in *. replace (S n) with (n + 1)%nat at 2 by lia.
    rewrite main_turns_app.
    assert (pushes_ok ws (S n) (main_turns ws 0 n (Machine ∅ [])).2) as Hn.
    { intros cid d p Hlk.
      apply (last_push_of_later ws n (S n)
               (main_turns ws 0 n (Machine ∅ [])).2 _ _ _ _ []);
        [by apply IH | lia | by rewrite app_nil_r | reflexivity]. }
    destruct (main_turns ws 0 n (Machine ∅ [])) as [[[]|e] mt] eqn:Hturns;
      cbn [snd] in Hn; [|exact Hn].
    cbn [main_turns Nat.add]. msimpl.
    assert (pushes_ok ws (S n) (main_for (ws n) mt).2) as Hfor.
    { exact (products_loop_pushes_ok ws (S n) n mt ltac:(lia) Hturns
               COMMODITY_IDS [] mt eq_refl eq_refl Hn). }
    assert (pushes_ok ws (S n) (main_cycle (ws n) mt).2) as Hcycle.
    { destruct (main_cycle_machine (ws n) mt) as [->|(s & _ & _ & _ & Hm)];
        [exact Hfor|].
      intros cid d p Hlk. rewrite Hm in Hlk. cbn [last_pushed] in Hlk.
      apply (last_push_of_later ws (S n) (S n) (main_for (ws n) mt).2 _ _ _ _
               [EvSleep s 0]);
        [by apply Hfor | lia | by rewrite Hm | reflexivity]. }
    destruct (main_cycle (ws n) mt) as [[[]|e] m']; exact Hcycle.
Qed.

(** C9. The invariant of [last_pushed], from the empty table on: every
    dict stored is one of [NOT_OPEN] with the empty payload, [NO_STOCK]
    with the empty payload, or [HAS_STOCK] with, as payload, the joined
    lines of the listing that the most recent call of
    [notify_serverchan] for the key carried.  It holds of the empty
    table, every pass of the loop body keeps it, every turn keeps it, and
    so it holds after any number of turns of [main].  There, for a dict
    with the status [HAS_STOCK], the listing is that of a pass of the
    run: the run has reached a pass for the key, at the position
    [(i, j)] of a turn [k], whose fetch returned slots; this pass called
    [notify_serverchan] once, with a body that carries the lines
    [format_available_lines] gives for these slots; the events after
    this pass hold no call for the key, so the call is the most recent
    one; and the payload is the joined text of these very lines, the
    fingerprint of the listed slots. *)
Theorem C9_table_invariant :
  table_ok (Machine ∅ [])
  ∧ (∀ (today : date) (cid : Z) (d : pystr) (w : poll_input) (m : machine),
       table_ok m → table_ok (main_key today cid d w m).2)
  ∧ (∀ (w : cycle_input) (m : machine),
       table_ok m → table_ok (main_cycle w m).2)
  ∧ (∀ (ws : nat → cycle_input) (n : nat) (cid : Z) (d : pystr)
       (st : gmap pystr pystr),
       last_pushed (main ws n).2 !! (cid, d) = Some st →
       ∃ s p : pystr,
         st = status_payload s p
         ∧ ((s = "NOT_OPEN"%py ∧ p = ""%py)
            ∨ (s = "NO_STOCK"%py ∧ p = ""%py)
            ∨ (s = "HAS_STOCK"%py
               ∧ ∃ (k i j : nat) (mb : machine) (slots : list json)
                   (msg : pystr) (lines : list pystr) (later : list event),
                   (k < n)%nat
                   ∧ COMMODITY_IDS !! i = Some cid
                   ∧ TARGET_DATES !! j = Some d
                   ∧ reaches ws k i j mb
                   ∧ (fetch_slots cid d (net (polls (ws k) i j)) mb).1
                     = Returned (FetchStatus.OK, Some slots, msg)
                   ∧ format_available_lines slots = Returned lines
                   ∧ notify_calls
                       (new_events mb
                          (main_key (today_at_start (ws k)) cid d
                             (polls (ws k) i j) mb).2)
                     = [(push_title cid d, push_body lines)]
                   ∧ carries (chars (push_body lines)) lines
                   ∧ lines ≠ []
                   ∧ Forall (fun line => py_nonempty line = true) lines
                   ∧ p = join_lines lines
                   ∧ p = fingerprint (filterAvailable slots)
                   ∧ trace (main ws n).2
                     = trace (main_key (today_at_start (ws k)) cid d
                                (polls (ws k) i j) mb).2
                       ++ later
                   ∧ last_notify (cid, d) later = None
                   ∧ last_notify (cid, d) (trace (main ws n).2)
                     = Some (push_body lines)))).
Proof.
  split; [by intros key st Hk|].
  split; [intros; by apply main_key_table_ok|].
  split; [intros; by apply main_cycle_table_ok|].
  intros ws n cid d st Hk.
  assert (table_ok (main ws n).2) as Hok.
  { unfold main. apply main_turns_table_ok. by intros k' st' H'. }
  destruct (Hok (cid, d) st Hk) as [->|[->|(lines' & -> & _)]].
  - exists "NOT_OPEN"%py, ""%py. auto.
  - exists "NO_STOCK"%py, ""%py. auto.
  - exists "HAS_STOCK"%py, (join_lines lines'). split; [done|].
    right; right. split; [done|].
    destruct (main_pushes_ok ws n cid d (join_lines lines') Hk)
      as (k & i & j & mb & slots & msg & lines & later & Hlt & Hi & Hj
          & Hreach & Hf & Hlines & Hcalls & Hcar & Hne & Hp & Htrace & Hlater
          & Hlast).
    exists k, i, j, mb, slots, msg, lines, later.
    pose proof Hlines as Hspec.
    rewrite format_available_lines_spec in Hspec.
    assert (map render (filterAvailable slots) = lines) as Hsame
      by congruence.
    clear Hspec. rename Hsame into Hspec.
    repeat (split; [assumption|]).
    split; [rewrite <- Hspec; apply listing_lines_nonempty|].
    split; [assumption|].
    split; [by rewrite Hp, <- Hspec, join_lines_fingerprint|].
    repeat (split; [assumption|]). assumption.
Qed.

(** ** The open window and the fetch *)

Lemma pass_early_inv (today : date) (cid : Z) (d : pystr) (w : poll_input)
    (tbl tbl' : gmap (Z * pystr) (gmap pystr pystr)) (o : outcome unit)
    (evs : list event) (od : date) :
  pass today cid d w tbl o tbl' evs →
  compute_open_date d = Returned od →
  toordinal today < toordinal od →
  o = Returned () ∧ tbl' = route_not_open (cid, d) tbl ∧ evs = [].
Proof.
  intros Hpass Hod Hlt.
  destruct Hpass as [e He|od' Hod'|od' e Hod' Hge|od' ? ? Hod' Hge
                     |od' ? ? Hod' Hge|od' ? ? Hod' Hge|od' ? ? Hod' Hge
                     |od' ? ? Hod' Hge];
    rewrite Hod in *; try discriminate; try done;
    injection Hod' as <-; lia.
Qed.

Lemma pass_window_inv (today : date) (cid : Z) (d : pystr) (w : poll_input)
    (tbl tbl' : gmap (Z * pystr) (gmap pystr pystr)) (o : outcome unit)
    (evs : list event) (od : date) :
  pass today cid d w tbl o tbl' evs →
  compute_open_date d = Returned od →
  toordinal od ≤ toordinal today →
  ∃ rest, evs = EvFetch cid d :: rest ∧ fetch_calls rest = [].
Proof.
  intros Hpass Hod Hge.
  destruct Hpass as [e He|od' Hod' Hlt|od' e Hod' _|od' ? ? Hod' _
                     |od' ? ? Hod' _|od' ? ? Hod' _|od' ? ? Hod' _
                     |od' ? ? Hod' _];
    rewrite Hod in *; try discriminate;
    try (eexists; split; [reflexivity|reflexivity]).
  - injection Hod' as <-. lia.
  - eexists; split; [reflexivity|].
    by rewrite fetch_calls_app, fetch_calls_notify_events.
Qed.

(** A pass fetches for its own key only, and only in the window. *)
Lemma pass_fetch_calls (today : date) (cid : Z) (d : pystr) (w : poll_input)
    (tbl tbl' : gmap (Z * pystr) (gmap pystr pystr)) (o : outcome unit)
    (evs : list event) (k : Z * pystr) :
  pass today cid d w tbl o tbl' evs →
  k ∈ fetch_calls evs →
  k = (cid, d)
  ∧ ∃ od, compute_open_date d = Returned od ∧ toordinal od ≤ toordinal today.
Proof.
  intros Hpass Hin.
  destruct Hpass;
    try (by apply elem_of_nil in Hin);
    try (cbn in Hin; apply elem_of_cons in Hin as [->|Hin];
         [by eauto | by apply elem_of_nil in Hin]).
  rewrite !fetch_calls_app, fetch_calls_notify_events in Hin.
  cbn in Hin. apply elem_of_cons in Hin as [->|Hin];
    [by eauto | by apply elem_of_nil in Hin].
Qed.

(** A pass writes the dict of its own key only. *)
Lemma pass_frame (today : date) (cid : Z) (d : pystr) (w : poll_input)
    (tbl tbl' : gmap (Z * pystr) (gmap pystr pystr)) (o : outcome unit)
    (evs : list event) (k : Z * pystr) :
  pass today cid d w tbl o tbl' evs →
  k ≠ (cid, d) → tbl' !! k = tbl !! k.
Proof.
  intros Hpass Hne.
  destruct Hpass; try done; unfold route_not_open;
    try (destruct (status_differs _ _); [|done]);
    by rewrite lookup_insert_ne.
Qed.

Lemma route_not_open_state (key : Z * pystr)
    (tbl : gmap (Z * pystr) (gmap pystr pystr)) :
  notified_state (default ∅ (route_not_open key tbl !! key)) = NotOpenNotified.
Proof.
  unfold route_not_open, status_differs.
  destruct (bool_decide_reflect
              (default ∅ (tbl !! key) !! "status"%py = Some "NOT_OPEN"%py))
    as [Hs|Hs]; cbn [negb].
  - unfold notified_state. by rewrite Hs.
  - rewrite lookup_insert_eq. reflexivity.
Qed.

(** The trace of a pass extends the trace it starts from. *)
Lemma main_key_trace (today : date) (cid : Z) (d : pystr) (w : poll_input)
    (m : machine) :
  ∃ evs, trace (main_key today cid d w m).2 = trace m ++ evs
         ∧ ∀ k, k ∈ fetch_calls evs →
                k = (cid, d)
                ∧ ∃ od, compute_open_date d = Returned od
                        ∧ toordinal od ≤ toordinal today.
Proof.
  destruct (main_key_pass today cid d w m) as (o & tbl' & evs & -> & Hpass).
  exists evs. split; [done|]. intros k. by eapply pass_fetch_calls.
Qed.

Lemma main_key_routes (today : date) (cid : Z) (d : pystr) (w : poll_input)
    (m : machine) (od : date) :
  compute_open_date d = Returned od →
  toordinal today < toordinal od →
  state_of (main_key today cid d w m).2 (cid, d) = NotOpenNotified.
Proof.
  intros Hod Hlt. rewrite (main_key_before_open _ _ _ _ _ _ Hod Hlt).
  unfold state_of. cbn [snd last_pushed]. apply route_not_open_state.
Qed.

(** Once routed to [NOT_OPEN] on a day before its open date, a key stays
    so through the passes of that day. *)
Lemma main_key_keeps_routed (today : date) (cid c' : Z) (d d' : pystr)
    (w : poll_input) (m : machine) (od : date) :
  compute_open_date d = Returned od →
  toordinal today < toordinal od →
  state_of m (cid, d) = NotOpenNotified →
  state_of (main_key today c' d' w m).2 (cid, d) = NotOpenNotified.
Proof.
  intros Hod Hlt Hm.
  destruct (decide ((cid, d) = (c', d'))) as [[= <- <-]|Hne].
  - by eapply main_key_routes.
  - destruct (main_key_pass today c' d' w m) as (o & tbl' & evs & -> & Hpass).
    unfold state_of in *. cbn [snd last_pushed].
    by rewrite (pass_frame _ _ _ _ _ _ _ _ _ Hpass Hne).
Qed.

(** The loops of a turn: no fetch for a key before its open date, which
    is routed to [NOT_OPEN]; a fetch for every key in its window. *)
Lemma main_for_fetches (w : cycle_input) (m : machine) :
  ∃ evs,
    trace (main_for w m).2 = trace m ++ evs
    ∧ (∀ k, k ∈ fetch_calls evs →
         ∃ od, compute_open_date k.2 = Returned od
               ∧ toordinal od ≤ toordinal (today_at_start w))
    ∧ ((main_for w m).1 = Returned () →
       ∀ cid d od,
         cid ∈ COMMODITY_IDS → d ∈ TARGET_DATES →
         compute_open_date d = Returned od →
         (toordinal (today_at_start w) < toordinal od →
            state_of (main_for w m).2 (cid, d) = NotOpenNotified)
         ∧ (toordinal od ≤ toordinal (today_at_start w) →
            (cid, d) ∈ fetch_calls evs)).
Proof.
  set (G := fun m' : machine =>
              ∃ evs, trace m' = trace m ++ evs
                     ∧ ∀ k, k ∈ fetch_calls evs →
                            ∃ od, compute_open_date k.2 = Returned od
                                  ∧ toordinal od ≤ toordinal (today_at_start w)).
  assert (∀ c' d' wp m', G m' → G (main_key (today_at_start w) c' d' wp m').2) as HG.
  { intros c' d' wp m' (evs & Htr & Hq).
    destruct (main_key_trace (today_at_start w) c' d' wp m') as (evs' & Htr' & Hq').
    exists (evs ++ evs'). split; [by rewrite Htr', Htr, app_assoc|].
    intros k. rewrite fetch_calls_app, elem_of_app. intros [Hk|Hk]; [auto|].
    destruct (Hq' k Hk) as [-> Hod]. exact Hod. }
  assert (G m) as Hm.
  { exists []. split; [by rewrite app_nil_r|]. intros k Hk.
    by apply elem_of_nil in Hk. }
  destruct (main_for_inv G w m HG Hm) as (evs & Htr & Hq).
  exists evs. split; [done|]. split; [done|].
  intros Hret cid d od Hc Hd Hod. split.
  - intros Hlt.
    apply (main_for_elem (fun _ => True)
             (fun m' => state_of m' (cid, d) = NotOpenNotified) w m cid d);
      try done.
    + intros wp m' _ _. by eapply main_key_routes.
    + intros c' d' wp m' Hm'. by eapply main_key_keeps_routed.
  - intros Hge.
    assert (∃ evs', trace (main_for w m).2 = trace m ++ evs'
                    ∧ (cid, d) ∈ fetch_calls evs') as (evs' & Htr' & Hin).
    { apply (main_for_elem
               (fun m' => ∃ evs', trace m' = trace m ++ evs')
               (fun m' => ∃ evs', trace m' = trace m ++ evs'
                                  ∧ (cid, d) ∈ fetch_calls evs') w m cid d);
        try done.
      - exists []. by rewrite app_nil_r.
      - intros c' d' wp m' (e1 & He1).
        destruct (main_key_trace (today_at_start w) c' d' wp m') as (e2 & He2 & _).
        exists (e1 ++ e2). by rewrite He2, He1, app_assoc.
      - intros wp m' (e1 & He1) _.
        destruct (main_key_pass (today_at_start w) cid d wp m')
          as (o & tbl' & e2 & Hrun & Hpass).
        rewrite Hrun. cbn [snd trace].
        destruct (pass_window_inv _ _ _ _ _ _ _ _ _ Hpass Hod Hge)
          as (rest & -> & _).
        exists (e1 ++ EvFetch cid d :: rest).
        split; [by rewrite He1, app_assoc|].
        rewrite fetch_calls_app, elem_of_app. right. cbn.
        apply elem_of_cons. by left.
      - intros c' d' wp m' (e1 & He1 & Hin).
        destruct (main_key_trace (today_at_start w) c' d' wp m') as (e2 & He2 & _).
        exists (e1 ++ e2). split; [by rewrite He2, He1, app_assoc|].
        rewrite fetch_calls_app, elem_of_app. by left. }
    rewrite Htr in Htr'. apply app_inv_head in Htr'. by subst.
Qed.

(** C6. In every turn of the loop, for the day at its start: no fetch is
    made for a key whose open date is after that day, whose pass makes no
    call at all and routes the key to [NOT_OPEN]; a pass for a key whose
    open date has come makes exactly one fetch, for that key; and a turn
    that returns has routed every monitored key before its open date to
    [NOT_OPEN] and has fetched for every monitored key in its window. *)
Theorem C6_no_fetch_before_open_date (w : cycle_input) (m : machine) :
  let today := today_at_start w in
  (∀ (cid : Z) (d : pystr) (wp : poll_input) (m' : machine) (od : date),
     compute_open_date d = Returned od →
     (toordinal today < toordinal od →
        (main_key today cid d wp m').1 = Returned ()
        ∧ new_events m' (main_key today cid d wp m').2 = []
        ∧ state_of (main_key today cid d wp m').2 (cid, d) = NotOpenNotified)
     ∧ (toordinal od ≤ toordinal today →
        fetch_calls (new_events m' (main_key today cid d wp m').2)
        = [(cid, d)]))
  ∧ ∃ evs,
      trace (main_cycle w m).2 = trace m ++ evs
      ∧ (∀ cid d od,
           compute_open_date d = Returned od →
           toordinal today < toordinal od →
           (cid, d) ∉ fetch_calls evs)
      ∧ ((main_cycle w m).1 = Returned () →
         ∀ cid d od,
           cid ∈ COMMODITY_IDS → d ∈ TARGET_DATES →
           compute_open_date d = Returned od →
           (toordinal today < toordinal od →
              state_of (main_cycle w m).2 (cid, d) = NotOpenNotified)
           ∧ (toordinal od ≤ toordinal today →
              (cid, d) ∈ fetch_calls evs)).
Proof.
  intros today. split.
  - intros cid d wp m' od Hod. split.
    + intros Hlt. split; [|split].
      * by rewrite (main_key_before_open _ _ _ _ _ _ Hod Hlt).
      * rewrite (main_key_before_open _ _ _ _ _ _ Hod Hlt). cbn [snd].
        unfold new_events. cbn [trace]. apply drop_all.
      * by eapply main_key_routes.
    + intros Hge.
      destruct (main_key_pass today cid d wp m')
        as (o & tbl' & evs & -> & Hpass).
      cbn [snd]. rewrite new_events_app.
      destruct (pass_window_inv _ _ _ _ _ _ _ _ _ Hpass Hod Hge)
        as (rest & -> & Hrest).
      cbn. unfold fetch_calls in Hrest. by rewrite Hrest.
  - destruct (main_for_fetches w m) as (evs & Htr & Hq & Hdone).
    assert (∃ tail, trace (main_cycle w m).2 = trace (main_for w m).2 ++ tail
                    ∧ fetch_calls tail = []
                    ∧ last_pushed (main_cycle w m).2
                      = last_pushed (main_for w m).2)
      as (tail & Htail & Hnof & Htbl).
    { destruct (main_cycle_machine w m) as [->|(s & _ & _ & _ & ->)].
      - exists []. by rewrite app_nil_r.
      - by exists [EvSleep s 0]. }
    exists (evs ++ tail). split; [by rewrite Htail, Htr, app_assoc|].
    split.
    + intros cid d od Hod Hlt.
      rewrite fetch_calls_app, Hnof, app_nil_r. intros Hin.
      destruct (Hq _ Hin) as (od' & Hod' & Hge). cbn [snd] in Hod'.
      rewrite Hod in Hod'. injection Hod' as <-. fold today in Hge. lia.
    + intros Hret cid d od Hc Hd Hod.
      destruct (Hdone (main_cycle_returns _ _ Hret) cid d od Hc Hd Hod)
        as [Hearly Hwin].
      split.
      * intros Hlt. unfold state_of in *. rewrite Htbl. by apply Hearly.
      * intros Hge. rewrite fetch_calls_app, elem_of_app. left. by apply Hwin.
Qed.

(** ** The sleep at the end of a turn *)

(** When [any] returns, it returns true exactly when some date of the
    list is in its window. *)
Lemma any_in_open_window_true (today : date) (dates : list pystr) (b : bool) :
  any_in_open_window today dates = Returned b →
  (b = true ↔ ∃ d od, d ∈ dates ∧ compute_open_date d = Returned od
                      ∧ toordinal od ≤ toordinal today).
Proof.
  revert b. induction dates as [|d rest IH]; intros b.
  - intros [= <-]. split; [discriminate|].
    intros (d & od & Hin & _). by apply elem_of_nil in Hin.
  - cbn [any_in_open_window].
    destruct (compute_open_date d) as [od|e] eqn:Hod; [|discriminate].
    cbn [mbind outcome_bind]. unfold date_geb.
    destruct (Z.leb_spec (toordinal od) (toordinal today)) as [Hle|Hgt].
    + intros [= <-]. split; [|done].
      intros _. exists d, od. split; [by apply elem_of_cons; left | done].
    + intros Hrest. rewrite (IH b Hrest). split.
      * intros (d' & od' & Hin & Hod' & Hge). exists d', od'.
        split; [by apply elem_of_cons; right | done].
      * intros (d' & od' & [->|Hin]%elem_of_cons & Hod' & Hge).
        -- rewrite Hod in Hod'. injection Hod' as <-. lia.
        -- by exists d', od'.
Qed.

(** With an open date for every date of the list, [any] returns. *)
Lemma any_in_open_window_returns (today : date) (dates : list pystr) :
  Forall (fun d => ∃ od, compute_open_date d = Returned od) dates →
  ∃ b : bool, any_in_open_window today dates = Returned b.
Proof.
  induction 1 as [|d rest (od & Hod) _ (b & Hb)]; [by exists false|].
  cbn [any_in_open_window]. rewrite Hod. cbn [mbind outcome_bind].
  destruct (date_geb today od); [by exists true | by exists b].
Qed.

Lemma randint_outcomes_jitter :
  randint_outcomes 0 JITTER_SEC = [0; 1; 2; 3; 4; 5; 6; 7; 8; 9; 10].
Proof. reflexivity. Qed.

(** C8. The seconds slept at the end of a turn are [base + jitter].  The
    jitter is what [random.randint(0, JITTER_SEC)] returns: whatever the
    random bits, it is one of the eleven integers 0 to 10, and each of
    them is returned for some bits.  [base] is 60 exactly when some
    monitored date has its open date on or before the day read at the end
    of the turn, and 43200 otherwise; so the sleep lies between [base]
    and [base + 10].  The computation returns when every monitored date
    has an open date.  It is made anew in every turn, from the day and
    the bits of that turn: a turn that returns ends with that sleep. *)
Theorem C8_sleep_is_base_plus_jitter (today : date) (word : Z) :
  ∃ j : Z,
    randint 0 JITTER_SEC word = Returned j
    ∧ j ∈ randint_outcomes 0 JITTER_SEC
    ∧ randint_outcomes 0 JITTER_SEC = [0; 1; 2; 3; 4; 5; 6; 7; 8; 9; 10]
    ∧ (∀ v, v ∈ randint_outcomes 0 JITTER_SEC →
            randint 0 JITTER_SEC v = Returned v)
    ∧ (Forall (fun d => ∃ od, compute_open_date d = Returned od) TARGET_DATES →
       ∃ seconds, sleep_duration today word = Returned seconds)
    ∧ (∀ seconds : Z,
         sleep_duration today word = Returned seconds →
         ∃ base : Z,
           seconds = base + j
           ∧ (base = 60 ↔
              ∃ d od, d ∈ TARGET_DATES ∧ compute_open_date d = Returned od
                      ∧ toordinal od ≤ toordinal today)
           ∧ (base = 60 ∨ base = 43200)
           ∧ base ≤ seconds ≤ base + 10
           ∧ (∀ (w : cycle_input) (m : machine),
                today_at_end w = today → jitter w = word →
                (main_cycle w m).1 = Returned () →
                last (trace (main_cycle w m).2) = Some (EvSleep seconds 0))).
Proof.
  exists (word `mod` 11).
  assert (randint 0 JITTER_SEC word = Returned (word `mod` 11)) as Hdraw
    by reflexivity.
  assert (0 ≤ word `mod` 11 ≤ 10) as Hrange.
  { pose proof (Z.mod_pos_bound word 11 ltac:(lia)). lia. }
  split; [exact Hdraw|]. split.
  { rewrite randint_outcomes_jitter.
    assert (word `mod` 11 = 0 ∨ word `mod` 11 = 1 ∨ word `mod` 11 = 2
            ∨ word `mod` 11 = 3 ∨ word `mod` 11 = 4 ∨ word `mod` 11 = 5
            ∨ word `mod` 11 = 6 ∨ word `mod` 11 = 7 ∨ word `mod` 11 = 8
            ∨ word `mod` 11 = 9 ∨ word `mod` 11 = 10) as Hcases by lia.
    rewrite !elem_of_cons. tauto. }
  split; [reflexivity|]. split.
  { intros v Hv. rewrite randint_outcomes_jitter in Hv.
    repeat (apply elem_of_cons in Hv as [->|Hv]; [reflexivity|]).
    by apply elem_of_nil in Hv. }
  split.
  - intros Hdates.
    destruct (any_in_open_window_returns today TARGET_DATES Hdates) as (b & Hb).
    unfold sleep_duration. rewrite Hb, Hdraw. eauto.
  - intros seconds Hsleep. pose proof Hsleep as Hsleep'.
    unfold sleep_duration in Hsleep.
    destruct (any_in_open_window today TARGET_DATES) as [b|e] eqn:Hany;
      [|discriminate].
    rewrite Hdraw in Hsleep.
    cbn [mbind outcome_bind] in Hsleep. injection Hsleep as <-.
    pose proof (any_in_open_window_true today TARGET_DATES b Hany) as Hiff.
    exists (if b then CHECK_INTERVAL_SEC else EARLY_CHECK_INTERVAL_SEC).
    split; [reflexivity|]. split; [|split; [|split]].
    + rewrite <- Hiff. destruct b; [done|].
      unfold EARLY_CHECK_INTERVAL_SEC. split; [lia | discriminate].
    + destruct b; [by left | by right].
    + lia.
    + intros w m <- Hw Hret. rewrite <- Hw in Hsleep' |- *.
      destruct (main_cycle_machine w m) as [Hm|(s & _ & _ & Hs & ->)].
      * exfalso. revert Hret Hm. unfold main_cycle. msimpl.
        destruct (main_for w m) as [[[]|e] m1]; [|discriminate].
        rewrite Hsleep'. cbn [fst snd]. intros _ Hm.
        apply (f_equal (fun x => length (trace x))) in Hm.
        cbn [trace] in Hm. rewrite length_app in Hm. cbn in Hm. lia.
      * rewrite Hsleep' in Hs. injection Hs as <-. cbn [trace].
        apply last_snoc.
Qed.

(** ** The pass against the transition table *)

Lemma notified_state_no_stock (st : gmap pystr pystr) :
  st !! "status"%py = Some "NO_STOCK"%py →
  notified_state st = NoStockNotified.
Proof. unfold notified_state. by intros ->. Qed.

(** The table says to push only the listing of an [Open] snapshot with a
    listed slot. *)
Lemma observe_listing (prior : NotifiedState) (snap : AvailabilitySnapshot)
    (listing : list pystr) :
  (observe prior snap).1 = Some listing →
  ∃ slots, snap = Open slots
           ∧ listing = map render (filterAvailable slots)
           ∧ listing ≠ [].
Proof.
  unfold observe. destruct snap as [slots|msg|msg]; try discriminate.
  destruct (filterAvailable slots) as [|q qs] eqn:Hq; cbn [map];
    [discriminate|].
  intros Hl. exists slots. rewrite Hq. cbn [map].
  destruct prior as [| | |f']; cbn [fst] in Hl;
    try (injection Hl as <-; by auto).
  destruct (py_eqb _ f'); cbn [fst] in Hl; [discriminate|].
  injection Hl as <-. by auto.
Qed.

(** X2. A pass in the window that meets a snapshot moves the state of its
    key as the transition table of the specification says, and pushes
    exactly when the table says to push, once; the body of the push
    carries the listing of the table: the line of every listed slot of
    the snapshot, in order. *)
Theorem main_key_refines_observe (today : date) (cid : Z) (d : pystr)
    (w : poll_input) (m : machine) (od : date)
    (t : pystr * option (list json) * pystr) (snap : AvailabilitySnapshot) :
  compute_open_date d = Returned od →
  toordinal od ≤ toordinal today →
  (fetch_slots cid d (net w) m).1 = Returned t →
  snapshot_of t = Some snap →
  let r := main_key today cid d w m in
  let step := observe (state_of m (cid, d)) snap in
  r.1 = Returned ()
  ∧ state_of r.2 (cid, d) = step.2
  ∧ notify_calls (new_events m r.2)
    = match step.1 with
      | Some listing => [(push_title cid d, push_body listing)]
      | None => []
      end
  ∧ (∀ listing,
       step.1 = Some listing →
       ∃ slots content,
         snap = Open slots
         ∧ listing = map render (filterAvailable slots)
         ∧ listing ≠ []
         ∧ Forall (fun line => py_nonempty line = true) listing
         ∧ notify_calls (new_events m r.2) = [(push_title cid d, content)]
         ∧ carries (chars content) listing).
Proof.
  intros Hod Hge Hf Hsnap r step.
  cut (r.1 = Returned ()
       ∧ state_of r.2 (cid, d) = step.2
       ∧ notify_calls (new_events m r.2)
         = match step.1 with
           | Some listing => [(push_title cid d, push_body listing)]
           | None => []
           end).
  { intros (Hret & Hstate & Hcalls).
    split; [exact Hret|]. split; [exact Hstate|]. split; [exact Hcalls|].
    intros listing Hl. rewrite Hl in Hcalls.
    destruct (observe_listing _ _ _ Hl) as (slots & -> & -> & Hne).
    exists slots, (push_body (map render (filterAvailable slots))).
    split; [done|]. split; [done|]. split; [done|].
    split; [apply listing_lines_nonempty|].
    split; [exact Hcalls | apply push_body_carries]. }
  pose proof (fetch_slots_shapes _ _ _ _ _ Hf) as Hshape.
  rewrite fetch_slots_result in Hf.
  destruct Hshape as [(l & msg & ->)|[(msg & ->)|(msg & ->)]];
    injection Hsnap as <-; subst r step.
  - pose proof (main_key_open today cid d w m od l msg Hod Hge Hf) as Hrun.
    cbn zeta in Hrun. rewrite join_lines_nonempty in Hrun.
    rewrite join_lines_fingerprint in Hrun. rewrite Hrun. clear Hrun.
    unfold observe, state_of.
    destruct (filterAvailable l) as [|q qs] eqn:Hq; cbn [map fst snd].
    + rewrite new_events_app. split; [done|]. split; [|done].
      cbn [last_pushed].
      destruct (bool_decide_reflect
                  (default ∅ (last_pushed m !! (cid, d)) !! "status"%py
                   = Some "NO_STOCK"%py)) as [Hs|Hs].
      * by apply notified_state_no_stock.
      * by rewrite lookup_insert_eq.
    + destruct (bool_decide_reflect
                  (default ∅ (last_pushed m !! (cid, d)) !! "status"%py
                   = Some "HAS_STOCK"%py
                   ∧ default ""%py
                       (default ∅ (last_pushed m !! (cid, d)) !! "payload"%py)
                     = fingerprint (q :: qs))) as [Hs|Hs].
      * apply notified_state_has_stock in Hs as Hst. rewrite Hst.
        unfold py_eqb. rewrite bool_decide_eq_true_2 by done.
        cbn [fst snd last_pushed]. by rewrite new_events_app.
      * cbn [fst snd last_pushed]. rewrite new_events_app.
        rewrite !notify_calls_app, notify_calls_notify_events.
        rewrite lookup_insert_eq.
        assert (notified_state
                  (status_payload "HAS_STOCK" (fingerprint (q :: qs)))
                = HasStockNotified (fingerprint (q :: qs))) as Hnew.
        { apply notified_state_has_stock.
          split; [apply status_payload_status|].
          by rewrite status_payload_payload. }
        destruct (notified_state (default ∅ (last_pushed m !! (cid, d))))
          as [| | |f'] eqn:Hprior; cbn [fst snd]; try done.
        unfold py_eqb.
        destruct (bool_decide_reflect (fingerprint (q :: qs) = f'))
          as [<-|Hne]; [|done].
        by apply notified_state_has_stock in Hprior.
  - rewrite (main_key_not_open _ _ _ _ _ _ _ _ Hod Hge Hf).
    cbn [fst snd observe]. rewrite new_events_app.
    split; [done|]. split; [|done].
    unfold state_of. cbn [last_pushed]. apply route_not_open_state.
  - rewrite (main_key_error _ _ _ _ _ _ _ _ Hod Hge Hf).
    cbn [fst snd observe]. by rewrite new_events_app.
Qed.

(** * More of the program *)

(** ** What [fetch_slots] returns and raises *)

Lemma fetch_slots_raises (cid : Z) (date_str : pystr) (answer : http_result)
    (m : machine) (e : exn) :
  (fetch_slots cid date_str answer m).1 = Raised e →
  e = AttributeError
  ∧ ∃ r body, answer = PostReturned r ∧ json_body r = Some body
              ∧ ∀ d, body ≠ JDict d.
Proof.
  unfold fetch_slots. msimpl.
  destruct answer as [err|r]; cbn [fst]; [discriminate|].
  destruct (json_body r) as [body|] eqn:Hbody.
  - destruct body as [| | | | | |d];
      try (cbn [py_get fst]; intros [= <-]; split; [done|];
           eexists r, _; split; [done|]; split; [exact Hbody|];
           intros d; discriminate).
    cbn [py_get].
    repeat match goal with
           | |- context [match ?x with _ => _ end] => destruct x
           end; discriminate.
  - destruct (is_error_status (status_code r)); discriminate.
Qed.

Lemma strptime_date_raises (s : pystr) (e : exn) :
  strptime_date s = Raised e → e = ValueError.
Proof.
  unfold strptime_date, date_new.
  repeat match goal with
         | |- context [match ?x with _ => _ end] => destruct x
         end; congruence.
Qed.

Lemma compute_open_date_raises (s : pystr) (e : exn) :
  compute_open_date s = Raised e → e = ValueError ∨ e = OverflowError.
Proof.
  unfold compute_open_date, date_sub_days.
  destruct (strptime_date s) as [target|e'] eqn:Hs; cbn [mbind outcome_bind].
  - destruct (_ && _); [discriminate|]. intros [= <-]. by right.
  - intros [= <-]. left. by eapply strptime_date_raises.
Qed.

(** X3. [fetch_slots] makes exactly one post and leaves the table alone.
    When it returns, the status is one of [OK], [NOT_OPEN] and [ERROR],
    and the slots are a list exactly when the status is [OK] (they are
    [None] otherwise), as its docstring says.  It raises only
    [AttributeError], and exactly when the body parses as JSON that is no
    object. *)
Theorem fetch_slots_contract (cid : Z) (date_str : pystr)
    (answer : http_result) (m : machine) :
  (fetch_slots cid date_str answer m).2
  = Machine (last_pushed m) (trace m ++ [EvFetch cid date_str])
  ∧ match (fetch_slots cid date_str answer m).1 with
    | Returned (status, slots, msg) =>
        (status = FetchStatus.OK ∧ is_Some slots)
        ∨ ((status = FetchStatus.NOT_OPEN ∨ status = FetchStatus.ERROR)
           ∧ slots = None)
    | Raised e =>
        e = AttributeError
        ∧ ∃ r body, answer = PostReturned r ∧ json_body r = Some body
                    ∧ ∀ d, body ≠ JDict d
    end
  ∧ ((∃ r body, answer = PostReturned r ∧ json_body r = Some body
                ∧ ∀ d, body ≠ JDict d) →
     (fetch_slots cid date_str answer m).1 = Raised AttributeError).
Proof.
  split; [by rewrite fetch_slots_machine|]. split.
  - destruct ((fetch_slots cid date_str answer m).1) as [[[status slots] msg]|e]
      eqn:Hf.
    + destruct (fetch_slots_shapes _ _ _ _ _ Hf)
        as [(l & msg' & [= -> -> ->])|[(msg' & [= -> -> ->])
                                       |(msg' & [= -> -> ->])]]; eauto.
    + by eapply fetch_slots_raises.
  - intros (r & body & -> & Hbody & Hnot).
    by rewrite (fetch_slots_non_object _ _ _ _ _ Hbody Hnot).
Qed.

(** ** What [compute_open_date] returns and raises *)

(** X4. [compute_open_date] returns exactly when the text parses as a
    date that is 0001-01-16 or later, and then the open date is a date of
    [datetime.date] no later than 9999-12-16, fifteen days before the
    target; it raises [ValueError] exactly when the text is no date, and
    [OverflowError] exactly when the date is before 0001-01-16; it raises
    nothing else.  A later target has a later open date. *)
Theorem compute_open_date_cases (s : pystr) :
  match compute_open_date s with
  | Returned od =>
      ∃ target, strptime_date s = Returned target
                ∧ toordinal od = toordinal target - 15
                ∧ 1 ≤ toordinal od ≤ MAXORDINAL - 15
  | Raised e =>
      (e = ValueError ∧ strptime_date s = Raised ValueError)
      ∨ (e = OverflowError
         ∧ ∃ target, strptime_date s = Returned target
                     ∧ toordinal target < 16)
  end
  ∧ (∀ s' od od' target target',
       strptime_date s = Returned target →
       strptime_date s' = Returned target' →
       compute_open_date s = Returned od →
       compute_open_date s' = Returned od' →
       (toordinal target < toordinal target'
        ↔ toordinal od < toordinal od')).
Proof.
  split.
  - destruct (strptime_date s) as [target|e] eqn:Hs.
    + pose proof (strptime_date_range s target Hs) as Hrange.
      destruct (Z.lt_ge_cases (toordinal target) 16) as [Hlt|Hge].
      * rewrite (compute_open_date_overflow s target Hs Hlt). right. eauto.
      * rewrite (compute_open_date_eq s target Hs Hge).
        exists target. cbn [toordinal]. split; [done|]. lia.
    + pose proof (strptime_date_raises s e Hs) as ->.
      unfold compute_open_date. rewrite Hs. cbn [mbind outcome_bind].
      left. done.
  - intros s' od od' target target' Hs Hs' Hod Hod'.
    unfold compute_open_date, date_sub_days in Hod, Hod'.
    rewrite Hs in Hod. rewrite Hs' in Hod'.
    cbn [mbind outcome_bind] in Hod, Hod'.
    destruct ((0 <? toordinal target - 15)
              && (toordinal target - 15 <=? MAXORDINAL)); [|discriminate].
    destruct ((0 <? toordinal target' - 15)
              && (toordinal target' - 15 <=? MAXORDINAL)); [|discriminate].
    injection Hod as <-. injection Hod' as <-. cbn [toordinal]. lia.
Qed.

(** ** More on the shapes of a pass *)

Lemma pass_raised_inv (today : date) (cid : Z) (d : pystr) (w : poll_input)
    (tbl tbl' : gmap (Z * pystr) (gmap pystr pystr)) (e : exn)
    (evs : list event) :
  pass today cid d w tbl (Raised e) tbl' evs →
  tbl' = tbl
  ∧ ((compute_open_date d = Raised e ∧ evs = [])
     ∨ (e = AttributeError ∧ evs = [EvFetch cid d])).
Proof.
  intros Hpass. inversion Hpass as [e' He| |od e' Hod Hge Hf| | | | |]; subst.
  - split; [done|]. by left.
  - split; [done|]. right.
    by destruct (fetch_slots_raises _ _ _ _ _ Hf) as [-> _].
Qed.

Lemma notify_calls_push_posts_events (title content : pystr) :
  push_posts (notify_events title content)
  = if py_nonempty SERVERCHAN_SENDKEY
    then [(push_url, title, content)] else [].
Proof.
  unfold notify_events, push_url.
  destruct (py_nonempty SERVERCHAN_SENDKEY); reflexivity.
Qed.

Lemma push_posts_app (a b : list event) :
  push_posts (a ++ b) = push_posts a ++ push_posts b.
Proof. apply omap_app. Qed.

(** The calls of a pass: at most one push, after a fetch, titled for the
    key; a post to the push service for each push when the key is set. *)
Lemma pass_calls (today : date) (cid : Z) (d : pystr) (w : poll_input)
    (tbl tbl' : gmap (Z * pystr) (gmap pystr pystr)) (o : outcome unit)
    (evs : list event) :
  pass today cid d w tbl o tbl' evs →
  (notify_calls evs = []
   ∨ ∃ body, notify_calls evs = [(push_title cid d, body)]
             ∧ fetch_calls evs = [(cid, d)])
  ∧ push_posts evs
    = if py_nonempty SERVERCHAN_SENDKEY
      then map (fun c => (push_url, c.1, c.2)) (notify_calls evs) else [].
Proof.
  intros Hpass.
  destruct Hpass;
    try (split; [by left | by destruct (py_nonempty SERVERCHAN_SENDKEY)]).
  rewrite !notify_calls_app, !push_posts_app, !fetch_calls_app.
  rewrite notify_calls_notify_events, fetch_calls_notify_events,
    notify_calls_push_posts_events.
  split; [right; eexists; split; reflexivity|].
  by destruct (py_nonempty SERVERCHAN_SENDKEY).
Qed.

Lemma pass_returned_fetch (today : date) (cid : Z) (d : pystr)
    (w : poll_input) (tbl tbl' : gmap (Z * pystr) (gmap pystr pystr))
    (evs : list event) :
  pass today cid d w tbl (Returned ()) tbl' evs →
  fetch_calls evs = if in_window today d then [(cid, d)] else [].
Proof.
  intros Hpass. unfold in_window, date_geb.
  inversion Hpass as [|od Hod Hlt| |od ? ? Hod Hge|od ? ? Hod Hge
                      |od ? ? Hod Hge|od ? ? Hod Hge|od ? ? Hod Hge];
    subst; rewrite Hod.
  - by assert ((toordinal od <=? toordinal today) = false) as -> by lia.
  - by assert ((toordinal od <=? toordinal today) = true) as -> by lia.
  - by assert ((toordinal od <=? toordinal today) = true) as -> by lia.
  - by assert ((toordinal od <=? toordinal today) = true) as -> by lia.
  - by assert ((toordinal od <=? toordinal today) = true) as -> by lia.
  - assert ((toordinal od <=? toordinal today) = true) as -> by lia.
    by rewrite !fetch_calls_app, fetch_calls_notify_events.
Qed.

(** A pass deletes no dict and adds at most the dict of its key. *)
Lemma pass_dom (today : date) (cid : Z) (d : pystr) (w : poll_input)
    (tbl tbl' : gmap (Z * pystr) (gmap pystr pystr)) (o : outcome unit)
    (evs : list event) (k : Z * pystr) :
  pass today cid d w tbl o tbl' evs →
  (is_Some (tbl !! k) → is_Some (tbl' !! k))
  ∧ (is_Some (tbl' !! k) → is_Some (tbl !! k) ∨ k = (cid, d)).
Proof.
  intros Hpass. destruct (decide (k = (cid, d))) as [->|Hne].
  - split; [|by right]. intros Hk.
    destruct Hpass; try done; unfold route_not_open;
      try (destruct (status_differs _ _); [|done]);
      by rewrite lookup_insert_eq.
  - rewrite (pass_frame _ _ _ _ _ _ _ _ _ Hpass Hne). auto.
Qed.

(** ** More on the loops *)

Lemma for_each_inv_in {A} (P : machine → Prop) (body : nat → A → M unit)
    (i : nat) (l : list A) (m : machine) :
  (∀ j x m', x ∈ l → P m' → P (body j x m').2) →
  P m → P (for_each body i l m).2.
Proof.
  revert i m. induction l as [|x rest IH]; intros i m Hbody Hm; [done|].
  cbn [for_each]. msimpl.
  pose proof (Hbody i x m ltac:(by apply elem_of_cons; left) Hm) as Hx.
  destruct (body i x m) as [[[]|e] m1]; cbn [snd] in *; [|done].
  apply IH; [|done]. intros j y m' Hy. apply Hbody.
  apply elem_of_cons. by right.
Qed.

Lemma main_for_inv_in (P : machine → Prop) (w : cycle_input) (m : machine) :
  (∀ cid d wp m', cid ∈ COMMODITY_IDS → d ∈ TARGET_DATES → P m' →
                  P (main_key (today_at_start w) cid d wp m').2) →
  P m → P (main_for w m).2.
Proof.
  intros Hkey. unfold main_for. apply for_each_inv_in. intros i cid m' Hc Hm'.
  apply for_each_inv_in; [|exact Hm']. intros j d m'' Hd. by apply Hkey.
Qed.

(** What every pass for a monitored key and the sleep at the end of a
    turn keep holds after any number of turns of [main]. *)
Lemma main_turns_inv (P : machine → Prop) (ws : nat → cycle_input)
    (k n : nat) (m : machine) :
  (∀ today cid d wp m', cid ∈ COMMODITY_IDS → d ∈ TARGET_DATES → P m' →
                        P (main_key today cid d wp m').2) →
  (∀ m' seconds, P m' →
                 P (Machine (last_pushed m') (trace m' ++ [EvSleep seconds 0]))) →
  P m → P (main_turns ws k n m).2.
Proof.
  intros Hkey Hsleep. revert k m. induction n as [|n IH]; intros k m Hm; [done|].
  cbn [main_turns]. msimpl.
  assert (P (main_cycle (ws k) m).2) as Hc.
  { assert (P (main_for (ws k) m).2) as Hfor.
    { apply main_for_inv_in; [|done]. intros. by apply Hkey. }
    destruct (main_cycle_machine (ws k) m) as [->|(s & _ & _ & _ & ->)];
      [done | by apply Hsleep]. }
  destruct (main_cycle (ws k) m) as [[[]|e] m1]; cbn [snd] in *;
    [by apply IH | done].
Qed.

Lemma new_events_grow (m m' : machine) (evs : list event) :
  trace m' = trace m ++ evs → new_events m m' = evs.
Proof. unfold new_events. intros ->. by rewrite drop_app_length. Qed.

(** An exception of a loop is the exception of one of its passes. *)
Lemma for_each_raises {A} (body : nat → A → M unit) (i : nat) (l : list A)
    (m : machine) (e : exn) :
  (for_each body i l m).1 = Raised e →
  ∃ j x m', x ∈ l ∧ (body j x m').1 = Raised e.
Proof.
  revert i m. induction l as [|x rest IH]; intros i m; [discriminate|].
  cbn [for_each]. msimpl.
  destruct (body i x m) as [[[]|e'] m1] eqn:Hb; cbn [fst].
  - intros Hrest. destruct (IH _ _ Hrest) as (j & y & m' & Hy & Hr).
    exists j, y, m'. split; [by apply elem_of_cons; right | done].
  - intros [= <-]. exists i, x, m. rewrite Hb.
    split; [by apply elem_of_cons; left | done].
Qed.

Lemma any_in_open_window_raises (today : date) (dates : list pystr) (e : exn) :
  any_in_open_window today dates = Raised e →
  ∃ d, d ∈ dates ∧ compute_open_date d = Raised e.
Proof.
  induction dates as [|d rest IH]; [discriminate|].
  cbn [any_in_open_window].
  destruct (compute_open_date d) as [od|e'] eqn:Hod; cbn [mbind outcome_bind].
  - destruct (date_geb today od); [discriminate|]. intros Hrest.
    destruct (IH Hrest) as (d' & Hin & Hd'). exists d'.
    split; [by apply elem_of_cons; right | done].
  - intros [= <-]. exists d. split; [by apply elem_of_cons; left | done].
Qed.

(** An exception of a turn is that of a pass for a monitored key or that
    of [compute_open_date] on a monitored date. *)
Lemma main_cycle_raises (w : cycle_input) (m : machine) (e : exn) :
  (main_cycle w m).1 = Raised e →
  (∃ cid d wp m', cid ∈ COMMODITY_IDS ∧ d ∈ TARGET_DATES
                  ∧ (main_key (today_at_start w) cid d wp m').1 = Raised e)
  ∨ (∃ d, d ∈ TARGET_DATES ∧ compute_open_date d = Raised e).
Proof.
  unfold main_cycle. msimpl.
  destruct (main_for w m) as [[[]|e'] m1] eqn:Hfor; cbn [fst].
  - unfold sleep_duration.
    destruct (any_in_open_window (today_at_end w) TARGET_DATES) as [b|e']
      eqn:Hany; cbn [mbind outcome_bind fst]; [discriminate|].
    intros [= <-]. right. by eapply any_in_open_window_raises.
  - intros [= <-]. left.
    assert ((main_for w m).1 = Raised e') as Hr by (by rewrite Hfor).
    unfold main_for in Hr.
    destruct (for_each_raises _ _ _ _ _ Hr) as (i & cid & m' & Hc & Hin).
    destruct (for_each_raises _ _ _ _ _ Hin) as (j & d & m'' & Hd & Hk).
    by exists cid, d, (polls w i j), m''.
Qed.

Lemma main_turns_raises (ws : nat → cycle_input) (k n : nat) (m : machine)
    (e : exn) :
  (main_turns ws k n m).1 = Raised e →
  ∃ w m', (main_cycle w m').1 = Raised e.
Proof.
  revert k m. induction n as [|n IH]; intros k m; [discriminate|].
  cbn [main_turns]. msimpl.
  destruct (main_cycle (ws k) m) as [[[]|e'] m1] eqn:Hc; cbn [fst].
  - apply IH.
  - intros [= <-]. exists (ws k), m. by rewrite Hc.
Qed.

(** The turns compose: [n + t] turns are [n] turns and then, when these
    return, [t] more from the machine they leave. *)
(** ** The exceptions of a pass and of [main] *)

(** X5. A pass raises only [ValueError] or [OverflowError], from
    [compute_open_date] before any call is made, or [AttributeError],
    from [fetch_slots] after its post; the [assert] of line 239 never
    fails.  A pass that raises has written nothing to the table and has
    pushed nothing.  So these three are the only exceptions that the
    loop of lines 198 to 285 raises, from whatever table and turn it is
    run; what [main()] does before the loop is no part of this. *)
Theorem main_key_raises_only (today : date) (cid : Z) (d : pystr)
    (w : poll_input) (m : machine) (e : exn) :
  (main_key today cid d w m).1 = Raised e →
  (e = ValueError ∨ e = OverflowError ∨ e = AttributeError)
  ∧ last_pushed (main_key today cid d w m).2 = last_pushed m
  ∧ new_events m (main_key today cid d w m).2
    = match e with AttributeError => [EvFetch cid d] | _ => [] end
  ∧ (∀ (ws : nat → cycle_input) (k n : nat) (m' : machine) (e' : exn),
       (main_turns ws k n m').1 = Raised e' →
       e' = ValueError ∨ e' = OverflowError ∨ e' = AttributeError).
Proof.
  assert (∀ today cid d w m e,
            (main_key today cid d w m).1 = Raised e →
            (e = ValueError ∨ e = OverflowError ∨ e = AttributeError)
            ∧ last_pushed (main_key today cid d w m).2 = last_pushed m
            ∧ new_events m (main_key today cid d w m).2
              = match e with AttributeError => [EvFetch cid d] | _ => [] end)
    as Hpass.
  { clear. intros today cid d w m e.
    destruct (main_key_pass today cid d w m) as (o & tbl' & evs & -> & Hpass).
    cbn [fst snd]. intros ->. rewrite new_events_app. cbn [last_pushed].
    destruct (pass_raised_inv _ _ _ _ _ _ _ _ Hpass)
      as (-> & [(Hod & ->)|(-> & ->)]).
    - destruct (compute_open_date_raises _ _ Hod) as [-> | ->]; auto.
    - auto. }
  intros Hr. destruct (Hpass _ _ _ _ _ _ Hr) as (He & Htbl & Hev).
  split; [done|]. split; [done|]. split; [done|].
  intros ws k n m0 e' Hmain.
  destruct (main_turns_raises _ _ _ _ _ Hmain) as (w' & m' & Hc).
  destruct (main_cycle_raises _ _ _ Hc)
    as [(c' & d' & wp & m'' & _ & _ & Hk)|(d' & _ & Hod)].
  - by destruct (Hpass _ _ _ _ _ _ Hk) as (He' & _).
  - destruct (compute_open_date_raises _ _ Hod) as [-> | ->]; auto.
Qed.

(** ** [main] ends at its first exception *)

(** ** The keys of the table *)

(** X7. A pass writes the dict of its own key only: the dict of every
    other key is as before, and no key is ever removed.  So a key stored
    after some turns of [main] stays stored in all later turns, and every
    key that [main] stores is a monitored key, a product of
    [COMMODITY_IDS] with a date of [TARGET_DATES]. *)
Theorem main_key_writes_own_key_only :
  (∀ (today : date) (cid : Z) (d : pystr) (w : poll_input) (m : machine)
     (k : Z * pystr),
     (k ≠ (cid, d) →
        last_pushed (main_key today cid d w m).2 !! k = last_pushed m !! k)
     ∧ (is_Some (last_pushed m !! k) →
        is_Some (last_pushed (main_key today cid d w m).2 !! k)))
  ∧ (∀ (ws : nat → cycle_input) (n t : nat) (k : Z * pystr),
       is_Some (last_pushed (main ws n).2 !! k) →
       is_Some (last_pushed (main ws (n + t)).2 !! k)
       ∧ k ∈ monitored_keys).
Proof.
  assert (∀ today cid d w m k,
            is_Some (last_pushed m !! k) →
            is_Some (last_pushed (main_key today cid d w m).2 !! k)) as Hkeep.
  { intros today cid d w m k.
    destruct (main_key_pass today cid d w m) as (o & tbl' & evs & -> & Hpass).
    cbn [snd last_pushed].
    exact (proj1 (pass_dom _ _ _ _ _ _ _ _ k Hpass)). }
  split.
  - intros today cid d w m k. split; [|apply Hkeep].
    intros Hne.
    destruct (main_key_pass today cid d w m) as (o & tbl' & evs & -> & Hpass).
    cbn [snd last_pushed]. by eapply pass_frame.
  - intros ws n t k Hk. split.
    + unfold main in *. rewrite main_turns_app.
      destruct (main_turns ws 0 n (Machine ∅ [])) as [[[]|e] m'];
        cbn [snd] in *; [|done].
      apply (main_turns_inv (fun m => is_Some (last_pushed m !! k)));
        [| |done].
      * intros today cid d wp m'' _ _. apply Hkeep.
      * intros m'' s Hm''. exact Hm''.
    + revert k Hk. unfold main.
      apply (main_turns_inv
               (fun m => ∀ k, is_Some (last_pushed m !! k) → k ∈ monitored_keys)).
      * intros today cid d wp m' Hc Hd Hm' k.
        destruct (main_key_pass today cid d wp m')
          as (o & tbl' & evs & -> & Hpass).
        cbn [snd last_pushed]. intros Hk.
        destruct (pass_dom _ _ _ _ _ _ _ _ k Hpass) as [_ Hnew].
        destruct (Hnew Hk) as [Hold| ->]; [by apply Hm'|].
        unfold monitored_keys. apply list_elem_of_In, in_prod;
          by apply list_elem_of_In.
      * intros m' s Hm'. exact Hm'.
      * intros k. cbn [last_pushed]. rewrite lookup_empty.
        by intros [? ?].
Qed.

(** ** Configurations that never finish a turn, or do nothing *)

(** X8. With a monitored date that has no open date (a text that is no
    date, or a date before 0001-01-16) and at least one product, no turn
    of the loop returns: [main] raises in its first turn, and makes no
    end-of-turn sleep. *)
Theorem bad_date_ends_first_turn (d : pystr) (e : exn) :
  d ∈ TARGET_DATES →
  compute_open_date d = Raised e →
  COMMODITY_IDS ≠ [] →
  (∀ (w : cycle_input) (m : machine), (main_cycle w m).1 ≠ Returned ())
  ∧ (∀ (ws : nat → cycle_input) (n : nat),
       ∃ e', (main ws (S n)).1 = Raised e'
             ∧ main ws (S n) = main ws 1).
Proof.
  intros Hd Hod Hids.
  assert (∀ w m, (main_cycle w m).1 ≠ Returned ()) as Hturn.
  { intros w m Hret. apply main_cycle_returns in Hret.
    destruct COMMODITY_IDS as [|cid ids] eqn:Hc; [done|].
    rewrite <- Hc in *.
    apply (main_for_elem (fun _ => True) (fun _ => False) w m cid d);
      try done.
    - rewrite Hc. by apply elem_of_cons; left.
    - intros wp m' _. by rewrite (main_key_no_open_date _ _ _ _ _ _ Hod). }
  split; [exact Hturn|]. intros ws n.
  assert (∃ e' m', main ws 1 = (Raised e', m')) as (e' & m' & H1).
  { unfold main. cbn [main_turns]. msimpl.
    pose proof (Hturn (ws 0%nat) (Machine ∅ [])) as Hne.
    destruct (main_cycle (ws 0%nat) (Machine ∅ [])) as [[[]|e'] m'];
      [done | eauto]. }
  exists e'. replace (S n) with (1 + n)%nat by lia.
  unfold main in *. rewrite main_turns_app, H1. done.
Qed.

(** X9. With no product or no date to monitor, the loops of a turn do
    nothing: no fetch, no push, no pause, the table and the trace as they
    were.  With no date the turn only sleeps, for the long interval plus
    the jitter. *)
Theorem empty_configuration_does_nothing (w : cycle_input) (m : machine) :
  COMMODITY_IDS = [] ∨ TARGET_DATES = [] →
  main_for w m = (Returned (), m)
  ∧ (TARGET_DATES = [] →
     main_cycle w m
     = (Returned (),
        Machine (last_pushed m)
          (trace m
           ++ [EvSleep (EARLY_CHECK_INTERVAL_SEC + jitter w `mod` 11) 0]))).
Proof.
  intros Hempty.
  assert (main_for w m = (Returned (), m)) as Hfor.
  { unfold main_for. destruct Hempty as [-> | ->]; [reflexivity|].
    generalize 0%nat. induction COMMODITY_IDS as [|c cs IH]; intros i.
    - reflexivity.
    - cbn [for_each]. msimpl. apply IH. }
  split; [exact Hfor|]. intros Hd.
  unfold main_cycle. msimpl. rewrite Hfor.
  unfold sleep_duration. rewrite Hd. reflexivity.
Qed.

(** ** The calls of a turn *)

(** The calls of a pass that returns. *)
Lemma main_key_returned_calls (today : date) (cid : Z) (d : pystr)
    (w : poll_input) (m : machine) :
  (main_key today cid d w m).1 = Returned () →
  ∃ evs,
    trace (main_key today cid d w m).2 = trace m ++ evs
    ∧ fetch_calls evs = (if in_window today d then [(cid, d)] else [])
    ∧ (length (notify_calls evs) ≤ length (fetch_calls evs))%nat.
Proof.
  destruct (main_key_pass today cid d w m) as (o & tbl' & evs & -> & Hpass).
  cbn [fst snd trace]. intros ->. exists evs. split; [done|].
  split; [by eapply pass_returned_fetch|].
  destruct (pass_calls _ _ _ _ _ _ _ _ Hpass) as [[-> |(b & -> & ->)] _];
    cbn; lia.
Qed.

Lemma dates_loop_calls (today : date) (cid : Z) (inputs : nat → poll_input)
    (j : nat) (dates : list pystr) (m : machine) :
  (for_each (fun j d => main_key today cid d (inputs j)) j dates m).1
  = Returned () →
  ∃ evs,
    trace (for_each (fun j d => main_key today cid d (inputs j)) j dates m).2
    = trace m ++ evs
    ∧ fetch_calls evs
      = filter (fun k => in_window today k.2) (map (pair cid) dates)
    ∧ (length (notify_calls evs) ≤ length (fetch_calls evs))%nat.
Proof.
  revert j m. induction dates as [|d rest IH]; intros j m.
  - intros _. exists []. cbn. by rewrite app_nil_r.
  - cbn [for_each]. msimpl.
    pose proof (main_key_returned_calls today cid d (inputs j) m) as Hd.
    destruct (main_key today cid d (inputs j) m) as [[[]|e] m1];
      cbn [fst snd] in *; [|discriminate].
    intros Hrest.
    destruct (Hd eq_refl) as (e1 & Ht1 & Hf1 & Hn1).
    destruct (IH _ _ Hrest) as (e2 & Ht2 & Hf2 & Hn2).
    exists (e1 ++ e2). split; [by rewrite Ht2, Ht1, app_assoc|].
    rewrite fetch_calls_app, notify_calls_app, !length_app.
    split; [|lia]. rewrite Hf2. cbn [map]. rewrite filter_cons. cbn [snd].
    rewrite Hf1. by destruct (in_window today d).
Qed.

Lemma products_loop_calls (w : cycle_input) (i : nat) (ids : list Z)
    (m : machine) :
  (for_each (fun i cid =>
     for_each (fun j date_str =>
       main_key (today_at_start w) cid date_str (polls w i j))
       0%nat TARGET_DATES) i ids m).1 = Returned () →
  ∃ evs,
    trace (for_each (fun i cid =>
             for_each (fun j date_str =>
               main_key (today_at_start w) cid date_str (polls w i j))
               0%nat TARGET_DATES) i ids m).2
    = trace m ++ evs
    ∧ fetch_calls evs
      = filter (fun k => in_window (today_at_start w) k.2)
          (list_prod ids TARGET_DATES)
    ∧ (length (notify_calls evs) ≤ length (fetch_calls evs))%nat.
Proof.
  revert i m. induction ids as [|cid rest IH]; intros i m.
  - intros _. exists []. cbn. by rewrite app_nil_r.
  - cbn [for_each]. msimpl.
    pose proof (dates_loop_calls (today_at_start w) cid (polls w i) 0
                  TARGET_DATES m) as Hc.
    destruct (for_each _ 0%nat TARGET_DATES m) as [[[]|e] m1];
      cbn [fst snd] in *; [|discriminate].
    intros Hrest.
    destruct (Hc eq_refl) as (e1 & Ht1 & Hf1 & Hn1).
    destruct (IH _ _ Hrest) as (e2 & Ht2 & Hf2 & Hn2).
    exists (e1 ++ e2). split; [by rewrite Ht2, Ht1, app_assoc|].
    rewrite fetch_calls_app, notify_calls_app, !length_app.
    split; [|lia]. rewrite Hf1, Hf2. cbn [list_prod]. by rewrite filter_app.
Qed.

(** X10. A turn that returns has fetched once for each monitored key in
    its window and for no other key, in the order of the two loops, and
    has pushed at most once per fetch: a turn makes at most as many
    pushes as fetches, and at most as many fetches as there are monitored
    keys. *)
Theorem turn_fetches_in_loop_order (w : cycle_input) (m : machine) :
  (main_cycle w m).1 = Returned () →
  let evs := new_events m (main_cycle w m).2 in
  fetch_calls evs
  = filter (fun k => in_window (today_at_start w) k.2) monitored_keys
  ∧ (length (notify_calls evs) ≤ length (fetch_calls evs))%nat
  ∧ (length (fetch_calls evs)
     ≤ length COMMODITY_IDS * length TARGET_DATES)%nat.
Proof.
  intros Hret evs.
  pose proof (main_cycle_returns _ _ Hret) as Hfor.
  destruct (products_loop_calls w 0 COMMODITY_IDS m Hfor)
    as (e1 & Ht & Hf & Hn).
  fold (main_for w) in Ht.
  assert (∃ tail, trace (main_cycle w m).2 = trace m ++ e1 ++ tail
                  ∧ fetch_calls tail = [] ∧ notify_calls tail = [])
    as (tail & Htr & Hft & Hnt).
  { destruct (main_cycle_machine w m) as [->|(s & _ & _ & _ & ->)].
    - exists []. by rewrite Ht, app_nil_r.
    - exists [EvSleep s 0]. cbn [trace]. by rewrite Ht, app_assoc. }
  subst evs. rewrite (new_events_grow _ _ _ Htr).
  rewrite fetch_calls_app, notify_calls_app, Hft, Hnt, !app_nil_r.
  split; [exact Hf|]. split; [exact Hn|].
  rewrite Hf. etrans; [apply length_filter|].
  unfold monitored_keys. by rewrite length_prod.
Qed.

(** ** The posts to the push service *)

Lemma main_push_posts (ws : nat → cycle_input) (n : nat) :
  push_posts (trace (main ws n).2)
  = if py_nonempty SERVERCHAN_SENDKEY
    then map (fun c => (push_url, c.1, c.2))
           (notify_calls (trace (main ws n).2))
    else [].
Proof.
  unfold main.
  apply (main_turns_inv
           (fun m => push_posts (trace m)
                     = if py_nonempty SERVERCHAN_SENDKEY
                       then map (fun c => (push_url, c.1, c.2))
                              (notify_calls (trace m))
                       else [])).
  - intros today cid d wp m' _ _ Hm'.
    destruct (main_key_pass today cid d wp m') as (o & tbl' & evs & -> & Hpass).
    cbn [snd trace]. rewrite push_posts_app, notify_calls_app, Hm'.
    destruct (pass_calls _ _ _ _ _ _ _ _ Hpass) as [_ ->].
    destruct (py_nonempty SERVERCHAN_SENDKEY); [by rewrite map_app | done].
  - intros m' s Hm'. cbn [trace].
    rewrite push_posts_app, notify_calls_app, Hm'. cbn.
    rewrite !app_nil_r. done.
  - by destruct (py_nonempty SERVERCHAN_SENDKEY).
Qed.

(** X11. Over any number of turns of [main], the posts to the push
    service are, when the push key is empty, none at all, and otherwise
    exactly one per call of [notify_serverchan], in the same order, with
    the same title and body, to the address built from the key. *)
Theorem posts_follow_the_push_key (ws : nat → cycle_input) (n : nat) :
  push_posts (trace (main ws n).2)
  = if py_nonempty SERVERCHAN_SENDKEY
    then map (fun c => (push_url, c.1, c.2))
           (notify_calls (trace (main ws n).2))
    else [].
Proof. apply main_push_posts. Qed.


(** ** The pause after a pass *)

Lemma sleep_calls_app (a b : list event) :
  sleep_calls (a ++ b) = sleep_calls a ++ sleep_calls b.
Proof. apply omap_app. Qed.

Lemma sleep_calls_notify_events (title content : pystr) :
  sleep_calls (notify_events title content) = [].
Proof.
  unfold notify_events. by destruct (py_nonempty SERVERCHAN_SENDKEY).
Qed.

(** X12. The pause of line 277 follows the passes that reach the end of
    the loop body, and no other: a pass sleeps once, for one second and
    the fraction drawn, when its key is in the window and [fetch_slots]
    returns [OK]; a pass before the open date, a pass with the answer
    [NOT_OPEN] or [ERROR], and a pass that raises do not sleep. *)
Theorem pause_follows_ok_answer (today : date) (cid : Z) (d : pystr)
    (w : poll_input) (m : machine) :
  sleep_calls (new_events m (main_key today cid d w m).2)
  = if in_window today d
       && bool_decide (fetched_status cid d (net w) = Some FetchStatus.OK)
    then [(1, pause w)] else [].
Proof.
  destruct (main_key_pass today cid d w m) as (o & tbl' & evs & -> & Hpass).
  cbn [snd]. rewrite (new_events_grow m _ evs) by done.
  unfold in_window, date_geb, fetched_status.
  destruct Hpass as [e He|od Hod Hlt|od e Hod Hge Hf|od slots msg Hod Hge Hf
                     |od slots msg Hod Hge Hf|od slots msg Hod Hge Hf
                     |od slots msg Hod Hge Hf _|od slots msg Hod Hge Hf _];
    first [rewrite He | rewrite Hod]; try done.
  - by assert ((toordinal od <=? toordinal today) = false) as -> by lia.
  - rewrite Hf. by rewrite andb_false_r.
  - rewrite Hf. by rewrite andb_false_r.
  - rewrite Hf. by rewrite andb_false_r.
  - rewrite Hf. by assert ((toordinal od <=? toordinal today) = true) as -> by lia.
  - rewrite Hf. by assert ((toordinal od <=? toordinal today) = true) as -> by lia.
  - rewrite Hf. assert ((toordinal od <=? toordinal today) = true) as -> by lia.
    by rewrite !sleep_calls_app, sleep_calls_notify_events.
Qed.

(** ** When [main] keeps running *)

Lemma main_key_returns (today : date) (cid : Z) (d : pystr) (w : poll_input)
    (m : machine) (od : date) :
  compute_open_date d = Returned od →
  object_answer (net w) = true →
  (main_key today cid d w m).1 = Returned ().
Proof.
  intros Hod Hobj.
  destruct (main_key_pass today cid d w m) as (o & tbl' & evs & -> & Hpass).
  cbn [fst].
  destruct Hpass as [e He| |od' e _ _ Hf| | | | |]; try done.
  - by rewrite Hod in He.
  - apply fetch_slots_raises in Hf as (_ & r & body & Hnet & Hbody & Hnot).
    unfold object_answer in Hobj. rewrite Hnet, Hbody in Hobj.
    destruct body; try discriminate. by destruct (Hnot d0).
Qed.

Lemma for_each_returns {A} (body : nat → A → M unit) (i : nat) (l : list A)
    (m : machine) :
  (∀ j x m', x ∈ l → (body j x m').1 = Returned ()) →
  (for_each body i l m).1 = Returned ().
Proof.
  revert i m. induction l as [|x rest IH]; intros i m Hbody; [done|].
  cbn [for_each]. msimpl.
  pose proof (Hbody i x m ltac:(by apply elem_of_cons; left)) as Hx.
  destruct (body i x m) as [[[]|e] m1]; cbn [fst] in *; [|done].
  apply IH. intros j y m' Hy. apply Hbody. apply elem_of_cons. by right.
Qed.

Lemma main_cycle_keeps_running (w : cycle_input) (m : machine) :
  Forall (fun d => ∃ od, compute_open_date d = Returned od) TARGET_DATES →
  (∀ i j, object_answer (net (polls w i j)) = true) →
  (main_cycle w m).1 = Returned ().
Proof.
  intros Hdates Hnet.
  assert ((main_for w m).1 = Returned ()) as Hfor.
  { unfold main_for. apply for_each_returns. intros i cid m1 _.
    apply for_each_returns. intros j d m2 Hd.
    rewrite Forall_forall in Hdates. destruct (Hdates d Hd) as (od & Hod).
    by eapply main_key_returns. }
  unfold main_cycle. msimpl.
  destruct (main_for w m) as [[[]|e] m1]; cbn [fst] in *; [|done].
  unfold sleep_duration.
  destruct (any_in_open_window_returns (today_at_end w) TARGET_DATES Hdates)
    as (b & ->).
  done.
Qed.

(** X13. The loop of [main] (lines 198 to 285) keeps running on
    well-formed input: when every product id has at most 4300 decimal
    digits (so that the interpreter renders it), every monitored date has
    an open date, and every answer to a fetch is a transport error, a
    body that is no JSON, or a JSON object, no turn raises, from whatever
    table and turn the loop is run, whatever the answers say and whatever
    the push service does.  What [main()] does before the loop is no part
    of this. *)
Theorem polling_loop_keeps_running (ws : nat → cycle_input) (k n : nat)
    (m : machine) :
  Forall (fun cid => - 10 ^ 4300 < cid < 10 ^ 4300) COMMODITY_IDS →
  Forall (fun d => ∃ od, compute_open_date d = Returned od) TARGET_DATES →
  (∀ k i j, object_answer (net (polls (ws k) i j)) = true) →
  (main_turns ws k n m).1 = Returned ().
Proof.
  intros _ Hdates Hnet. revert k m.
  induction n as [|n IH]; intros k m; [done|].
  cbn [main_turns]. msimpl.
  pose proof (main_cycle_keeps_running (ws k) m Hdates (Hnet k)) as Hc.
  destruct (main_cycle (ws k) m) as [[[]|e] m1]; cbn [fst] in *; [|done].
  apply IH.
Qed.


(** ** The merged string tells the listings apart *)

Lemma app_cons_first {A} (x : A) (a1 b1 a2 b2 : list A) :
  x ∉ a1 → x ∉ a2 → a1 ++ x :: b1 = a2 ++ x :: b2 → a1 = a2 ∧ b1 = b2.
Proof.
  revert a2. induction a1 as [|y a1 IH]; intros [|z a2] H1 H2 Heq.
  - by injection Heq as <-.
  - injection Heq as ->. exfalso. apply H2. by left.
  - injection Heq as ->. exfalso. apply H1. by left.
  - injection Heq as -> Heq.
    destruct (IH a2) as [-> ->]; [| |done|done].
    + intros Hin. apply H1. by right.
    + intros Hin. apply H2. by right.
Qed.

Lemma pystr_chars_inj (s t : pystr) : chars s = chars t → s = t.
Proof. destruct s, t. cbn. by intros ->. Qed.

Lemma join_chars_bar_cons (x y : pystr) (r : list pystr) :
  join_chars [32; 124; 32]%N (x :: y :: r)
  = (chars x ++ [32%N]) ++ 124%N :: 32%N :: join_chars [32; 124; 32]%N (y :: r).
Proof. cbn [join_chars]. by rewrite <- app_assoc. Qed.

Lemma join_chars_bar_inj (a b : list pystr) :
  Forall (fun l => 124%N ∉ chars l) a →
  Forall (fun l => 124%N ∉ chars l) b →
  a ≠ [] → b ≠ [] →
  join_chars [32; 124; 32]%N a = join_chars [32; 124; 32]%N b → a = b.
Proof.
  intros Ha. revert b.
  induction Ha as [|x a Hx Ha IH]; intros b Hb Hna Hnb; [done|].
  destruct Hb as [|y b Hy Hb]; [done|].
  destruct a as [|x' a], b as [|y' b].
  - cbn [join_chars]. intros H. f_equal. by apply pystr_chars_inj.
  - rewrite join_chars_bar_cons. cbn [join_chars].
    intros H. exfalso. apply Hx. rewrite H.
    rewrite elem_of_app. right. by left.
  - rewrite join_chars_bar_cons. cbn [join_chars].
    intros H. exfalso. apply Hy. rewrite <- H.
    rewrite elem_of_app. right. by left.
  - rewrite !join_chars_bar_cons. intros H.
    apply app_cons_first in H as [H1 H2].
    + apply app_inj_tail in H1 as [H1 _]. injection H2 as H2.
      f_equal; [by apply pystr_chars_inj|]. by apply IH.
    + rewrite elem_of_app, elem_of_cons. intros [?|[?|?%elem_of_nil]]; done.
    + rewrite elem_of_app, elem_of_cons. intros [?|[?|?%elem_of_nil]]; done.
Qed.

(** X14. The merged string that [main] compares with the stored payload
    determines the lines: two lists of slots whose lines have no vertical
    bar and whose merged strings are equal have the same lines, hence the
    same push body.  So a change of the listed lines is never taken for
    no change. *)
Theorem merged_string_determines_lines (slots1 slots2 : list json)
    (lines1 lines2 : list pystr) :
  format_available_lines slots1 = Returned lines1 →
  format_available_lines slots2 = Returned lines2 →
  Forall (fun l => 124%N ∉ chars l) lines1 →
  Forall (fun l => 124%N ∉ chars l) lines2 →
  join_lines lines1 = join_lines lines2 →
  lines1 = lines2 ∧ push_body lines1 = push_body lines2.
Proof.
  rewrite !format_available_lines_spec. intros [= <-] [= <-] H1 H2 Heq.
  cut (map render (filterAvailable slots1) = map render (filterAvailable slots2)).
  { by intros ->. }
  pose proof (join_lines_nonempty (filterAvailable slots1)) as Hn1.
  pose proof (join_lines_nonempty (filterAvailable slots2)) as Hn2.
  rewrite Heq in Hn1.
  destruct (filterAvailable slots1) as [|q1 r1] eqn:Hq1,
           (filterAvailable slots2) as [|q2 r2] eqn:Hq2;
    try done; try (by rewrite Hn2 in Hn1).
  apply join_chars_bar_inj; try done.
  unfold join_lines, py_join in Heq. cbn [map] in Heq.
  by injection Heq.
Qed.

(** ** The push key comes from the environment *)

Lemma lstrip_chars_nil (l : list N) :
  lstrip_chars l = [] ↔ forallb is_space l = true.
Proof.
  induction l as [|c r IH]; [done|]. cbn [lstrip_chars forallb].
  destruct (is_space c); [done|]. cbn. split; discriminate.
Qed.

Lemma forallb_lstrip_chars (l : list N) :
  forallb is_space (lstrip_chars l) = forallb is_space l.
Proof.
  induction l as [|c r IH]; [done|]. cbn [lstrip_chars forallb].
  destruct (is_space c) eqn:Hc; [done|]. cbn [forallb]. by rewrite Hc.
Qed.

Lemma forallb_rev {A} (f : A → bool) (l : list A) :
  forallb f (rev l) = forallb f l.
Proof.
  induction l as [|x r IH]; [done|]. cbn [rev forallb].
  rewrite forallb_app, IH. cbn. rewrite andb_true_r. apply andb_comm.
Qed.

(** [s.strip()] is empty exactly when [s] is white space only. *)
Lemma py_strip_empty (s : pystr) :
  py_nonempty (py_strip s) = negb (forallb is_space (chars s)).
Proof.
  unfold py_nonempty, py_strip. cbn [chars].
  destruct (forallb is_space (chars s)) eqn:Hs.
  - apply lstrip_chars_nil in Hs. by rewrite Hs.
  - destruct (rev (lstrip_chars (rev (lstrip_chars (chars s))))) eqn:Hr;
      [|done].
    apply (f_equal (@rev N)) in Hr. rewrite rev_involutive in Hr. cbn in Hr.
    apply lstrip_chars_nil in Hr.
    by rewrite forallb_rev, forallb_lstrip_chars, Hs in Hr.
Qed.

(** X15. With the push key loaded from the environment as line 43 does:
    when the variable is unset or is white space only, [main] posts
    nothing to the push service, however many calls of
    [notify_serverchan] it makes; otherwise each call posts once, in
    order, to the address built from the value with the white space at
    its ends removed. *)
Theorem blank_push_key_posts_nothing (env : gmap pystr pystr)
    (ws : nat → cycle_input) (n : nat) :
  SERVERCHAN_SENDKEY = load_SERVERCHAN_SENDKEY env →
  push_posts (trace (main ws n).2)
  = match env !! "SERVERCHAN_SENDKEY"%py with
    | Some v =>
        if forallb is_space (chars v) then []
        else map (fun c => (("https://sctapi.ftqq.com/" +++ py_strip v
                             +++ ".send")%py, c.1, c.2))
               (notify_calls (trace (main ws n).2))
    | None => []
    end.
Proof.
  intros Hkey. rewrite main_push_posts. unfold push_url.
  pose proof (py_strip_empty (getenv env "SERVERCHAN_SENDKEY" "")) as Hne.
  fold (load_SERVERCHAN_SENDKEY env) in Hne. rewrite <- Hkey in Hne.
  rewrite Hne. unfold load_SERVERCHAN_SENDKEY, getenv in Hkey |- *.
  destruct (env !! "SERVERCHAN_SENDKEY"%py) as [v|];
    cbn [default from_option id] in Hkey |- *; [|done].
  destruct (forallb is_space (chars v)); [done|].
  cbn [negb]. by rewrite Hkey.
Qed.


(** ** Integer quantities *)

Lemma pretty_N_go_chars (x : N) (s : string) :
  chars (of_ascii_string (pretty_N_go x s))
  = chars (of_ascii_string (pretty_N_go x ""))
    ++ chars (of_ascii_string s).
Proof.
  revert s. induction (N.lt_wf_0 x) as [x _ IH]; intros s.
  destruct (decide (x = 0)%N) as [->|Hx]; [by rewrite !pretty_N_go_0|].
  rewrite !(pretty_N_go_step x) by lia.
  assert (x `div` 10 < x)%N as Hlt by (apply N.div_lt; lia).
  rewrite (IH _ Hlt (String _ s)), (IH _ Hlt (String _ "")).
  rewrite <- app_assoc. reflexivity.
Qed.

Lemma pretty_N_char_code (x : N) :
  (x < 10)%N → Ascii.N_of_ascii (pretty_N_char x) = (48 + x)%N.
Proof.
  intros Hx.
  assert (x = 0 ∨ x = 1 ∨ x = 2 ∨ x = 3 ∨ x = 4 ∨ x = 5 ∨ x = 6 ∨ x = 7
          ∨ x = 8 ∨ x = 9)%N as Hcases by lia.
  repeat destruct Hcases as [->|Hcases]; try reflexivity.
  by subst.
Qed.

(** The numeral of [x]: its digits, which read back as [x]. *)
Lemma pretty_N_go_value (x : N) :
  Forall (fun c => 48 ≤ c ≤ 57)%N (chars (of_ascii_string (pretty_N_go x "")))
  ∧ fold_left (fun a c => 10 * a + (Z.of_N c - 48))
      (chars (of_ascii_string (pretty_N_go x ""))) 0
    = Z.of_N x
  ∧ ((0 < x)%N → chars (of_ascii_string (pretty_N_go x "")) ≠ []).
Proof.
  induction (N.lt_wf_0 x) as [x _ IH].
  destruct (decide (x = 0)%N) as [->|Hx].
  { rewrite pretty_N_go_0. split; [constructor|]. split; [done|]. lia. }
  rewrite (pretty_N_go_step x) by lia. rewrite pretty_N_go_chars.
  assert (x `div` 10 < x)%N as Hlt by (apply N.div_lt; lia).
  destruct (IH _ Hlt) as (Hdig & Hval & _).
  assert (x `mod` 10 < 10)%N as Hmod by (apply N.mod_lt; lia).
  change (chars (of_ascii_string (String (pretty_N_char (x `mod` 10)) "")))
    with [Ascii.N_of_ascii (pretty_N_char (x `mod` 10))].
  rewrite pretty_N_char_code by done.
  split; [|split].
  - apply Forall_app. split; [done|]. constructor; [|constructor].
    clear -Hmod. revert Hmod. generalize (x `mod` 10)%N. intros r Hr. lia.
  - rewrite fold_left_app, Hval. cbn [fold_left].
    pose proof (N.div_mod x 10 ltac:(lia)) as Hdm.
    clear -Hmod Hdm. revert Hmod Hdm.
    generalize (x `mod` 10)%N (x `div` 10)%N. intros r q Hr Hq. lia.
  - intros _. by destruct (chars (of_ascii_string (pretty_N_go (x `div` 10) ""))).
Qed.

Lemma int_digits_numeral (l : list N) (acc : Z) (after_digit : bool) :
  Forall (fun c => 48 ≤ c ≤ 57)%N l →
  l ≠ [] ∨ after_digit = true →
  int_digits acc after_digit l
  = Some (fold_left (fun a c => 10 * a + (Z.of_N c - 48)) l acc).
Proof.
  intros Hl. revert acc after_digit.
  induction Hl as [|c r Hc Hr IH]; intros acc after_digit Hne.
  - destruct Hne as [? | ->]; done.
  - cbn [int_digits fold_left].
    destruct (N.eqb_spec c 95); [lia|].
    unfold digit_value.
    assert (((48 <=? c) && (c <=? 57))%N = true) as ->.
    { apply andb_true_intro. split; apply N.leb_le; lia. }
    apply IH. by right.
Qed.

Lemma numeral_char_cases (c : N) :
  (c = 45 ∨ 48 ≤ c ≤ 57)%N →
  is_space c = false ∧ int_space c = false.
Proof.
  intros Hc.
  assert (c = 45 ∨ c = 48 ∨ c = 49 ∨ c = 50 ∨ c = 51 ∨ c = 52 ∨ c = 53
          ∨ c = 54 ∨ c = 55 ∨ c = 56 ∨ c = 57)%N as Hcases by lia.
  repeat destruct Hcases as [->|Hcases]; try done. by subst.
Qed.

Lemma lstrip_chars_numeral (l : list N) :
  Forall (fun c => c = 45 ∨ 48 ≤ c ≤ 57)%N l →
  rev (lstrip_chars (rev (lstrip_chars l))) = l
  ∧ rev (int_lstrip (rev (int_lstrip l))) = l.
Proof.
  intros Hl.
  assert (∀ k, Forall (fun c => c = 45 ∨ 48 ≤ c ≤ 57)%N k →
               lstrip_chars k = k ∧ int_lstrip k = k) as Hfix.
  { intros k [|c r Hc _]; [done|]. cbn [lstrip_chars int_lstrip].
    by destruct (numeral_char_cases c Hc) as [-> ->]. }
  destruct (Hfix l Hl) as [-> ->].
  assert (Forall (fun c => c = 45 ∨ 48 ≤ c ≤ 57)%N (rev l)) as Hrev.
  { by apply Forall_rev. }
  destruct (Hfix _ Hrev) as [-> ->]. by rewrite rev_involutive.
Qed.

(** [int(str(n).strip())] is [n]. *)
Lemma py_int_str_of_Z (n : Z) : py_int (py_strip (str_of_Z n)) = Returned n.
Proof.
  unfold str_of_Z.
  destruct n as [|p|p].
  - reflexivity.
  - unfold pretty, pretty_Z, pretty, pretty_positive, pretty, pretty_N.
    destruct (decide (N.pos p = 0%N)) as [|_]; [done|].
    destruct (pretty_N_go_value (N.pos p)) as (Hdig & Hval & Hne).
    specialize (Hne ltac:(lia)).
    unfold py_strip, py_int.
    remember (chars (of_ascii_string (pretty_N_go (N.pos p) ""))) as l eqn:Hl.
    cbn [chars].
    assert (Forall (fun c => c = 45 ∨ 48 ≤ c ≤ 57)%N l) as Hnum.
    { eapply Forall_impl; [exact Hdig|]. intros c ?. by right. }
    destruct (lstrip_chars_numeral l Hnum) as [-> ->].
    destruct l as [|c r]; [done|].
    assert ((match c :: r with
             | 45%N :: r0 => (-1, r0)
             | 43%N :: r0 => (1, r0)
             | _ => (1, c :: r)
             end) = (1, c :: r)) as ->.
    { apply Forall_cons in Hdig as [Hc _].
      assert (c = 48 ∨ c = 49 ∨ c = 50 ∨ c = 51 ∨ c = 52 ∨ c = 53
              ∨ c = 54 ∨ c = 55 ∨ c = 56 ∨ c = 57)%N as Hcases by lia.
      repeat destruct Hcases as [->|Hcases]; try reflexivity. by subst. }
    cbn [fst snd]. rewrite int_digits_numeral by (done || by left).
    rewrite Hval. f_equal; lia.
  - unfold pretty, pretty_Z, pretty, pretty_positive, pretty, pretty_N.
    destruct (decide (N.pos p = 0%N)) as [|_]; [done|].
    destruct (pretty_N_go_value (N.pos p)) as (Hdig & Hval & Hne).
    specialize (Hne ltac:(lia)).
    unfold py_strip, py_int.
    change (chars (of_ascii_string ("-" +:+ pretty_N_go (N.pos p) "")))
      with (45%N :: chars (of_ascii_string (pretty_N_go (N.pos p) ""))).
    remember (chars (of_ascii_string (pretty_N_go (N.pos p) ""))) as l eqn:Hl.
    cbn [chars].
    assert (Forall (fun c => c = 45 ∨ 48 ≤ c ≤ 57)%N (45%N :: l)) as Hnum.
    { constructor; [by left|].
      eapply Forall_impl; [exact Hdig|]. intros c ?. by right. }
    destruct (lstrip_chars_numeral _ Hnum) as [-> ->].
    cbn [fst snd]. rewrite int_digits_numeral by (done || by left).
    rewrite Hval. f_equal; lia.
Qed.

(** X17. A quantity that is a JSON integer [n] of at most 4300 decimal
    digits (the most the interpreter converts), or the text of its
    decimal numeral, is read as [n]: [int(str(n).strip())] is [n], so
    such a slot is listed exactly when [n] is positive, with the numeral
    of [n] in its line. *)
Theorem integer_quantity_is_read_as_itself (n : Z) (d : gmap pystr json) :
  - 10 ^ 4300 < n < 10 ^ 4300 →
  let s_int := JDict (<["nums"%py := JInt n]> d) in
  let s_str := JDict (<["nums"%py := JStr (str_of_Z n)]> d) in
  slot_nums s_int = n
  ∧ slot_nums s_str = n
  ∧ format_available_lines [s_int]
    = Returned (if 0 <? n
                then [(slot_label s_int +++ "：" +++ str_of_Z n +++ " 张")%py]
                else [])
  ∧ format_available_lines [s_str]
    = Returned (if 0 <? n
                then [(slot_label s_str +++ "：" +++ str_of_Z n +++ " 张")%py]
                else []).
Proof.
  intros _ s_int s_str.
  assert (parsed_quantity s_int = n ∧ parsed_quantity s_str = n) as [Hi Hs].
  { unfold parsed_quantity, s_int, s_str. rewrite !lookup_insert_eq.
    cbn [py_str]. by rewrite py_int_str_of_Z. }
  rewrite !slot_nums_parsed, !format_available_lines_spec.
  unfold filterAvailable. rewrite !filter_cons, !filter_nil.
  rewrite Hi, Hs. split; [done|]. split; [done|].
  destruct (Z.ltb_spec 0 n).
  - rewrite !decide_True by done. cbn [map]. unfold render. cbn [label remaining].
    by rewrite Hi, Hs.
  - rewrite !decide_False by lia. done.
Qed.


(** ** The tests on the message *)

Lemma occurs_in_cons (p : list N) (x : N) (s : list N) :
  occurs_in p s = true → occurs_in p (x :: s) = true.
Proof. intros H. cbn [occurs_in]. rewrite H. apply orb_true_r. Qed.

Lemma starts_with_occurs_in (p s : list N) :
  starts_with p s = true → occurs_in p s = true.
Proof. intros H. destruct s; cbn [occurs_in]; by rewrite H. Qed.

Lemma starts_with_app_occurs_in (a b s : list N) :
  starts_with (a ++ b) s = true → occurs_in b s = true.
Proof.
  revert s. induction a as [|y a IH]; intros s.
  - apply starts_with_occurs_in.
  - destruct s as [|z s]; [discriminate|]. cbn [app starts_with].
    intros [_ H]%andb_prop. apply occurs_in_cons. by apply IH.
Qed.

(** A text that contains [a ++ b] contains [b]. *)
Lemma occurs_in_suffix (a b s : list N) :
  occurs_in (a ++ b) s = true → occurs_in b s = true.
Proof.
  induction s as [|x s IH].
  - cbn [occurs_in]. rewrite orb_false_r. apply starts_with_app_occurs_in.
  - intros H. change (occurs_in (a ++ b) (x :: s))
      with (starts_with (a ++ b) (x :: s) || occurs_in (a ++ b) s) in H.
    apply orb_prop in H as [H|H].
    + by apply starts_with_app_occurs_in in H.
    + apply occurs_in_cons. by apply IH.
Qed.

(** X18. In the test of line 154 the second disjunct never decides: a
    message that contains the longer text contains the shorter one, so
    the test is the same as the first and the third disjunct alone. *)
Theorem login_test_second_disjunct_is_dead (msg : pystr) (code : json) :
  py_in "登录" msg || py_in "请先登录" msg || eq_zero code
  = py_in "登录" msg || eq_zero code.
Proof.
  destruct (py_in "登录" msg) eqn:H1; [done|].
  destruct (py_in "请先登录" msg) eqn:H2; [|done].
  unfold py_in in H1, H2.
  change (chars "请先登录") with (chars "请先" ++ chars "登录") in H2.
  apply occurs_in_suffix in H2. by rewrite H2 in H1.
Qed.

End Monitor.

(** * The headers of a fetch *)

(** X16. The [token] header of [get_headers], for the module constant
    loaded in the environment [env0] and a call in the environment [env]:
    it is the value of [POTALA_TOKEN] in [env] as it stands, white space
    included, when the variable is set there, and the stripped value of
    load time only when it is not.  In particular, with the variable
    unchanged since the load, the header is the raw value of the variable
    (the empty string when unset): the [strip()] of line 46 has no effect
    on it.  The other headers do not depend on the environment. *)
Theorem get_headers_token (env0 env : gmap pystr pystr) :
  let headers := get_headers (load_POTALA_TOKEN env0) env in
  headers !! "token"%py
  = Some (match env !! "POTALA_TOKEN"%py with
          | Some v => v
          | None => py_strip (getenv env0 "POTALA_TOKEN" "")
          end)
  ∧ (env !! "POTALA_TOKEN"%py = env0 !! "POTALA_TOKEN"%py →
     headers !! "token"%py = Some (getenv env "POTALA_TOKEN" ""))
  ∧ (∀ name, name ≠ "token"%py →
             headers !! name = get_headers "" ∅ !! name).
Proof.
  assert (∀ s : pystr, (if py_nonempty s then s else ""%py) = s) as Hor.
  { intros [[|c l]]; reflexivity. }
  assert (get_headers (load_POTALA_TOKEN env0) env !! "token"%py
          = Some (match env !! "POTALA_TOKEN"%py with
                  | Some v => v
                  | None => py_strip (getenv env0 "POTALA_TOKEN" "")
                  end)) as Htoken.
  { unfold get_headers. rewrite Hor.
    do 5 (rewrite lookup_insert_ne by done). rewrite lookup_insert_eq.
    unfold getenv, load_POTALA_TOKEN, getenv.
    by destruct (env !! "POTALA_TOKEN"%py). }
  cbn zeta. split; [exact Htoken|]. split.
  - intros Hsame. rewrite Htoken. unfold getenv. rewrite <- Hsame.
    by destruct (env !! "POTALA_TOKEN"%py).
  - intros name Hname. unfold get_headers.
    rewrite !(lookup_insert (M:=gmap pystr)).
    repeat case_decide; congruence.
Qed.

(** * The theorems at concrete inputs *)

(** C3. A response with status 200 whose body is the JSON text [[]] makes
    [fetch_slots] raise [AttributeError], after the post, where the
    specification's rule classifies the response as an error; nothing in
    [main] catches the exception. *)
Theorem C3_list_body_raises_instead_of_error :
  fetch_slots opaque_repr 1 "2025-10-01" (PostReturned list_body_response)
    (Machine ∅ [])
  = (Raised AttributeError, Machine ∅ [EvFetch 1 "2025-10-01"])
  ∧ classify opaque_repr (PostReturned list_body_response)
    = Error "未知返回: code=None, msg="
  ∧ main_key "" ascii_digits_only opaque_repr day_2025_09_20 1 "2025-10-01"
      (PollInput (PostReturned list_body_response) PushRaised 0)
      (Machine ∅ [])
    = (Raised AttributeError, Machine ∅ [EvFetch 1 "2025-10-01"])
  ∧ (main [1] ["2025-10-01"%py] "" ascii_digits_only opaque_repr
       (fun _ => CycleInput day_2025_09_20
                   (fun _ _ => PollInput (PostReturned list_body_response)
                                 PushRaised 0)
                   day_2025_09_20 0) 1).1
    = Raised AttributeError.
Proof. repeat split; vm_compute; reflexivity. Qed.

(** The target 0001-01-10 is well formed, and [compute_open_date] raises
    [OverflowError] on it: fifteen days earlier is before the first day
    of [datetime.date]. *)
Lemma C5_counterexample_year_one :
  strptime_date ascii_digits_only "0001-01-10" = Returned (Date 10)
  ∧ compute_open_date ascii_digits_only "0001-01-10" = Raised OverflowError.
Proof. split; vm_compute; reflexivity. Qed.

(** C5 at the target 2025-10-01, whose ordinal is 739525. *)
Lemma C5_witness :
  strptime_date ascii_digits_only "2025-10-01" = Returned (Date 739525)
  ∧ 16 ≤ toordinal (Date 739525)
  ∧ compute_open_date ascii_digits_only "2025-10-01"
    = Returned (Date (toordinal (Date 739525) - 15))
  ∧ compute_open_date ascii_digits_only "2025-10-01" = date_new 2025 9 16.
Proof.
  assert (strptime_date ascii_digits_only "2025-10-01"
          = Returned (Date 739525)) as Hs by (vm_compute; reflexivity).
  assert (16 ≤ toordinal (Date 739525)) as Hlo by (cbn; lia).
  destruct (C5_open_date_is_target_minus_15 ascii_digits_only "2025-10-01"
              (Date 739525) Hs Hlo) as (Hopen & _ & Hex & _).
  repeat split; assumption.
Defined.

(** C1 on 2025-09-20: the first pass that meets the example slots pushes
    once and stores their fingerprint; a second pass that meets them again
    pushes nothing and leaves the table. *)
Lemma C1_witness :
  let m0 := Machine ∅ [] in
  let r := main_key "SCT1" ascii_digits_only opaque_repr day_2025_09_20 1
             "2025-10-01" stock_poll m0 in
  let r' := main_key "SCT1" ascii_digits_only opaque_repr day_2025_09_20 1
              "2025-10-01" other_stock_poll r.2 in
  compute_open_date ascii_digits_only "2025-10-01" = Returned (Date 739510)
  ∧ (fetch_slots opaque_repr 1 "2025-10-01" (net stock_poll) m0).1
    = Returned (FetchStatus.OK, Some example_slots, "ok"%py)
  ∧ notify_calls (new_events m0 r.2)
    = [(push_title 1 "2025-10-01",
        push_body (map render (filterAvailable ascii_digits_only opaque_repr
                                 example_slots)))]
  ∧ notify_calls (new_events m0 r.2)
    = [("布达拉宫 2025-10-01 有票更新（路线1）"%py, "- 10:00-11:00：5 张"%py)]
  ∧ carries (chars "- 10:00-11:00：5 张") ["10:00-11:00：5 张"%py]
  ∧ state_of r.2 (1, "2025-10-01"%py)
    = HasStockNotified
        (fingerprint (filterAvailable ascii_digits_only opaque_repr
                        example_slots))
  ∧ notify_calls (new_events r.2 r'.2) = []
  ∧ last_pushed r'.2 = last_pushed r.2.
Proof.
  intros m0 r r'.
  assert (compute_open_date ascii_digits_only "2025-10-01"
          = Returned (Date 739510)) as Hod by (vm_compute; reflexivity).
  assert (toordinal (Date 739510) ≤ toordinal day_2025_09_20) as Hge
    by (vm_compute; discriminate).
  assert (∀ m, (fetch_slots opaque_repr 1 "2025-10-01"
                  (PostReturned stock_response) m).1
               = Returned (FetchStatus.OK, Some example_slots, "ok"%py))
    as Hf by (intros m; vm_compute; reflexivity).
  assert (filterAvailable ascii_digits_only opaque_repr example_slots ≠ [])
    as Hne by (vm_compute; discriminate).
  destruct (C1_notify_once_per_fingerprint "SCT1" ascii_digits_only
              opaque_repr day_2025_09_20 1 "2025-10-01" stock_poll m0
              (Date 739510) example_slots "ok" Hod Hge (Hf m0) Hne)
    as (_ & Hfirst & _).
  destruct Hfirst as ((content & Hcalls & -> & Hcarries & _) & _ & Hstate);
    [vm_compute; discriminate|].
  destruct (C1_notify_once_per_fingerprint "SCT1" ascii_digits_only
              opaque_repr day_2025_09_20 1 "2025-10-01" other_stock_poll r.2
              (Date 739510) example_slots "ok" Hod Hge (Hf r.2) Hne)
    as (_ & _ & Hagain).
  destruct (Hagain Hstate) as (Hquiet & Hsame).
  assert (notify_calls (new_events m0 r.2)
          = [("布达拉宫 2025-10-01 有票更新（路线1）"%py,
              "- 10:00-11:00：5 张"%py)]) as Htext.
  { etrans; [exact Hcalls|]. vm_compute. reflexivity. }
  split; [exact Hod|]. split; [apply Hf|]. split; [exact Hcalls|].
  split; [exact Htext|]. split; [exact Hcarries|].
  split; [exact Hstate|]. split; [exact Hquiet | exact Hsame].
Defined.

(** C2 on 2025-09-20 at a response that asks to log in. *)
Lemma C2_witness :
  let m0 := Machine ∅ [] in
  let r := main_key "SCT1" ascii_digits_only opaque_repr day_2025_09_20 1
             "2025-10-01" login_poll m0 in
  (fetch_slots opaque_repr 1 "2025-10-01" (net login_poll) m0).1
  = Returned (FetchStatus.ERROR, None, "接口异常或token无效: 请先登录"%py)
  ∧ r.1 = Returned ()
  ∧ notify_calls (new_events m0 r.2) = []
  ∧ last_pushed r.2 = last_pushed m0.
Proof.
  intros m0 r.
  assert (compute_open_date ascii_digits_only "2025-10-01"
          = Returned (Date 739510)) as Hod by (vm_compute; reflexivity).
  assert (toordinal (Date 739510) ≤ toordinal day_2025_09_20) as Hge
    by (vm_compute; discriminate).
  assert ((fetch_slots opaque_repr 1 "2025-10-01" (net login_poll) m0).1
          = Returned (FetchStatus.ERROR, None,
                      "接口异常或token无效: 请先登录"%py))
    as Hf by (vm_compute; reflexivity).
  destruct (C2_error_leaves_state "SCT1" ascii_digits_only opaque_repr
              day_2025_09_20 1 "2025-10-01" login_poll m0 (Date 739510)
              None _ Hod Hge Hf) as (Hret & Hcalls & _ & Htbl & _).
  repeat split; assumption.
Defined.

(** C6 at a turn on 2025-09-15, the day before the open date. *)
Lemma C6_witness :
  let m0 := Machine ∅ [] in
  let r := main_cycle [1] ["2025-10-01"%py] "SCT1" ascii_digits_only
             opaque_repr early_turn m0 in
  compute_open_date ascii_digits_only "2025-10-01" = Returned (Date 739510)
  ∧ toordinal (today_at_start early_turn) < toordinal (Date 739510)
  ∧ r.1 = Returned ()
  ∧ state_of r.2 (1, "2025-10-01"%py) = NotOpenNotified
  ∧ fetch_calls (trace r.2) = [].
Proof.
  intros m0 r.
  assert (compute_open_date ascii_digits_only "2025-10-01"
          = Returned (Date 739510)) as Hod by (vm_compute; reflexivity).
  assert (toordinal (today_at_start early_turn) < toordinal (Date 739510))
    as Hlt by (vm_compute; reflexivity).
  assert (r.1 = Returned ()) as Hret by (vm_compute; reflexivity).
  destruct (C6_no_fetch_before_open_date [1] ["2025-10-01"%py] "SCT1"
              ascii_digits_only opaque_repr early_turn m0)
    as (_ & evs & _ & _ & Hdone).
  destruct (Hdone Hret 1 "2025-10-01"%py (Date 739510)) as (Hearly & _);
    [by apply elem_of_cons; left | by apply elem_of_cons; left | exact Hod |].
  repeat split;
    first [assumption | by apply Hearly | vm_compute; reflexivity].
Defined.

(** C7 at a push whose post raises, and at a pass whose push is answered
    with status 500. *)
Lemma C7_witness :
  let m0 := Machine ∅ [] in
  let r := main_key "SCT1" ascii_digits_only opaque_repr day_2025_09_20 1
             "2025-10-01"
             (PollInput (net stock_poll) (PushReturned 500) (pause stock_poll))
             m0 in
  (notify_serverchan "SCT1" "title" "body" PushRaised m0).1 = Returned ()
  ∧ r.1 = Returned ()
  ∧ state_of r.2 (1, "2025-10-01"%py)
    = HasStockNotified
        (fingerprint (filterAvailable ascii_digits_only opaque_repr
                        example_slots)).
Proof.
  intros m0 r.
  destruct (C7_notify_fails_soft "SCT1" ascii_digits_only opaque_repr)
    as (Hsoft & Hcommit).
  destruct (Hsoft "title"%py "body"%py PushRaised m0) as (Hret & _).
  assert (compute_open_date ascii_digits_only "2025-10-01"
          = Returned (Date 739510)) as Hod by (vm_compute; reflexivity).
  assert (toordinal (Date 739510) ≤ toordinal day_2025_09_20) as Hge
    by (vm_compute; discriminate).
  assert ((fetch_slots opaque_repr 1 "2025-10-01" (net stock_poll) m0).1
          = Returned (FetchStatus.OK, Some example_slots, "ok"%py))
    as Hf by (vm_compute; reflexivity).
  assert (filterAvailable ascii_digits_only opaque_repr example_slots ≠ [])
    as Hne by (vm_compute; discriminate).
  destruct (Hcommit day_2025_09_20 1 "2025-10-01"%py stock_poll m0
              (Date 739510) example_slots "ok"%py Hod Hge Hf Hne
              ltac:(vm_compute; discriminate) (PushReturned 500))
    as (Hr & _ & Hstate).
  repeat split; assumption.
Defined.

(** C8 for the target 2025-10-01 and the word 7: 67 seconds on
    2025-09-20, 43207 seconds on 2025-09-15. *)
Lemma C8_witness :
  randint 0 JITTER_SEC 7 = Returned 7
  ∧ Forall (fun d => ∃ od, compute_open_date ascii_digits_only d = Returned od)
      ["2025-10-01"%py]
  ∧ sleep_duration ["2025-10-01"%py] ascii_digits_only day_2025_09_20 7
    = Returned 67
  ∧ (∃ base, 67 = base + 7 ∧ base = 60)
  ∧ sleep_duration ["2025-10-01"%py] ascii_digits_only day_2025_09_15 7
    = Returned 43207
  ∧ (∃ base, 43207 = base + 7 ∧ base = 43200).
Proof.
  assert (compute_open_date ascii_digits_only "2025-10-01"
          = Returned (Date 739510)) as Hod by (vm_compute; reflexivity).
  assert (Forall (fun d => ∃ od, compute_open_date ascii_digits_only d
                                 = Returned od) ["2025-10-01"%py]) as Hall.
  { apply Forall_cons. split; [by exists (Date 739510) | apply Forall_nil_2]. }
  assert (sleep_duration ["2025-10-01"%py] ascii_digits_only day_2025_09_20 7
          = Returned 67) as Hlate by (vm_compute; reflexivity).
  assert (sleep_duration ["2025-10-01"%py] ascii_digits_only day_2025_09_15 7
          = Returned 43207) as Hearly by (vm_compute; reflexivity).
  destruct (C8_sleep_is_base_plus_jitter [1] ["2025-10-01"%py] "SCT1"
              ascii_digits_only opaque_repr day_2025_09_20 7)
    as (j & Hj & _ & _ & _ & _ & Hval).
  destruct (Hval 67 Hlate) as (base & Hsum & _ & _ & _).
  destruct (C8_sleep_is_base_plus_jitter [1] ["2025-10-01"%py] "SCT1"
              ascii_digits_only opaque_repr day_2025_09_15 7)
    as (j' & Hj' & _ & _ & _ & _ & Hval').
  destruct (Hval' 43207 Hearly) as (base' & Hsum' & _ & _ & _).
  assert (j = 7) as -> by (vm_compute in Hj; congruence).
  assert (j' = 7) as -> by (vm_compute in Hj'; congruence).
  repeat split; try assumption.
  - exists base. split; [exact Hsum | lia].
  - exists base'. split; [exact Hsum' | lia].
Defined.

(** C10 at two passes that differ in the day, the delivery, the draw, the
    rest of the table and the trace so far. *)
Lemma C10_witness :
  let m1 := Machine ∅ [] in
  let m2 := Machine (<[(2, "2025-11-01"%py) := status_payload "NO_STOCK" ""]> ∅)
              [EvSleep 61 0] in
  let r1 := main_key "SCT1" ascii_digits_only opaque_repr day_2025_09_20 1
              "2025-10-01" stock_poll m1 in
  let r2 := main_key "SCT1" ascii_digits_only opaque_repr
              (Date (ymd2ord 2025 9 28)) 1 "2025-10-01" other_stock_poll m2 in
  last_pushed m1 !! (1, "2025-10-01"%py) = last_pushed m2 !! (1, "2025-10-01"%py)
  ∧ r1.1 = r2.1
  ∧ notify_calls (new_events m1 r1.2) = notify_calls (new_events m2 r2.2)
  ∧ map forget_pause (new_events m1 r1.2)
    = map forget_pause (new_events m2 r2.2)
  ∧ last_pushed r1.2 !! (1, "2025-10-01"%py)
    = last_pushed r2.2 !! (1, "2025-10-01"%py).
Proof.
  intros m1 m2 r1 r2.
  assert (compute_open_date ascii_digits_only "2025-10-01"
          = Returned (Date 739510)) as Hod by (vm_compute; reflexivity).
  assert (toordinal (Date 739510) ≤ toordinal day_2025_09_20) as Hge1
    by (vm_compute; discriminate).
  assert (toordinal (Date 739510) ≤ toordinal (Date (ymd2ord 2025 9 28)))
    as Hge2 by (vm_compute; discriminate).
  assert (∀ w m, net w = PostReturned stock_response →
            (fetch_slots opaque_repr 1 "2025-10-01" (net w) m).1
            = Returned (FetchStatus.OK, Some example_slots, "ok"%py))
    as Hf by (intros w m ->; vm_compute; reflexivity).
  assert (last_pushed m1 !! (1, "2025-10-01"%py)
          = last_pushed m2 !! (1, "2025-10-01"%py)) as Hst
    by (vm_compute; reflexivity).
  split; [exact Hst|].
  exact (C10_decision_deterministic "SCT1" ascii_digits_only opaque_repr
           day_2025_09_20 (Date (ymd2ord 2025 9 28)) 1 "2025-10-01"
           stock_poll other_stock_poll m1 m2 (Date 739510)
           (FetchStatus.OK, Some example_slots, "ok"%py)
           Hod Hge1 Hge2 (Hf stock_poll m1 eq_refl)
           (Hf other_stock_poll m2 eq_refl) Hst).
Defined.

(** X1 at the example response. *)
Lemma fetch_slots_classify_witness :
  (∀ r body, PostReturned stock_response = PostReturned r →
             json_body r = Some body → ∃ d, body = JDict d)
  ∧ snapshot_of (FetchStatus.OK, Some example_slots, "ok"%py)
    = Some (classify opaque_repr (PostReturned stock_response))
  ∧ classify opaque_repr (PostReturned stock_response) = Open example_slots.
Proof.
  assert (∀ r body, PostReturned stock_response = PostReturned r →
                    json_body r = Some body → ∃ d, body = JDict d) as Hobj.
  { intros r body [= <-] [= <-]. eexists. reflexivity. }
  destruct (fetch_slots_classify opaque_repr 1 "2025-10-01"
              (PostReturned stock_response) (Machine ∅ []) Hobj)
    as (t & Hrun & Hsnap).
  assert (t = (FetchStatus.OK, Some example_slots, "ok"%py)) as ->.
  { assert (fetch_slots opaque_repr 1 "2025-10-01"
              (PostReturned stock_response) (Machine ∅ [])
            = (Returned (FetchStatus.OK, Some example_slots, "ok"%py),
               Machine ∅ [EvFetch 1 "2025-10-01"])) as Hval
      by (vm_compute; reflexivity).
    rewrite Hval in Hrun. by injection Hrun as <-. }
  split; [exact Hobj|]. split; [exact Hsnap|]. vm_compute. reflexivity.
Defined.

(** X2 at the first pass that meets the example slots. *)
Lemma main_key_refines_observe_witness :
  let m0 := Machine ∅ [] in
  let r := main_key "SCT1" ascii_digits_only opaque_repr day_2025_09_20 1
             "2025-10-01" stock_poll m0 in
  snapshot_of (FetchStatus.OK, Some example_slots, "ok"%py)
  = Some (Open example_slots)
  ∧ r.1 = Returned ()
  ∧ state_of r.2 (1, "2025-10-01"%py)
    = (observe ascii_digits_only opaque_repr (state_of m0 (1, "2025-10-01"%py))
         (Open example_slots)).2
  ∧ state_of r.2 (1, "2025-10-01"%py) = HasStockNotified "10:00-11:00：5 张"
  ∧ (observe ascii_digits_only opaque_repr (state_of m0 (1, "2025-10-01"%py))
       (Open example_slots)).1
    = Some ["10:00-11:00：5 张"%py]
  ∧ notify_calls (new_events m0 r.2)
    = [("布达拉宫 2025-10-01 有票更新（路线1）"%py, "- 10:00-11:00：5 张"%py)]
  ∧ ∃ content,
      notify_calls (new_events m0 r.2)
      = [("布达拉宫 2025-10-01 有票更新（路线1）"%py, content)]
      ∧ carries (chars content) ["10:00-11:00：5 张"%py].
Proof.
  intros m0 r.
  assert (compute_open_date ascii_digits_only "2025-10-01"
          = Returned (Date 739510)) as Hod by (vm_compute; reflexivity).
  assert (toordinal (Date 739510) ≤ toordinal day_2025_09_20) as Hge
    by (vm_compute; discriminate).
  assert ((fetch_slots opaque_repr 1 "2025-10-01" (net stock_poll) m0).1
          = Returned (FetchStatus.OK, Some example_slots, "ok"%py))
    as Hf by (vm_compute; reflexivity).
  assert (snapshot_of (FetchStatus.OK, Some example_slots, "ok"%py)
          = Some (Open example_slots)) as Hsnap by reflexivity.
  assert ((observe ascii_digits_only opaque_repr
             (state_of m0 (1, "2025-10-01"%py)) (Open example_slots)).1
          = Some ["10:00-11:00：5 张"%py]) as Hstep by (vm_compute; reflexivity).
  destruct (main_key_refines_observe "SCT1" ascii_digits_only opaque_repr
              day_2025_09_20 1 "2025-10-01" stock_poll m0 (Date 739510)
              _ _ Hod Hge Hf Hsnap) as (Hret & Hstate & Hcalls & Hcarries).
  destruct (Hcarries _ Hstep)
    as (slots & content & _ & _ & _ & _ & Hcontent & Hcar).
  assert (notify_calls (new_events m0 r.2)
          = [("布达拉宫 2025-10-01 有票更新（路线1）"%py,
              "- 10:00-11:00：5 张"%py)]) as Htext.
  { etrans; [exact Hcalls|]. vm_compute. reflexivity. }
  split; [exact Hsnap|]. split; [exact Hret|]. split; [exact Hstate|].
  split; [vm_compute; reflexivity|]. split; [exact Hstep|].
  split; [exact Htext|].
  exists content. split; [|exact Hcar].
  etrans; [exact Hcontent|]. vm_compute. reflexivity.
Defined.

(** The end-to-end scenario: over four turns that meet "not yet
    open", a slot A with 3 left, the same again and the slot A with 1
    left, [main] pushes twice, once for each new fingerprint, and the
    state of the key goes from [NOT_OPEN] to [HAS_STOCK] with the first
    fingerprint, stays, and moves to the second. *)
Theorem scenario_four_turns :
  let run := main [1] ["2025-10-01"%py] "SCT1" ascii_digits_only opaque_repr
               scenario in
  let key := (1, "2025-10-01"%py) in
  notify_calls (trace (run 1%nat).2) = []
  ∧ state_of (run 1%nat).2 key = NotOpenNotified
  ∧ notify_calls (trace (run 2%nat).2) = [(push_title 1 "2025-10-01", "- A：3 张"%py)]
  ∧ state_of (run 2%nat).2 key = HasStockNotified "A：3 张"
  ∧ notify_calls (trace (run 3%nat).2) = [(push_title 1 "2025-10-01", "- A：3 张"%py)]
  ∧ state_of (run 3%nat).2 key = HasStockNotified "A：3 张"
  ∧ notify_calls (trace (run 4%nat).2)
    = [(push_title 1 "2025-10-01", "- A：3 张"%py);
       (push_title 1 "2025-10-01", "- A：1 张"%py)]
  ∧ state_of (run 4%nat).2 key = HasStockNotified "A：1 张"
  ∧ (run 4%nat).1 = Returned ().
Proof. repeat split; vm_compute; reflexivity. Qed.

(** X5 at a pass on 2025-09-20 that meets a response whose body is the
    JSON text [[]]. *)
Lemma main_key_raises_only_witness :
  let m0 := Machine ∅ [] in
  let w := PollInput (PostReturned list_body_response) PushRaised 0 in
  let r := main_key "SCT1" ascii_digits_only opaque_repr day_2025_09_20 1
             "2025-10-01" w m0 in
  r.1 = Raised AttributeError
  ∧ last_pushed r.2 = last_pushed m0
  ∧ new_events m0 r.2 = [EvFetch 1 "2025-10-01"].
Proof.
  intros m0 w r.
  assert (r.1 = Raised AttributeError) as Hraised by (vm_compute; reflexivity).
  destruct (main_key_raises_only [1] ["2025-10-01"%py] "SCT1"
              ascii_digits_only opaque_repr day_2025_09_20 1 "2025-10-01"
              w m0 AttributeError Hraised) as (_ & Htbl & Hevs & _).
  repeat split; assumption.
Defined.

(** X8 at the monitored text 2025-13-01, which is no date. *)
Lemma bad_date_ends_first_turn_witness :
  let run := main [1] ["2025-13-01"%py] "SCT1" ascii_digits_only opaque_repr
               (fun _ => stock_turn) in
  compute_open_date ascii_digits_only "2025-13-01" = Raised ValueError
  ∧ ∃ e, (run 3%nat).1 = Raised e ∧ run 3%nat = run 1%nat.
Proof.
  intros run.
  assert (compute_open_date ascii_digits_only "2025-13-01" = Raised ValueError)
    as Hod by (vm_compute; reflexivity).
  split; [exact Hod|].
  destruct (bad_date_ends_first_turn [1] ["2025-13-01"%py] "SCT1"
              ascii_digits_only opaque_repr "2025-13-01" ValueError)
    as [_ Hmain];
    [by apply elem_of_cons; left | exact Hod | discriminate |].
  exact (Hmain (fun _ => stock_turn) 2%nat).
Defined.

(** X9 at a configuration with no product. *)
Lemma empty_configuration_does_nothing_witness :
  main_for [] ["2025-10-01"%py] "SCT1" ascii_digits_only opaque_repr
    stock_turn (Machine ∅ [])
  = (Returned (), Machine ∅ []).
Proof.
  apply (empty_configuration_does_nothing [] ["2025-10-01"%py] "SCT1"
           ascii_digits_only opaque_repr stock_turn (Machine ∅ [])).
  by left.
Defined.

(** X10 at a turn on 2025-09-20 that meets the example slots. *)
Lemma turn_fetches_in_loop_order_witness :
  let m0 := Machine ∅ [] in
  let r := main_cycle [1] ["2025-10-01"%py] "SCT1" ascii_digits_only
             opaque_repr stock_turn m0 in
  r.1 = Returned ()
  ∧ fetch_calls (new_events m0 r.2) = [(1, "2025-10-01"%py)]
  ∧ (length (notify_calls (new_events m0 r.2)) ≤ 1)%nat.
Proof.
  intros m0 r.
  assert (r.1 = Returned ()) as Hret by (vm_compute; reflexivity).
  destruct (turn_fetches_in_loop_order [1] ["2025-10-01"%py] "SCT1"
              ascii_digits_only opaque_repr stock_turn m0 Hret)
    as (Hfetch & Hnotify & _).
  assert (fetch_calls (new_events m0 r.2) = [(1, "2025-10-01"%py)]) as Hone.
  { etrans; [exact Hfetch|]. vm_compute. reflexivity. }
  split; [exact Hret|]. split; [exact Hone|].
  etrans; [exact Hnotify|]. fold r. rewrite Hone. apply le_n.
Defined.

(** X13 at five turns on 2025-09-20 whose pushes all fail. *)
Lemma polling_loop_keeps_running_witness :
  (main_turns [1] ["2025-10-01"%py] "SCT1" ascii_digits_only opaque_repr
     (fun _ => stock_turn) 0 5 (Machine ∅ [])).1
  = Returned ().
Proof.
  apply (polling_loop_keeps_running [1] ["2025-10-01"%py] "SCT1"
           ascii_digits_only opaque_repr (fun _ => stock_turn) 0 5
           (Machine ∅ [])).
  - constructor; [|constructor]. split; vm_compute; reflexivity.
  - constructor; [|constructor]. exists (Date 739510). vm_compute. reflexivity.
  - intros k i j. reflexivity.
Defined.

(** X14 at the example slots and at the one slot of theirs that is
    listed. *)
Lemma merged_string_determines_lines_witness :
  let slots2 :=
    [ JDict (<["time_interval_str"%py := JStr "10:00-11:00"]>
               (<["nums"%py := JInt 5]> ∅)) ] in
  format_available_lines ascii_digits_only opaque_repr example_slots
  = Returned ["10:00-11:00：5 张"%py]
  ∧ format_available_lines ascii_digits_only opaque_repr slots2
    = Returned ["10:00-11:00：5 张"%py]
  ∧ push_body ["10:00-11:00：5 张"%py] = push_body ["10:00-11:00：5 张"%py].
Proof.
  intros slots2.
  assert (format_available_lines ascii_digits_only opaque_repr example_slots
          = Returned ["10:00-11:00：5 张"%py]) as H1 by (vm_compute; reflexivity).
  assert (format_available_lines ascii_digits_only opaque_repr slots2
          = Returned ["10:00-11:00：5 张"%py]) as H2 by (vm_compute; reflexivity).
  assert (Forall (fun l => 124%N ∉ chars l) ["10:00-11:00：5 张"%py]) as Hbar.
  { apply (bool_decide_unpack _). vm_compute. exact I. }
  destruct (merged_string_determines_lines ascii_digits_only opaque_repr
              example_slots slots2 _ _ H1 H2 Hbar Hbar eq_refl) as [_ Hbody].
  repeat split; assumption.
Defined.

(** X15 at a push key with a blank at each end. *)
Lemma blank_push_key_posts_nothing_witness :
  let env : gmap pystr pystr := {[ "SERVERCHAN_SENDKEY"%py := " SCT1 "%py ]} in
  let r := main [1] ["2025-10-01"%py] "SCT1" ascii_digits_only opaque_repr
             (fun _ => stock_turn) 2 in
  "SCT1"%py = load_SERVERCHAN_SENDKEY env
  ∧ push_posts (trace r.2)
    = map (fun c => ("https://sctapi.ftqq.com/SCT1.send"%py, c.1, c.2))
        (notify_calls (trace r.2)).
Proof.
  intros env r.
  assert ("SCT1"%py = load_SERVERCHAN_SENDKEY env) as Hkey
    by (vm_compute; reflexivity).
  split; [exact Hkey|].
  etrans; [exact (blank_push_key_posts_nothing [1] ["2025-10-01"%py] "SCT1"
                    ascii_digits_only opaque_repr env (fun _ => stock_turn) 2
                    Hkey)|].
  vm_compute. reflexivity.
Defined.

(** X17 at a slot whose quantity is the JSON integer 5. *)
Lemma integer_quantity_is_read_as_itself_witness :
  let s := JDict (<["nums"%py := JInt 5]>
                    (<["time_interval_str"%py := JStr "10:00-11:00"]> ∅)) in
  slot_nums ascii_digits_only opaque_repr s = 5
  ∧ format_available_lines ascii_digits_only opaque_repr [s]
    = Returned ["10:00-11:00：5 张"%py].
Proof.
  intros s.
  destruct (integer_quantity_is_read_as_itself ascii_digits_only opaque_repr 5
              (<["time_interval_str"%py := JStr "10:00-11:00"]> ∅))
    as (Hnums & _ & Hlines & _).
  { split; vm_compute; reflexivity. }
  split; [exact Hnums|].
  etrans; [exact Hlines|]. vm_compute. reflexivity.
Defined.
